(** * Skriptendruck: cover sheets, PDF merging, pricing and logging set-up

    A shallow embedding of [skriptendruck/services/pdf_service.py],
    [skriptendruck/config/logging.py] and the command [credentials] of
    [commands.py].  Python code that touches the file
    system, the logger or a library that may raise is written in a small
    state-and-exception monad [Py]; the behaviour of the libraries (pypdf,
    PyMuPDF, reportlab, tempfile, the disk) is an explicit environment
    [env] read by the primitives. *)

From Stdlib Require Import ZArith QArith Qminmax Lqa String Ascii List DecimalString.
From stdpp Require Import base gmap strings list.

Open Scope Z_scope.
Open Scope string_scope.

(** ** Python values *)

(** [str(n)] for an integer. *)
Definition str_of_int (n : Z) : string := NilZero.string_of_int (Z.to_int n).

(** [sep.join(parts)]. *)
Fixpoint join (sep : string) (parts : list string) : string :=
  match parts with
  | [] => ""
  | [p] => p
  | p :: rest => p ++ sep ++ join sep rest
  end.

(** Truth value of an [Optional[str]]: [None] and the empty string are false. *)
Definition truthy_str (s : option string) : bool :=
  match s with
  | Some (String _ _) => true
  | _ => false
  end.

(** Truth value of an [Optional[int]]: [None] and [0] are false. *)
Definition truthy_int (n : option Z) : bool :=
  match n with
  | Some 0 | None => false
  | Some _ => true
  end.

(** A Python string is the string of the bytes of its UTF-8 encoding.  A
    character is one byte (ASCII) or a leading byte followed by
    continuation bytes, which are the bytes from 128 to 191. *)
Definition is_ascii_byte (a : ascii) : bool := (nat_of_ascii a <? 128)%nat.

Definition is_continuation (a : ascii) : bool :=
  let n := nat_of_ascii a in ((128 <=? n) && (n <=? 191))%nat.

Fixpoint is_ascii (s : string) : bool :=
  match s with
  | EmptyString => true
  | String a rest => is_ascii_byte a && is_ascii rest
  end.

(** [len(s)]: the number of characters. *)
Fixpoint len (s : string) : nat :=
  match s with
  | EmptyString => 0%nat
  | String a rest => if is_continuation a then len rest else S (len rest)
  end.

(** [s[:n]]: the first [n] characters. *)
Fixpoint slice_to (n : nat) (s : string) : string :=
  match s with
  | EmptyString => EmptyString
  | String a rest =>
      if is_continuation a then String a (slice_to n rest)
      else
        match n with
        | O => EmptyString
        | S n' => String a (slice_to n' rest)
        end
  end.

(** [s.upper()] for a string of ASCII characters; what it gives for any
    other string is asked from the interpreter, see [upper] below. *)
Definition upper_ascii (a : ascii) : ascii :=
  let n := nat_of_ascii a in
  if ((97 <=? n) && (n <=? 122))%nat then ascii_of_nat (n - 32) else a.

Fixpoint ascii_upper (s : string) : string :=
  match s with
  | EmptyString => EmptyString
  | String a rest => String (upper_ascii a) (ascii_upper rest)
  end.

(** ** Files and documents *)

(** A path is the list of its components below the root. *)
Abbreviation path := (list string).

Definition parent (p : path) : path := removelast p.

(** [str(path)]. *)
Definition str_of_path (p : path) : string := "/" ++ join "/" p.

(** Lengths on the page are exact rationals (the source computes them in
    binary floating point). *)
Definition mm : Q := (72 / 2.54 * 0.1)%Q.
Definition A4 : Q * Q := ((210 * mm)%Q, (297 * mm)%Q).

(** The drawing operations [create_coversheet] calls on a reportlab canvas. *)
Inductive canvas_op : Type :=
| setFont (psfontname : string) (size : Q)
| setFillColorRGB (r g b : Q)
| setStrokeColorRGB (r g b : Q)
| setLineWidth (width : Q)
| drawString (x y : Q) (text : string)
| drawRightString (x y : Q) (text : string)
| line (x1 y1 x2 y2 : Q)
| rect (x y width height : Q)
| drawImage (image : path) (x y width height : Q) (preserveAspectRatio : bool).

(** A page of a PDF document. *)
Inductive page : Type :=
| SourcePage (id : nat)                  (* a page of a customer's document *)
| BlankPage (width height : Q)           (* [PdfWriter.add_blank_page] *)
| CanvasPage (pagesize : Q * Q) (ops : list canvas_op).  (* a page drawn on a canvas *)

(** A PDF file as pypdf and PyMuPDF see it: whether the trailer has an
    [/Encrypt] entry, and the page tree, [None] when reading the pages raises
    (not decrypted, damaged page tree). *)
Record pdf_doc : Type := {
  is_encrypted : bool;
  page_tree : option (list page)
}.

Inductive content : Type :=
| Pdf (d : pdf_doc)
| Png (width height : Z)
| Truncated (written : list page)   (* a PDF whose writing was interrupted *)
| Bytes (data : string).            (* anything else *)

Inductive node : Type :=
| Dir
| File (c : content).

(** ** Exceptions, log records, the world *)

Inductive exc_class : Type :=
| ImportError | FileNotFoundError | FileExistsError | NotADirectoryError
| IsADirectoryError | PermissionError | OSError | PdfReadError
| FileNotDecryptedError | ZeroDivisionError | RuntimeError | IndexError
| ValueError | TypeError | MarkupError.

Record exc : Type := Exc { exc_type : exc_class; exc_str : string }.

Inductive log_level : Type := DEBUG | INFO | WARNING | ERROR.

(** The objects of Python's [logging] that [setup_logging] builds. *)
Inductive Formatter : Type := mkFormatter (fmt datefmt : string).

Inductive Handler : Type :=
| RichHandler (level : Z)                 (* on [Console(stderr=True)] *)
| StreamHandler (formatter : option Formatter) (level : Z)   (* on [sys.stderr] *)
| FileHandler (filename : path) (formatter : option Formatter) (level : Z)
| NullHandler
| OtherHandler (id : nat).                (* a handler attached by someone else *)

Record Logger : Type := {
  handlers : list Handler;
  level : Z;
  propagate : bool
}.

Record world : Type := {
  fs : gmap path node;
  log : list (log_level * string);      (* the records handed to the service's logger *)
  skriptendruck : Logger;               (* [logging.getLogger("skriptendruck")] *)
  root : Logger;                        (* [logging.getLogger()] *)
  _logging_configured : bool            (* the module's global flag *)
}.

(** What the libraries and the operating system do, as far as the program
    cannot decide it from the files themselves. *)
Record env : Type := {
  mkdir_denied : path → bool;        (* [os.mkdir] of this directory is refused *)
  read_denied : path → bool;         (* opening this file for reading is refused *)
  write_denied : path → bool;        (* creating or truncating this file is refused *)
  unlink_denied : path → bool;       (* removing this file is refused *)
  disk_quota : option nat;           (* pages a PDF write gets out before the device fails *)
  fitz_installed : bool;             (* [import fitz] succeeds *)
  get_pixmap : page → option (Z * Z); (* size of the rendered pixmap, [None]: rendering raises *)
  tmp_name : path;                   (* the name [tempfile] picks *)
  pix_save_fails : bool;             (* [pix.save] raises *)
  image_reader_fails : bool;         (* [ImageReader(...)] raises although the file is an image *)
  draw_image_fails : bool;           (* [c.drawImage] raises *)
  stat_denied : path → bool;         (* [os.stat] of this path raises [PermissionError] *)
  unicode_upper : string → string;   (* [s.upper()] for a string that is not all ASCII *)
  markup_fails : string → bool       (* rich finds a closing tag in this text that closes nothing *)
}.

(** The local variables of [create_coversheet] that are assigned while it
    runs.  They outlive an exception: the [finally] clause reads
    [thumbnail_path], and what was drawn on the canvas [c] before a statement
    raised stays drawn. *)
Record locals : Type := {
  thumbnail_path : option path;
  c : list canvas_op;
  y : Q;
  info_top_y : Q
}.

Definition no_locals : locals :=
  {| thumbnail_path := None; c := []; y := 0%Q; info_top_y := 0%Q |}.

Inductive result (A : Type) : Type :=
| Return (a : A)
| Raise (e : exc).
Arguments Return {A} a.
Arguments Raise {A} e.

Definition Py (A : Type) : Type := env → locals → world → locals * world * result A.

#[export] Instance Py_ret : MRet Py := λ A a _ l w, (l, w, Return a).

#[export] Instance Py_bind : MBind Py := λ A B f m E l w,
  match m E l w with
  | (l', w', Return a) => f a E l' w'
  | (l', w', Raise e) => (l', w', Raise e)
  end.

Definition raise {A} (e : exc) : Py A := λ _ l w, (l, w, Raise e).

(** [try: body  except Exception as e: handler e]. *)
Definition try_except {A} (body : Py A) (handler : exc → Py A) : Py A := λ E l w,
  match body E l w with
  | (l', w', Return a) => (l', w', Return a)
  | (l', w', Raise e) => handler e E l' w'
  end.

(** [try: body  finally: cleanup]. *)
Definition try_finally {A} (body : Py A) (cleanup : Py unit) : Py A := λ E l w,
  match body E l w with
  | (l', w', r) =>
      match cleanup E l' w' with
      | (l'', w'', Return _) => (l'', w'', r)
      | (l'', w'', Raise e) => (l'', w'', Raise e)
      end
  end.

(** A call runs the callee on locals of its own. *)
Definition call {A} (m : Py A) : Py A := λ E l w,
  match m E no_locals w with
  | (_, w', r) => (l, w', r)
  end.

(** A method called from outside. *)
Definition run {A} (m : Py A) (E : env) (w : world) : world * result A :=
  match m E no_locals w with
  | (_, w', r) => (w', r)
  end.

Definition ask {A} (f : env → A) : Py A := λ E l w, (l, w, Return (f E)).
Definition get_fs : Py (gmap path node) := λ _ l w, (l, w, Return (fs w)).
Definition put_fs (m : gmap path node) : Py unit := λ _ l w,
  (l, {| fs := m; log := log w; skriptendruck := skriptendruck w; root := root w;
         _logging_configured := _logging_configured w |}, Return tt).
Definition get_local {A} (f : locals → A) : Py A := λ _ l w, (l, w, Return (f l)).
Definition put_local (f : locals → locals) : Py unit := λ _ l w, (f l, w, Return tt).

Definition logger (lvl : log_level) (msg : string) : Py unit := λ _ l w,
  (l, {| fs := fs w; log := log w ++ [(lvl, msg)]; skriptendruck := skriptendruck w;
         root := root w; _logging_configured := _logging_configured w |}, Return tt).

(** ** The file system *)

Definition is_dir (m : gmap path node) (p : path) : bool :=
  match p, m !! p with
  | [], _ => true
  | _, Some Dir => true
  | _, _ => false
  end.

Definition exists_ (m : gmap path node) (p : path) : bool :=
  match p, m !! p with
  | [], _ => true
  | _, Some _ => true
  | _, None => false
  end.

(** [p.exists()]: [os.stat] answers, or raises when looking at the path is
    not permitted. *)
Definition path_exists (p : path) : Py bool :=
  denied ← ask (λ E, stat_denied E p);
  if denied : bool then raise (Exc PermissionError (str_of_path p))
  else m ← get_fs; mret (exists_ m p).

(** [p.mkdir(parents=True, exist_ok=True)]: the directories from the root
    down to [done ++ rest] are created where they are missing.  A file in
    the place of the directory asked for gives [FileExistsError], a file on
    the way to it [NotADirectoryError]; both name the directory asked
    for. *)
Fixpoint mkdir_from (done : path) (rest : list string) : Py unit :=
  match rest with
  | [] => mret tt
  | name :: rest' =>
      let p := (done ++ [name])%list in
      m ← get_fs;
      match m !! p with
      | Some Dir => mkdir_from p rest'
      | Some (File _) =>
          raise (Exc (match rest' with
                      | [] => FileExistsError
                      | _ :: _ => NotADirectoryError
                      end) (str_of_path (done ++ name :: rest')))
      | None =>
          denied ← ask (λ E, mkdir_denied E p);
          if denied : bool then raise (Exc PermissionError (str_of_path p))
          else put_fs (<[p := Dir]> m) ;; mkdir_from p rest'
      end
  end.

Definition mkdir_parents (p : path) : Py unit := mkdir_from [] p.

(** [open(p, "rb").read()]. *)
Definition read_file (p : path) : Py content :=
  m ← get_fs;
  match m !! p with
  | None => raise (Exc FileNotFoundError (str_of_path p))
  | Some Dir => raise (Exc IsADirectoryError (str_of_path p))
  | Some (File data) =>
      denied ← ask (λ E, read_denied E p);
      if denied : bool then raise (Exc PermissionError (str_of_path p))
      else mret data
  end.

(** [open(p, "wb")]: the file is created, or emptied when it is there.  The
    root is a directory. *)
Definition open_wb (p : path) : Py unit :=
  m ← get_fs;
  match p, m !! p with
  | [], _ | _, Some Dir => raise (Exc IsADirectoryError (str_of_path p))
  | _, _ =>
      if is_dir m (parent p) then
        denied ← ask (λ E, write_denied E p);
        if denied : bool then raise (Exc PermissionError (str_of_path p))
        else put_fs (<[p := File (Bytes "")]> m)
      else raise (Exc FileNotFoundError (str_of_path p))
  end.

(** Writing the pages of a PDF into the open file [p]: with a quota of [n]
    pages on the device, a longer document stops after [n] pages. *)
Definition write_pages (p : path) (pages : list page) : Py unit :=
  m ← get_fs;
  quota ← ask disk_quota;
  match quota with
  | Some n =>
      if (n <? length pages)%nat then
        put_fs (<[p := File (Truncated (take n pages))]> m) ;;
        raise (Exc OSError "No space left on device")
      else put_fs (<[p := File (Pdf {| is_encrypted := false; page_tree := Some pages |})]> m)
  | None => put_fs (<[p := File (Pdf {| is_encrypted := false; page_tree := Some pages |})]> m)
  end.

(** [Path(p).unlink(missing_ok=True)]. *)
Definition unlink (p : path) : Py unit :=
  m ← get_fs;
  match m !! p with
  | None => mret tt
  | Some Dir => raise (Exc IsADirectoryError (str_of_path p))
  | Some (File _) =>
      denied ← ask (λ E, unlink_denied E p);
      if denied : bool then raise (Exc PermissionError (str_of_path p))
      else put_fs (delete p m)
  end.

(** ** pypdf *)

(** [PdfReader(p)]: the file is read and parsed. *)
Definition PdfReader (p : path) : Py pdf_doc :=
  data ← read_file p;
  match data with
  | Pdf d => mret d
  | _ => raise (Exc PdfReadError "EOF marker not found")
  end.

(** [reader.pages], read to the end. *)
Definition pages (reader : pdf_doc) : Py (list page) :=
  match page_tree reader with
  | Some ps => mret ps
  | None =>
      if is_encrypted reader then raise (Exc FileNotDecryptedError "File has not been decrypted")
      else raise (Exc PdfReadError "Invalid page tree")
  end.

(** ** PdfService.get_page_count *)

Definition get_page_count (pdf_path : path) : Py (option Z * bool) :=
  try_except (
    reader ← PdfReader pdf_path;
    (* Passwortschutz prüfen *)
    if is_encrypted reader then
      logger WARNING ("PDF ist passwortgeschützt: " ++ str_of_path pdf_path) ;;
      mret (None, true)
    else
      ps ← pages reader;
      let page_count := Z.of_nat (length ps) in
      logger DEBUG ("PDF hat " ++ str_of_int page_count ++ " Seiten: " ++ str_of_path pdf_path) ;;
      mret (Some page_count, false)
  ) (λ e,
    logger ERROR ("Fehler beim Lesen des PDFs " ++ str_of_path pdf_path ++ ": " ++ exc_str e) ;;
    mret (None, false)).

(** ** PdfService.merge_pdfs *)

(** A [PdfWriter] is the list of the pages added to it. *)
Definition add_page (writer : list page) (pg : page) : list page :=
  (writer ++ [pg])%list.

Definition add_blank_page (writer : list page) (width height : Q) : list page :=
  (writer ++ [BlankPage width height])%list.

Definition merge_pdfs (coversheet_path document_path output_path : path)
    (add_empty_page : bool) : Py bool :=
  try_except (
    mkdir_parents (parent output_path) ;;
    let writer : list page := [] in
    (* Deckblatt hinzufügen *)
    coversheet_reader ← PdfReader coversheet_path;
    cover_pages ← pages coversheet_reader;
    let writer := fold_left add_page cover_pages writer in
    (* Optional: Leere Seite *)
    let writer :=
      if add_empty_page then add_blank_page writer (fst A4) (snd A4) else writer in
    (* Dokument hinzufügen *)
    document_reader ← PdfReader document_path;
    document_pages ← pages document_reader;
    let writer := fold_left add_page document_pages writer in
    (* Speichern *)
    open_wb output_path ;;
    write_pages output_path writer ;;
    logger INFO ("PDFs zusammengefügt: " ++ str_of_path output_path) ;;
    mret true
  ) (λ e,
    logger ERROR ("Fehler beim Zusammenfügen der PDFs: " ++ exc_str e) ;;
    mret false).

(** ** Orders *)

(** Modelled from the spec: the enumeration [OrderStatus] is declared in the
    package [models], which is not among the sources.  The members are the
    states of the spec's routing table; [status_value] is the [.value] of a
    member, the member's name in lower case, as the source's comparison with
    ["error_invalid_filename"] has it. *)
Inductive OrderStatus : Type :=
| DISCOVERED | PROCESSED | ERROR_INVALID_FILENAME | ERROR_USER_NOT_FOUND
| ERROR_BLOCKED | ERROR_TOO_FEW_PAGES | ERROR_TOO_MANY_PAGES
| ERROR_PASSWORD_PROTECTED | ERROR_OTHER | MANUAL_REVIEW.

Definition status_value (s : OrderStatus) : string :=
  match s with
  | DISCOVERED => "discovered"
  | PROCESSED => "processed"
  | ERROR_INVALID_FILENAME => "error_invalid_filename"
  | ERROR_USER_NOT_FOUND => "error_user_not_found"
  | ERROR_BLOCKED => "error_blocked"
  | ERROR_TOO_FEW_PAGES => "error_too_few_pages"
  | ERROR_TOO_MANY_PAGES => "error_too_many_pages"
  | ERROR_PASSWORD_PROTECTED => "error_password_protected"
  | ERROR_OTHER => "error_other"
  | MANUAL_REVIEW => "manual_review"
  end.

(** Modelled from the spec: the enumerations [ColorMode] and [BindingType] of
    the package [models]; the values are the strings the sources compare
    [.value] with (["sw"] in the command line module, ["color"], ["none"] and
    ["folder"] in the PDF service). *)
Inductive ColorMode : Type := BW | COLOR.

Definition color_value (m : ColorMode) : string :=
  match m with BW => "sw" | COLOR => "color" end.

Inductive BindingType : Type := NONE | FOLDER | RING.

Definition binding_value (b : BindingType) : string :=
  match b with NONE => "none" | FOLDER => "folder" | RING => "ring" end.

(** Modelled from the spec: the value [PriceCalculation] of the package
    [models] (spec, data model); amounts are in cent. *)
Record PriceCalculation : Type := {
  color_mode : ColorMode;
  binding_type : BindingType;
  binding_size_mm : option Z;
  pages_price : Z;
  binding_price : Z;
  total_price : Z;
  deposit : Z;
  price_after_deposit : Z
}.

(** Modelled from the spec: the price table of the PricingEngine, whose
    module is not among the sources: a rate per page for each colour mode, a
    fixed fee for a folder, and a fee per ring size with the fee of the
    default size for a size the table does not have. *)
Record price_table : Type := {
  price_per_page : ColorMode → Z;
  folder_price : Z;
  ring_prices : gmap Z Z;
  default_ring_price : Z
}.

(** The deposit, the "1,00 €" of the cover sheet. *)
Definition DEPOSIT : Z := 100.

Definition binding_fee (t : price_table) (b : BindingType) (size_mm : option Z) : Z :=
  match b with
  | NONE => 0
  | FOLDER => folder_price t
  | RING =>
      match size_mm with
      | Some s => default (default_ring_price t) (ring_prices t !! s)
      | None => default_ring_price t
      end
  end.

(** Modelled from the spec: [price(page_count, color_mode, binding_type,
    binding_size_mm)] of the PricingEngine (spec 4.4), whose module is not
    among the sources: the total is the price of the pages plus the price of
    the binding, and the amount after the deposit is clamped at zero. *)
Definition price (t : price_table) (page_count : Z) (cm : ColorMode)
    (b : BindingType) (size_mm : option Z) : PriceCalculation :=
  let pages := page_count * price_per_page t cm in
  let binding := binding_fee t b size_mm in
  let total := pages + binding in
  {| color_mode := cm;
     binding_type := b;
     binding_size_mm := size_mm;
     pages_price := pages;
     binding_price := binding;
     total_price := total;
     deposit := DEPOSIT;
     price_after_deposit := Z.max 0 (total - DEPOSIT) |}.

(** Two digits, as [%02d] prints a number below 100. *)
Definition pad2 (n : Z) : string :=
  if (n <? 10)%Z then "0" ++ str_of_int n else str_of_int n.

(** Modelled from the spec: the [..._formatted] properties of
    [PriceCalculation] are derived from the amounts; the format is the one of
    the "1,00 €" the cover sheet prints for the deposit. *)
Definition format_price (cent : Z) : string :=
  str_of_int (cent / 100) ++ "," ++ pad2 (cent mod 100) ++ " €".

Definition pages_price_formatted (calc : PriceCalculation) : string :=
  format_price (pages_price calc).
Definition binding_price_formatted (calc : PriceCalculation) : string :=
  format_price (binding_price calc).
Definition total_price_formatted (calc : PriceCalculation) : string :=
  format_price (total_price calc).
Definition price_after_deposit_formatted (calc : PriceCalculation) : string :=
  format_price (price_after_deposit calc).

(** Modelled from the spec: the resolved identity [User] of the package
    [models], with the attributes the cover sheet reads. *)
Record User : Type := {
  username : string;
  full_name : string;
  faculty : option string
}.

Record datetime : Type := {
  year : Z; month : Z; day : Z; hour : Z; minute : Z
}.

(** [d.strftime("%d.%m.%Y %H:%M")]. *)
Definition strftime (d : datetime) : string :=
  pad2 (day d) ++ "." ++ pad2 (month d) ++ "." ++ str_of_int (year d)
  ++ " " ++ pad2 (hour d) ++ ":" ++ pad2 (minute d).

(** Modelled from the spec: the class [Order] of the package [models], with
    the attributes the cover sheet reads. *)
Record Order : Type := {
  order_id : Z;
  filename : string;
  filepath : option path;
  created_at : datetime;
  parsed_username : option string;
  parsed_name : option string;
  page_count : option Z;
  user : option User;
  price_calculation : option PriceCalculation;
  status : OrderStatus
}.

(** ** PyMuPDF, tempfile and reportlab *)

(** [fitz.open(p)] and the pages of the document. *)
Definition fitz_open (p : path) : Py (list page) :=
  data ← read_file p;
  match data with
  | Pdf {| page_tree := Some ps |} => mret ps
  | _ => raise (Exc RuntimeError "cannot open document")
  end.

(** [doc[i]]. *)
Definition fitz_page (doc : list page) (i : nat) : Py page :=
  match doc !! i with
  | Some pg => mret pg
  | None => raise (Exc IndexError "page not in document")
  end.

(** [page.get_pixmap(matrix=mat)]. *)
Definition page_get_pixmap (pg : page) : Py (Z * Z) :=
  pix ← ask (λ E, get_pixmap E pg);
  match pix with
  | Some size => mret size
  | None => raise (Exc RuntimeError "cannot render page")
  end.

(** [tempfile.NamedTemporaryFile(suffix=..., delete=False)], closed at once:
    an empty file of a name that was free. *)
Definition NamedTemporaryFile : Py path :=
  p ← ask tmp_name;
  m ← get_fs;
  if exists_ m p then raise (Exc FileExistsError "No usable temporary file name found")
  else if is_dir m (parent p) then
    denied ← ask (λ E, write_denied E p);
    if denied : bool then raise (Exc PermissionError (str_of_path p))
    else put_fs (<[p := File (Bytes "")]> m) ;; mret p
  else raise (Exc FileNotFoundError (str_of_path p)).

(** [pix.save(p)]. *)
Definition pix_save (pix : Z * Z) (p : path) : Py unit :=
  fails ← ask pix_save_fails;
  if fails : bool then raise (Exc RuntimeError "cannot write image")
  else m ← get_fs; put_fs (<[p := File (Png (fst pix) (snd pix))]> m).

(** [ImageReader(p).getSize()]. *)
Definition ImageReader_getSize (p : path) : Py (Z * Z) :=
  data ← read_file p;
  fails ← ask image_reader_fails;
  match data with
  | Png w h => if fails : bool then raise (Exc OSError "cannot read image") else mret (w, h)
  | _ => raise (Exc OSError "cannot identify image file")
  end.

(** [a / b] with an integer divisor. *)
Definition truediv (a : Q) (b : Z) : Py Q :=
  if (b =? 0)%Z then raise (Exc ZeroDivisionError "float division by zero")
  else mret (a / inject_Z b)%Q.

(** ** The canvas, a local of [create_coversheet] *)

Definition Canvas : Py unit :=
  put_local (λ l, {| thumbnail_path := thumbnail_path l; c := []; y := y l;
                     info_top_y := info_top_y l |}).

Definition draw (o : canvas_op) : Py unit :=
  put_local (λ l, {| thumbnail_path := thumbnail_path l; c := (c l ++ [o])%list; y := y l;
                     info_top_y := info_top_y l |}).

Definition set_y (v : Q) : Py unit :=
  put_local (λ l, {| thumbnail_path := thumbnail_path l; c := c l; y := v;
                     info_top_y := info_top_y l |}).

Definition set_info_top_y (v : Q) : Py unit :=
  put_local (λ l, {| thumbnail_path := thumbnail_path l; c := c l; y := y l;
                     info_top_y := v |}).

Definition set_thumbnail_path (v : option path) : Py unit :=
  put_local (λ l, {| thumbnail_path := v; c := c l; y := y l;
                     info_top_y := info_top_y l |}).

(** [y -= d]. *)
Definition sub_y (d : Q) : Py unit :=
  v ← get_local y; set_y (v - d)%Q.

(** [c.drawImage(p, ...)]: the image is read again. *)
Definition c_drawImage (p : path) (x0 y0 w h : Q) (preserve : bool) : Py unit :=
  ImageReader_getSize p ;;
  fails ← ask draw_image_fails;
  if fails : bool then raise (Exc OSError "cannot embed image")
  else draw (drawImage p x0 y0 w h preserve).

(** [c.save()]: the page is closed and the document written to the file the
    canvas was made for. *)
Definition c_save (filename : path) (pagesize : Q * Q) : Py unit :=
  ops ← get_local c;
  open_wb filename ;;
  write_pages filename [CanvasPage pagesize ops].

(** ** PdfService._render_page_thumbnail *)

Definition _render_page_thumbnail (pdf_path : path) (page_index : nat) : Py (option path) :=
  try_except (
    installed ← ask fitz_installed;
    (if installed : bool then mret tt else raise (Exc ImportError "No module named 'fitz'")) ;;
    doc ← fitz_open pdf_path;
    if (length doc =? 0)%nat then
      mret None
    else
      pg ← fitz_page doc page_index;
      (* Render mit 1.5x Zoom *)
      pix ← page_get_pixmap pg;
      (* Temporäre PNG-Datei erstellen *)
      tmp_path ← NamedTemporaryFile;
      pix_save pix tmp_path ;;
      logger DEBUG ("Thumbnail erstellt: " ++ str_of_path tmp_path) ;;
      mret (Some tmp_path)
  ) (λ e,
    match exc_type e with
    | ImportError =>
        logger DEBUG "PyMuPDF (fitz) nicht verfügbar – Thumbnail wird übersprungen" ;;
        mret None
    | _ =>
        logger WARNING ("Thumbnail-Rendering fehlgeschlagen: " ++ exc_str e) ;;
        mret None
    end).

(** ** PdfService.create_coversheet *)

(** The function is cut at the banners the source puts between its
    sections; the constants are the locals it assigns once at the top. *)
Definition width : Q := fst A4.
Definition height : Q := snd A4.
Definition margin : Q := 50%Q.
Definition right_margin : Q := (width - margin)%Q.
Definition thumb_col_x : Q := (width / 2 + 20)%Q.
Definition line_height : Q := 20%Q.
Definition label_x : Q := margin.
Definition value_x : Q := (margin + 120)%Q.

(** The name printed large at the top of the cover sheet. *)
Definition name_text (order : Order) : string :=
  match user order with
  | Some u => full_name u
  | None =>
      if truthy_str (parsed_name order) then default "" (parsed_name order)
      else if truthy_str (parsed_username order) then default "" (parsed_username order)
      else "Unbekannt"
  end.

(** The nested function [draw_field]; [y] is its [nonlocal]. *)
Definition draw_field (label value : string) (bold_value : bool) : Py unit :=
  draw (setFont "Helvetica-Bold" 10) ;;
  y0 ← get_local y;
  draw (drawString label_x y0 label) ;;
  draw (setFont (if bold_value then "Helvetica-Bold" else "Helvetica") 10) ;;
  y0 ← get_local y;
  draw (drawString value_x y0 value) ;;
  sub_y line_height.

(** HEADER: Fachschaft-Zeile. *)
Definition draw_header : Py unit :=
  draw (setFont "Helvetica" 10) ;;
  draw (setFillColorRGB 0.4 0.4 0.4) ;;
  draw (drawString margin (height - 40) "Fachschaft Maschinenbau – Skriptendruck") ;;
  draw (setFillColorRGB 0 0 0).

(** NAME: Groß und prominent, down to the separating line. *)
Definition draw_name (order : Order) : Py unit :=
  set_y (height - 75) ;;
  draw (setFont "Helvetica-Bold" 24) ;;
  y0 ← get_local y;
  draw (drawString margin y0 (name_text order)) ;;
  sub_y 22 ;;
  (* RZ-Kennung und Fakultät unter dem Namen *)
  match user order with
  | Some u =>
      draw (setFont "Helvetica" 11) ;;
      draw (setFillColorRGB 0.3 0.3 0.3) ;;
      let parts := ["RZ-Kennung: " ++ username u] in
      let parts :=
        if truthy_str (faculty u)
        then (parts ++ [("Fakultät: " ++ default "" (faculty u))%string])%list else parts in
      y0 ← get_local y;
      draw (drawString margin y0 (join "   •   " parts)) ;;
      draw (setFillColorRGB 0 0 0)
  | None => mret tt
  end ;;
  sub_y 14 ;;
  (* Trennlinie *)
  draw (setStrokeColorRGB 0.7 0.7 0.7) ;;
  draw (setLineWidth 1) ;;
  y0 ← get_local y;
  draw (line margin y0 right_margin y0) ;;
  sub_y 25.

(** Linke Spalte: Auftragsinformationen. *)
Definition draw_order_info (order : Order) : Py unit :=
  draw_field "Auftrags-ID:" ("#" ++ str_of_int (order_id order)) false ;;
  draw_field "Datum:" (strftime (created_at order)) false ;;
  draw_field "Dateiname:" (filename order) false ;;
  (if truthy_int (page_count order)
   then draw_field "Seitenzahl:" (str_of_int (default 0 (page_count order))) false
   else mret tt) ;;
  sub_y 8.

(** Preisberechnung. *)
Definition draw_price (order : Order) : Py unit :=
  match price_calculation order with
  | Some calc =>
      let color_text :=
        if String.eqb (color_value (color_mode calc)) "color"
        then "Farbe" else "Schwarz-Weiß" in
      draw_field "Druck:" (color_text ++ " (" ++ pages_price_formatted calc ++ ")") false ;;
      let binding_text :=
        if String.eqb (binding_value (binding_type calc)) "none" then
          "Ohne Bindung"
        else if String.eqb (binding_value (binding_type calc)) "folder" then
          "Schnellhefter (" ++ binding_price_formatted calc ++ ")"
        else
          let size_label :=
            if truthy_int (binding_size_mm calc)
            then " – " ++ str_of_int (default 0 (binding_size_mm calc)) ++ " mm"
            else "" in
          "Ringbindung (" ++ binding_price_formatted calc ++ ")" ++ size_label in
      draw_field "Bindung:" binding_text false ;;
      sub_y 8 ;;
      (* Gesamtpreis klein *)
      draw_field "Gesamtpreis:" (total_price_formatted calc) false ;;
      (* Restbetrag groß – das ist was bei der Ausgabe verlangt wird *)
      sub_y 4 ;;
      draw (setFont "Helvetica-Bold" 10) ;;
      y0 ← get_local y;
      draw (drawString label_x y0 "Zu zahlen:") ;;
      draw (setFont "Helvetica-Bold" 18) ;;
      y0 ← get_local y;
      draw (drawString value_x y0 (price_after_deposit_formatted calc)) ;;
      sub_y 14 ;;
      draw (setFont "Helvetica" 9) ;;
      draw (setFillColorRGB 0.4 0.4 0.4) ;;
      y0 ← get_local y;
      draw (drawString value_x y0 "(abzgl. 1,00 € Anzahlung)") ;;
      draw (setFillColorRGB 0 0 0) ;;
      sub_y line_height
  | None => mret tt
  end.

(** The statements under [try] that put the thumbnail on the canvas. *)
Definition embed_thumbnail (thumbnail_path : path) : Py unit :=
  '(img_w, img_h) ← ImageReader_getSize thumbnail_path;
  info_top_y ← get_local info_top_y;
  (* Maximal so breit wie die rechte Spalte, Höhe proportional *)
  let max_thumb_w : Q := (right_margin - thumb_col_x - 10)%Q in
  let max_thumb_h : Q := (info_top_y - 80)%Q in
  scale_w ← truediv max_thumb_w img_w;
  scale_h ← truediv max_thumb_h img_h;
  let scale : Q := Qmin (Qmin scale_w scale_h) 1 in
  let thumb_w : Q := (inject_Z img_w * scale)%Q in
  let thumb_h : Q := (inject_Z img_h * scale)%Q in
  let thumb_x : Q := thumb_col_x in
  let thumb_y : Q := (info_top_y - thumb_h)%Q in
  (* Label *)
  draw (setFont "Helvetica" 8) ;;
  draw (setFillColorRGB 0.4 0.4 0.4) ;;
  draw (drawString thumb_x (info_top_y + 4) "Vorschau:") ;;
  draw (setFillColorRGB 0 0 0) ;;
  (* Rahmen *)
  draw (setStrokeColorRGB 0.8 0.8 0.8) ;;
  draw (setLineWidth 0.5) ;;
  draw (rect (thumb_x - 2) (thumb_y - 2) (thumb_w + 4) (thumb_h + 4)) ;;
  (* Bild *)
  c_drawImage thumbnail_path thumb_x thumb_y thumb_w thumb_h true.

(** THUMBNAIL: Rechte Spalte – Vorschau erste Dokumentseite. *)
Definition draw_thumbnail : Py unit :=
  tp ← get_local thumbnail_path;
  match tp with
  | Some thumbnail_path =>
      try_except (embed_thumbnail thumbnail_path) (λ e,
        logger WARNING
          ("Thumbnail konnte nicht ins Deckblatt eingefügt werden: " ++ exc_str e))
  | None => mret tt
  end.

(** FEHLERHINWEIS (falls Dateiname ungültig). *)
Definition draw_filename_warning (order : Order) : Py unit :=
  if String.eqb (status_value (status order)) "error_invalid_filename" then
    sub_y 10 ;;
    draw (setFillColorRGB 0.8 0 0) ;;
    draw (setFont "Helvetica-Bold" 10) ;;
    y0 ← get_local y;
    draw (drawString label_x y0 "ACHTUNG: Dateiname nicht korrekt!") ;;
    sub_y line_height ;;
    draw (setFont "Helvetica" 9) ;;
    y0 ← get_local y;
    draw (drawString label_x y0 "Bitte nächstes Mal richtig benennen:") ;;
    sub_y line_height ;;
    y0 ← get_local y;
    draw (drawString label_x y0 "RZ-Kennung_sw/farbig_mb/ob/sh_001.pdf") ;;
    draw (setFillColorRGB 0 0 0)
  else mret tt.

(** FOOTER. *)
Definition draw_footer (order : Order) : Py unit :=
  draw (setFillColorRGB 0.5 0.5 0.5) ;;
  draw (setFont "Helvetica" 8) ;;
  draw (drawString margin 30 "Fachschaft Maschinenbau – Hochschule Regensburg") ;;
  draw (drawRightString right_margin 30 ("Auftrag #" ++ str_of_int (order_id order))) ;;
  draw (setFillColorRGB 0 0 0).

(** Thumbnail der ersten Seite des ORIGINAL-Dokuments rendern. *)
Definition render_thumbnail (order : Order) : Py unit :=
  match filepath order with
  | Some fp =>
      there ← path_exists fp;
      if there : bool then
        tp ← call (_render_page_thumbnail fp 0); set_thumbnail_path tp
      else mret tt
  | None => mret tt
  end.

(** Temporäre Thumbnail-Datei aufräumen: the [finally] clause. *)
Definition cleanup_thumbnail : Py unit :=
  tp ← get_local thumbnail_path;
  match tp with
  | Some thumbnail_path => try_except (unlink thumbnail_path) (λ _, mret tt)
  | None => mret tt
  end.

Definition create_coversheet (order : Order) (output_path : path) : Py bool :=
  set_thumbnail_path None ;;
  try_finally (
    try_except (
      mkdir_parents (parent output_path) ;;
      render_thumbnail order ;;
      (* Canvas erstellen *)
      Canvas ;;
      draw_header ;;
      draw_name order ;;
      (* ZWEI-SPALTEN-LAYOUT: Links Infos, Rechts Thumbnail *)
      y0 ← get_local y;
      set_info_top_y y0 ;;
      draw_order_info order ;;
      draw_price order ;;
      draw_thumbnail ;;
      draw_filename_warning order ;;
      draw_footer order ;;
      c_save output_path A4 ;;
      logger INFO ("Deckblatt erstellt: " ++ str_of_path output_path) ;;
      mret true
    ) (λ e,
      logger ERROR ("Fehler beim Erstellen des Deckblatts: " ++ exc_str e) ;;
      mret false)
  ) cleanup_thumbnail.

(** ** config/logging.py *)

(** A value an attribute of the module [logging] can have. *)
Inductive pyobj : Type :=
| PyInt (n : Z)
| PyStr (s : string)
| PyDict.

Definition logging_CRITICAL : Z := 50.
Definition logging_ERROR : Z := 40.
Definition logging_WARNING : Z := 30.
Definition logging_INFO : Z := 20.
Definition logging_DEBUG : Z := 10.
Definition logging_NOTSET : Z := 0.

(** [logging._nameToLevel]. *)
Definition _nameToLevel (name : string) : option Z :=
  match name with
  | "CRITICAL" => Some logging_CRITICAL
  | "FATAL" => Some logging_CRITICAL
  | "ERROR" => Some logging_ERROR
  | "WARN" => Some logging_WARNING
  | "WARNING" => Some logging_WARNING
  | "INFO" => Some logging_INFO
  | "DEBUG" => Some logging_DEBUG
  | "NOTSET" => Some logging_NOTSET
  | _ => None
  end.

(** [getattr(logging, name, default)] for a name in upper case: the level
    constants, and the two other attributes of the module spelled in upper
    case, the format string [BASIC_FORMAT] and the table [_STYLES]. *)
Definition logging_getattr (name : string) (default : pyobj) : pyobj :=
  match _nameToLevel name with
  | Some n => PyInt n
  | None =>
      match name with
      | "BASIC_FORMAT" => PyStr "%(levelname)s:%(name)s:%(message)s"
      | "_STYLES" => PyDict
      | _ => default
      end
  end.

(** [logging._checkLevel], which [setLevel] and the constructor of a handler
    run on their level. *)
Definition _checkLevel (lvl : pyobj) : Py Z :=
  match lvl with
  | PyInt n => mret n
  | PyStr s =>
      match _nameToLevel s with
      | Some n => mret n
      | None => raise (Exc ValueError ("Unknown level: '" ++ s ++ "'"))
      end
  | PyDict => raise (Exc TypeError "Level not an integer or a valid string")
  end.

Definition get_skriptendruck : Py Logger := λ _ l w, (l, w, Return (skriptendruck w)).
Definition put_skriptendruck (g : Logger) : Py unit := λ _ l w,
  (l, {| fs := fs w; log := log w; skriptendruck := g; root := root w;
         _logging_configured := _logging_configured w |}, Return tt).
Definition get_root : Py Logger := λ _ l w, (l, w, Return (root w)).
Definition put_root (g : Logger) : Py unit := λ _ l w,
  (l, {| fs := fs w; log := log w; skriptendruck := skriptendruck w; root := g;
         _logging_configured := _logging_configured w |}, Return tt).
Definition get_logging_configured : Py bool := λ _ l w, (l, w, Return (_logging_configured w)).
Definition put_logging_configured (b : bool) : Py unit := λ _ l w,
  (l, {| fs := fs w; log := log w; skriptendruck := skriptendruck w; root := root w;
         _logging_configured := b |}, Return tt).

(** [logger.addHandler(h)] with a handler that was just made. *)
Definition addHandler (g : Logger) (h : Handler) : Logger :=
  {| handlers := handlers g ++ [h]; level := level g; propagate := propagate g |}.

(** [open(p, "a")], as [logging.FileHandler] opens its file. *)
Definition open_append (p : path) : Py unit :=
  m ← get_fs;
  match p, m !! p with
  | [], _ | _, Some Dir => raise (Exc IsADirectoryError (str_of_path p))
  | _, Some (File _) =>
      denied ← ask (λ E, write_denied E p);
      if denied : bool then raise (Exc PermissionError (str_of_path p)) else mret tt
  | _, None =>
      if is_dir m (parent p) then
        denied ← ask (λ E, write_denied E p);
        if denied : bool then raise (Exc PermissionError (str_of_path p))
        else put_fs (<[p := File (Bytes "")]> m)
      else raise (Exc FileNotFoundError (str_of_path p))
  end.

(** [s.upper()]. *)
Definition str_upper (E : env) (s : string) : string :=
  if is_ascii s then ascii_upper s else unicode_upper E s.

Definition upper (s : string) : Py string := ask (λ E, str_upper E s).

Definition setup_logging (level_name : string) (log_file : option path)
    (use_rich : bool) : Py unit :=
  name ← upper level_name;
  let log_level := logging_getattr name (PyInt logging_INFO) in
  (* === Skriptendruck Logger === *)
  (* ALLE vorhandenen Handler entfernen (verhindert Duplikate) *)
  g ← get_skriptendruck;
  put_skriptendruck {| handlers := []; level := level g; propagate := propagate g |} ;;
  (* Level setzen *)
  n ← _checkLevel log_level;
  g ← get_skriptendruck;
  put_skriptendruck {| handlers := handlers g; level := n; propagate := propagate g |} ;;
  (* Propagation AUS *)
  g ← get_skriptendruck;
  put_skriptendruck {| handlers := handlers g; level := level g; propagate := false |} ;;
  (* Formatter für Datei *)
  let file_formatter :=
    mkFormatter "%(asctime)s - %(name)s - %(levelname)s - %(message)s" "%Y-%m-%d %H:%M:%S" in
  (* Console Handler *)
  console_handler ←
    (if use_rich then
       n ← _checkLevel log_level; mret (RichHandler n)
     else
       mret (StreamHandler (Some file_formatter) logging_NOTSET));
  n ← _checkLevel log_level;
  let console_handler :=
    match console_handler with
    | RichHandler _ => RichHandler n
    | StreamHandler f _ => StreamHandler f n
    | h => h
    end in
  g ← get_skriptendruck;
  put_skriptendruck (addHandler g console_handler) ;;
  (* File Handler (optional) *)
  match log_file with
  | Some log_file =>
      mkdir_parents (parent log_file) ;;
      open_append log_file ;;
      (* Immer alle Details in Datei *)
      let file_handler := FileHandler log_file (Some file_formatter) logging_DEBUG in
      g ← get_skriptendruck;
      put_skriptendruck (addHandler g file_handler)
  | None => mret tt
  end ;;
  (* === Root Logger absichern === *)
  r ← get_root;
  (match handlers r with
   | [] => put_root (addHandler r NullHandler)
   | _ => mret tt
   end) ;;
  r ← get_root;
  put_root {| handlers := handlers r; level := logging_WARNING; propagate := propagate r |} ;;
  put_logging_configured true.

(** [get_logger(name)] returns the name of the logger it hands out. *)
Definition get_logger (name : string) : Py string :=
  configured ← get_logging_configured;
  (* Beim allerersten Aufruf: Default-Logging einrichten *)
  (if configured : bool then mret tt else call (setup_logging "INFO" None true)) ;;
  mret ("skriptendruck." ++ name).

(** ** Worlds compared *)

(** The world [w] after the records [entries] went to the logger. *)
Definition with_log (w : world) (entries : list (log_level * string)) : world :=
  {| fs := fs w; log := log w ++ entries; skriptendruck := skriptendruck w;
     root := root w; _logging_configured := _logging_configured w |}.

(** The page sequence the merger is meant to produce: the pages of the cover
    sheet, one blank A4 page if asked for, the pages of the document. *)
Definition merged_pages (cover : list page) (blank : bool) (document : list page)
    : list page :=
  (cover ++ (if blank then [BlankPage (fst A4) (snd A4)] else []) ++ document)%list.

(** The file at [p] is a PDF whose pages are [ps]. *)
Definition pdf_with_pages (m : gmap path node) (p : path) (ps : list page) : Prop :=
  ∃ d, m !! p = Some (File (Pdf d)) ∧ page_tree d = Some ps.

(** Two worlds that differ in their files at most. *)
Definition same_but_fs (w w' : world) : Prop :=
  log w' = log w ∧ skriptendruck w' = skriptendruck w ∧ root w' = root w
  ∧ _logging_configured w' = _logging_configured w.

(** The handlers of a logger by kind. *)
Definition is_console_handler (h : Handler) : bool :=
  match h with
  | RichHandler _ | StreamHandler _ _ => true
  | _ => false
  end.

Definition is_file_handler (h : Handler) : bool :=
  match h with
  | FileHandler _ _ _ => true
  | _ => false
  end.

Definition console_handlers (g : Logger) : nat :=
  length (List.filter is_console_handler (handlers g)).

Definition file_handlers (g : Logger) : nat :=
  length (List.filter is_file_handler (handlers g)).

(** The level name is one [setup_logging] can use: in upper case it names a
    level, or no attribute of [logging] at all. *)
Definition names_level (E : env) (level_name : string) : Prop :=
  ∃ n, logging_getattr (str_upper E level_name) (PyInt logging_INFO) = PyInt n.

(** A logger with one console handler, at most one file handler and no
    other handler. *)
Definition handlers_ok (g : Logger) : Prop :=
  console_handlers g = 1%nat ∧ (file_handlers g ≤ 1)%nat
  ∧ length (handlers g) = (console_handlers g + file_handlers g)%nat.

(** The calls a program makes into [config/logging.py]. *)
Inductive logging_call : Type :=
| SetupLogging (level_name : string) (log_file : option path) (use_rich : bool)
| GetLogger (name : string).

Definition do_call (k : logging_call) : Py unit :=
  match k with
  | SetupLogging level_name log_file use_rich => setup_logging level_name log_file use_rich
  | GetLogger name => get_logger name ;; mret tt
  end.

Definition call_names_level (E : env) (k : logging_call) : Prop :=
  match k with
  | SetupLogging level_name _ _ => names_level E level_name
  | GetLogger _ => True
  end.

(** The world after the calls were made one after the other, a call that
    raised being caught by the caller. *)
Fixpoint after_calls (E : env) (calls : list logging_call) (w : world) : world :=
  match calls with
  | [] => w
  | k :: rest => after_calls E rest (run (do_call k) E w).1
  end.

(** ** What is on a cover sheet *)

(** The preview image. *)
Definition is_image (o : canvas_op) : bool :=
  match o with
  | drawImage _ _ _ _ _ _ => true
  | _ => false
  end.

(** The red of the warning: [setFillColorRGB(0.8, 0, 0)]. *)
Definition is_red (o : canvas_op) : bool :=
  match o with
  | setFillColorRGB r g b => Qeq_bool r 0.8 && Qeq_bool g 0 && Qeq_bool b 0
  | _ => false
  end.

(** An operation that is neither. *)
Definition plain (o : canvas_op) : Prop := is_image o = false ∧ is_red o = false.

(** The warning banner, first line at height [y0]: in red, that the file name
    is not correct, and the naming convention. *)
Definition banner (y0 : Q) : list canvas_op :=
  [ setFillColorRGB 0.8 0 0;
    setFont "Helvetica-Bold" 10;
    drawString label_x y0 "ACHTUNG: Dateiname nicht korrekt!";
    setFont "Helvetica" 9;
    drawString label_x (y0 - line_height) "Bitte nächstes Mal richtig benennen:";
    drawString label_x (y0 - line_height - line_height) "RZ-Kennung_sw/farbig_mb/ob/sh_001.pdf";
    setFillColorRGB 0 0 0 ].

Definition has_banner (ops : list canvas_op) : Prop :=
  ∃ before after y0, ops = (before ++ banner y0 ++ after)%list.

(** The name, large, at the top of the sheet. *)
Definition shows_name (ops : list canvas_op) (text : string) : Prop :=
  ∃ before after,
    ops = (before ++ [setFont "Helvetica-Bold" 24; drawString margin (height - 75) text]
             ++ after)%list.

(** The header line, the first thing drawn on a sheet. *)
Definition header_ops : list canvas_op :=
  [ setFont "Helvetica" 10;
    setFillColorRGB 0.4 0.4 0.4;
    drawString margin (height - 40) "Fachschaft Maschinenbau – Skriptendruck";
    setFillColorRGB 0 0 0 ].

(** The footer, the last thing drawn on a sheet: the line of the Fachschaft
    and, at the right margin, the number of the order. *)
Definition footer_ops (order : Order) : list canvas_op :=
  [ setFillColorRGB 0.5 0.5 0.5;
    setFont "Helvetica" 8;
    drawString margin 30 "Fachschaft Maschinenbau – Hochschule Regensburg";
    drawRightString right_margin 30 ("Auftrag #" ++ str_of_int (order_id order));
    setFillColorRGB 0 0 0 ].

(** The sheet begins with the header line and, right after it, the name
    [text] in 24 point bold, 75 points below the top edge. *)
Definition name_on_top (ops : list canvas_op) (text : string) : Prop :=
  ∃ after,
    ops = (header_ops
             ++ [setFont "Helvetica-Bold" 24; drawString margin (height - 75) text]
             ++ after)%list.


(** The height of the order data: three lines, a fourth when the page count
    is there and not 0, of 20 points each, and 8 points. *)
Definition info_height (order : Order) : Q :=
  if truthy_int (page_count order) then 88 else 68.

(** The height of the price block, when the order has a price. *)
Definition price_height (order : Order) : Q :=
  match price_calculation order with
  | Some _ => 106
  | None => 0
  end.

(** Where the first line of the warning goes: 10 points below the name block,
    which ends 136 points below the top edge, the order data and the price
    block. *)
Definition banner_y (order : Order) : Q :=
  (height - 136 - info_height order - price_height order - 10)%Q.

(** The sheet carries the warning of the order: the banner, its first line
    at the height [banner_y], and right after it the footer. *)
Definition warns (ops : list canvas_op) (order : Order) : Prop :=
  ∃ before y0,
    (y0 == banner_y order)%Q ∧ ops = (before ++ banner y0 ++ footer_ops order)%list.

(** The file at [p] is a cover sheet: a PDF of one A4 page with the drawing
    [ops]. *)
Definition cover_sheet_at (m : gmap path node) (p : path) (ops : list canvas_op) : Prop :=
  m !! p = Some (File (Pdf {| is_encrypted := false;
                              page_tree := Some [CanvasPage A4 ops] |})).

(** The drawing of the cover sheet at [p], nothing when there is none. *)
Definition sheet_ops (m : gmap path node) (p : path) : list canvas_op :=
  match m !! p with
  | Some (File (Pdf {| page_tree := Some [CanvasPage _ ops] |})) => ops
  | _ => []
  end.

(** Nothing stands in the way of the thumbnail: the library is there, the
    order's file is a PDF whose first page renders, and saving, reading and
    embedding the image work. *)
Definition thumbnail_faultless (E : env) (w : world) (order : Order) : Prop :=
  fitz_installed E = true ∧ pix_save_fails E = false
  ∧ image_reader_fails E = false ∧ draw_image_fails E = false
  ∧ ∃ fp d pg ps size, filepath order = Some fp
      ∧ fs w !! fp = Some (File (Pdf d)) ∧ page_tree d = Some (pg :: ps)
      ∧ get_pixmap E pg = Some size.

(** A piece of [create_coversheet] that only draws: it returns, leaves the
    files and [thumbnail_path] alone, and adds to the canvas operations that
    satisfy [P]. *)
Definition paints (P : canvas_op → Prop) (m : Py unit) : Prop :=
  ∀ E l w, ∃ l' w', m E l w = (l', w', Return tt)
    ∧ fs w' = fs w ∧ thumbnail_path l' = thumbnail_path l
    ∧ ∃ added, c l' = (c l ++ added)%list ∧ Forall P added.

(** A statement that leaves [y] alone, however it ends. *)
Definition keeps_y {A} (m : Py A) : Prop :=
  ∀ E l w, y (m E l w).1.1 = y l.

(** A piece of the left column that returns and moves [y] down by [d]. *)
Definition moves_y (d : Q) (m : Py unit) : Prop :=
  ∀ E l w, ∃ l' w', m E l w = (l', w', Return tt) ∧ (y l' == y l - d)%Q.

(** ** Sample data *)

(** The upper-casing of the sample environments, for strings that are not
    all ASCII.  It is [str.upper] on the ASCII and Latin-1 letters and on the
    characters whose upper case is made of ASCII letters: the dotless i, the
    long s, the sharp s and the Latin ligatures.  Every other character is
    left as it is. *)
Definition ligature_upper (k : nat) : option string :=
  match (k - 128)%nat with
  | 0%nat => Some "FF" | 1%nat => Some "FI" | 2%nat => Some "FL" | 3%nat => Some "FFI"
  | 4%nat => Some "FFL" | 5%nat => Some "ST" | 6%nat => Some "ST"
  | _ => None
  end.

Fixpoint latin_upper (s : string) : string :=
  match s with
  | EmptyString => EmptyString
  | String a rest =>
      let n := nat_of_ascii a in
      match rest with
      | String b rest' =>
          let k := nat_of_ascii b in
          if ((n =? 195) && (k =? 159))%nat then "SS" ++ latin_upper rest'
          else if ((n =? 195) && (k =? 191))%nat then
            String (ascii_of_nat 197) (String (ascii_of_nat 184) (latin_upper rest'))
          else if ((n =? 195) && (160 <=? k) && (k <=? 190) && negb (k =? 183))%nat then
            String a (String (ascii_of_nat (k - 32)) (latin_upper rest'))
          else if ((n =? 196) && (k =? 177))%nat then "I" ++ latin_upper rest'
          else if ((n =? 197) && (k =? 191))%nat then "S" ++ latin_upper rest'
          else if ((n =? 239) && (k =? 172))%nat then
            match rest' with
            | String c rest'' =>
                match ligature_upper (nat_of_ascii c) with
                | Some letters =>
                    if (128 <=? nat_of_ascii c)%nat then letters ++ latin_upper rest''
                    else String a (latin_upper rest)
                | None => String a (latin_upper rest)
                end
            | EmptyString => String a (latin_upper rest)
            end
          else String (upper_ascii a) (latin_upper rest)
      | EmptyString => String (upper_ascii a) EmptyString
      end
  end.

(** An environment in which nothing goes wrong. *)
Definition fair_env : env := {|
  mkdir_denied := λ _, false;
  read_denied := λ _, false;
  write_denied := λ _, false;
  unlink_denied := λ _, false;
  disk_quota := None;
  fitz_installed := true;
  get_pixmap := λ _, Some (892, 1263);
  tmp_name := ["tmp"; "tmpk3x9.png"];
  pix_save_fails := false;
  image_reader_fails := false;
  draw_image_fails := false;
  stat_denied := λ _, false;
  unicode_upper := latin_upper;
  markup_fails := λ _, false
|}.

Definition fresh_logger : Logger := {| handlers := []; level := logging_NOTSET; propagate := true |}.

Definition world_of (files : gmap path node) : world := {|
  fs := files;
  log := [];
  skriptendruck := fresh_logger;
  root := {| handlers := []; level := logging_WARNING; propagate := true |};
  _logging_configured := false
|}.

Definition script_pdf : pdf_doc :=
  {| is_encrypted := false; page_tree := Some [SourcePage 0; SourcePage 1] |}.
Definition locked_pdf : pdf_doc :=
  {| is_encrypted := true; page_tree := None |}.
Definition cover_pdf : pdf_doc :=
  {| is_encrypted := false; page_tree := Some [CanvasPage A4 []] |}.

Definition sample_files : gmap path node :=
  <[ ["tmp"] := Dir ]> (
  <[ ["in"] := Dir ]> (
  <[ ["in"; "script.pdf"] := File (Pdf script_pdf) ]> (
  <[ ["in"; "locked.pdf"] := File (Pdf locked_pdf) ]> (
  <[ ["in"; "cover.pdf"] := File (Pdf cover_pdf) ]> (
  <[ ["in"; "broken.pdf"] := File (Bytes "%PDF-1") ]> ∅))))).

Definition sample_world : world := world_of sample_files.

(** The device takes one page of a PDF and then fails. *)
Definition small_disk_env : env := {|
  mkdir_denied := λ _, false;
  read_denied := λ _, false;
  write_denied := λ _, false;
  unlink_denied := λ _, false;
  disk_quota := Some 1%nat;
  fitz_installed := true;
  get_pixmap := λ _, Some (892, 1263);
  tmp_name := ["tmp"; "tmpk3x9.png"];
  pix_save_fails := false;
  image_reader_fails := false;
  draw_image_fails := false;
  stat_denied := λ _, false;
  unicode_upper := latin_upper;
  markup_fails := λ _, false
|}.

(** PyMuPDF is not installed. *)
Definition no_fitz_env : env := {|
  mkdir_denied := λ _, false;
  read_denied := λ _, false;
  write_denied := λ _, false;
  unlink_denied := λ _, false;
  disk_quota := None;
  fitz_installed := false;
  get_pixmap := λ _, Some (892, 1263);
  tmp_name := ["tmp"; "tmpk3x9.png"];
  pix_save_fails := false;
  image_reader_fails := false;
  draw_image_fails := false;
  stat_denied := λ _, false;
  unicode_upper := latin_upper;
  markup_fails := λ _, false
|}.


(** Writing the rendered image fails. *)
Definition failing_pix_save_env : env := {|
  mkdir_denied := λ _, false;
  read_denied := λ _, false;
  write_denied := λ _, false;
  unlink_denied := λ _, false;
  disk_quota := None;
  fitz_installed := true;
  get_pixmap := λ _, Some (892, 1263);
  tmp_name := ["tmp"; "tmpk3x9.png"];
  pix_save_fails := true;
  image_reader_fails := false;
  draw_image_fails := false;
  stat_denied := λ _, false;
  unicode_upper := latin_upper;
  markup_fails := λ _, false
|}.

Definition sample_prices : price_table := {|
  price_per_page := λ cm, match cm with BW => 4 | COLOR => 10 end;
  folder_price := 50;
  ring_prices := {[ 8 := 100; 12 := 120 ]};
  default_ring_price := 150
|}.

Definition sample_order : Order := {|
  order_id := 7;
  filename := "abc12345_sw_mb_001.pdf";
  filepath := Some ["in"; "script.pdf"];
  created_at := {| year := 2024; month := 3; day := 5; hour := 9; minute := 30 |};
  parsed_username := Some "abc12345";
  parsed_name := None;
  page_count := Some 2;
  user := Some {| username := "abc12345"; full_name := "Ada Lovelace"; faculty := Some "M" |};
  price_calculation := Some (price sample_prices 2 BW RING (Some 8));
  status := PROCESSED
|}.

(** An order whose file name does not follow the convention. *)
Definition misnamed_order : Order := {|
  order_id := 8;
  filename := "skript.pdf";
  filepath := Some ["in"; "script.pdf"];
  created_at := {| year := 2024; month := 3; day := 5; hour := 9; minute := 31 |};
  parsed_username := None;
  parsed_name := None;
  page_count := None;
  user := None;
  price_calculation := None;
  status := ERROR_INVALID_FILENAME
|}.

(** An order whose identity has an empty full name. *)
Definition nameless_order : Order := {|
  order_id := 9;
  filename := "xyz00001_sw_ob_001.pdf";
  filepath := None;
  created_at := {| year := 2024; month := 3; day := 5; hour := 9; minute := 32 |};
  parsed_username := Some "xyz00001";
  parsed_name := Some "Grace Hopper";
  page_count := Some 12;
  user := Some {| username := "xyz00001"; full_name := ""; faculty := None |};
  price_calculation := None;
  status := PROCESSED
|}.

(** ** What the thumbnail renderer has to work with *)

(** The pixmap of the first page of the file at [pdf_path], when PyMuPDF is
    there, opens the file and renders the page. *)
Definition first_page_pixmap (E : env) (m : gmap path node) (pdf_path : path)
    : option (Z * Z) :=
  if fitz_installed E then
    match m !! pdf_path with
    | Some (File (Pdf {| page_tree := Some (pg :: _) |})) =>
        if read_denied E pdf_path then None else get_pixmap E pg
    | _ => None
    end
  else None.

(** The temporary file can be created: its name is free, its directory is
    there and creating it is not refused. *)
Definition tmp_file_free (E : env) (m : gmap path node) : bool :=
  negb (exists_ m (tmp_name E)) && is_dir m (parent (tmp_name E))
  && negb (write_denied E (tmp_name E)).

(** The level of a handler. *)
Definition handler_level (h : Handler) : option Z :=
  match h with
  | RichHandler n | StreamHandler _ n | FileHandler _ _ n => Some n
  | NullHandler | OtherHandler _ => None
  end.

(** ** The preview on a cover sheet *)

(** The label and the frame of the preview, for an image drawn [tw] wide and
    [th] high below the height [top]. *)
Definition preview_frame (top tw th : Q) : list canvas_op :=
  [ setFont "Helvetica" 8;
    setFillColorRGB 0.4 0.4 0.4;
    drawString thumb_col_x (top + 4) "Vorschau:";
    setFillColorRGB 0 0 0;
    setStrokeColorRGB 0.8 0.8 0.8;
    setLineWidth 0.5;
    rect (thumb_col_x - 2) (top - th - 2) (tw + 4) (th + 4) ].

(** The locals of [create_coversheet] at the thumbnail block of a sheet for
    an order without identity and price, with a thumbnail at [tp]. *)
Definition sample_locals (tp : path) : locals :=
  {| thumbnail_path := Some tp; c := []; y := 622; info_top_y := 706 |}.

(** The files after a thumbnail of 892 by 1263 pixels was rendered. *)
Definition thumbnail_world : world :=
  world_of (<[ ["tmp"; "tmpk3x9.png"] := File (Png 892 1263) ]> sample_files).

(** Embedding the image fails. *)
Definition failing_draw_image_env : env := {|
  mkdir_denied := λ _, false;
  read_denied := λ _, false;
  write_denied := λ _, false;
  unlink_denied := λ _, false;
  disk_quota := None;
  fitz_installed := true;
  get_pixmap := λ _, Some (892, 1263);
  tmp_name := ["tmp"; "tmpk3x9.png"];
  pix_save_fails := false;
  image_reader_fails := false;
  draw_image_fails := true;
  stat_denied := λ _, false;
  unicode_upper := latin_upper;
  markup_fails := λ _, false
|}.

(** ** What [setup_logging] builds *)

(** The formatter of the log file, which the plain console handler shares. *)
Definition file_formatter : Formatter :=
  mkFormatter "%(asctime)s - %(name)s - %(levelname)s - %(message)s" "%Y-%m-%d %H:%M:%S".

(** The console handler for the level [n]. *)
Definition console_handler (use_rich : bool) (n : Z) : Handler :=
  if use_rich then RichHandler n else StreamHandler (Some file_formatter) n.

(** The root logger after it was secured. *)
Definition secured_root (r : Logger) : Logger :=
  {| handlers := match handlers r with [] => [NullHandler] | hs => hs end;
     level := logging_WARNING; propagate := propagate r |}.

(** The log file cannot be written. *)
Definition read_only_env : env := {|
  mkdir_denied := λ _, false;
  read_denied := λ _, false;
  write_denied := λ _, true;
  unlink_denied := λ _, false;
  disk_quota := None;
  fitz_installed := true;
  get_pixmap := λ _, Some (892, 1263);
  tmp_name := ["tmp"; "tmpk3x9.png"];
  pix_save_fails := false;
  image_reader_fails := false;
  draw_image_fails := false;
  stat_denied := λ _, false;
  unicode_upper := latin_upper;
  markup_fails := λ _, false
|}.

(** The directory of the documents cannot be searched: looking at a file in
    it is refused. *)
Definition locked_dir_env : env := {|
  mkdir_denied := λ _, false;
  read_denied := λ _, false;
  write_denied := λ _, false;
  unlink_denied := λ _, false;
  disk_quota := None;
  fitz_installed := true;
  get_pixmap := λ _, Some (892, 1263);
  tmp_name := ["tmp"; "tmpk3x9.png"];
  pix_save_fails := false;
  image_reader_fails := false;
  draw_image_fails := false;
  stat_denied := λ p, bool_decide (take 1 p = ["in"]);
  unicode_upper := latin_upper;
  markup_fails := λ _, false
|}.

(** The world [w] with the files [m]. *)
Definition with_fs (w : world) (m : gmap path node) : world :=
  {| fs := m; log := log w; skriptendruck := skriptendruck w; root := root w;
     _logging_configured := _logging_configured w |}.

(** ** commands.py: the command [credentials] *)

(** A command runs in [Py] and prints to the console: the strings handed to
    [console.print] are threaded along, in order.  (What was printed before
    an exception is not kept.)  A command that ends in an exception other
    than [typer.Exit] is [Raise]: the process then ends with a traceback and
    the exit code 1. *)
Definition Cli (A : Type) : Type := list string → Py (A * list string).

#[export] Instance Cli_ret : MRet Cli := λ A a out, mret (a, out).

#[export] Instance Cli_bind : MBind Cli := λ A B f m out,
  r ← m out; f (fst r) (snd r).

Definition lift {A} (m : Py A) : Cli A := λ out, a ← m; mret (a, out).

(** [console.print(s)]: rich reads [s] as markup, and raises when a closing
    tag in it closes nothing. *)
Definition console_print (s : string) : Cli unit := λ out,
  fails ← ask (λ E, markup_fails E s);
  if fails : bool then raise (Exc MarkupError "closing tag does not match any open tag")
  else mret (tt, (out ++ [s])%list).

(** The line feed of a Python string literal. *)
Definition nl : string := String (ascii_of_nat 10) EmptyString.

(** [p.unlink()], without [missing_ok]. *)
Definition unlink_strict (p : path) : Py unit :=
  m ← get_fs;
  match p, m !! p with
  | [], _ => raise (Exc IsADirectoryError (str_of_path p))
  | _, None => raise (Exc FileNotFoundError (str_of_path p))
  | _, Some Dir => raise (Exc IsADirectoryError (str_of_path p))
  | _, Some (File _) =>
      denied ← ask (λ E, unlink_denied E p);
      if denied : bool then raise (Exc PermissionError (str_of_path p))
      else put_fs (delete p m)
  end.

(** [creds[key][:3] + "***" if len(creds[key]) > 3 else "***"]. *)
Definition masked (value : string) : string :=
  if (3 <? len value)%nat then slice_to 3 value ++ "***" else "***".

Section Credentials.

(** What the command takes from modules that are not modelled: the settings,
    the constants and functions of [config/credentials.py] (a dictionary is
    the list of its items), and [typer.prompt] with its text, default and
    [hide_input]. *)
Variable settings_log_level : string.
Variable settings_ldap_bind_dn : option string.
Variables CREDENTIALS_FILE KEY_FILE : path.
Variable has_credentials : Py bool.
Variable load_credentials : Py (option (list (string * string))).
Variable save_credentials : list (string * string) → Py path.
Variable typer_prompt : string → option string → bool → Py string.

(** [for key in creds: ...]. *)
Fixpoint print_masked (creds : list (string * string)) : Cli unit :=
  match creds with
  | [] => mret tt
  | (key, value) :: rest =>
      console_print ("  " ++ key ++ ": " ++ masked value) ;;
      print_masked rest
  end.

(** [for fname in [CREDENTIALS_FILE, KEY_FILE]: ...], with the flag
    [deleted]. *)
Fixpoint delete_files (fnames : list path) (deleted : bool) : Cli bool :=
  match fnames with
  | [] => mret deleted
  | fname :: rest =>
      there ← lift (path_exists fname);
      if there : bool then
        lift (call (unlink_strict fname)) ;;
        console_print ("[green]✓[/green] Gelöscht: " ++ str_of_path fname) ;;
        delete_files rest true
      else delete_files rest deleted
  end.

(** The command returns how it ended: 0 for [return], 1 for
    [raise typer.Exit(1)]. *)
Definition credentials (action : string) : Cli Z :=
  lift (call (setup_logging settings_log_level None true)) ;;
  if String.eqb action "check" then
    has ← lift (call has_credentials);
    (if has : bool then
       creds ← lift (call load_credentials);
       match creds with
       | Some ((_ :: _) as creds) =>
           console_print "[green]✓[/green] Credentials vorhanden und entschlüsselbar" ;;
           print_masked creds
       | _ =>
           console_print "[red]✗[/red] Credentials vorhanden aber nicht entschlüsselbar"
       end
     else
       console_print "[yellow]Keine Credentials eingerichtet[/yellow]" ;;
       console_print "Einrichten mit: skriptendruck credentials setup") ;;
    mret 0
  else if String.eqb action "delete" then
    deleted ← delete_files [CREDENTIALS_FILE; KEY_FILE] false;
    (if deleted : bool then mret tt
     else console_print "[yellow]Keine Credentials-Dateien gefunden[/yellow]") ;;
    mret 0
  else if String.eqb action "setup" then
    console_print (nl ++ "[bold blue]LDAP-Credentials einrichten[/bold blue]" ++ nl) ;;
    console_print ("Das Passwort wird verschlüsselt gespeichert und muss nicht" ++ nl
                   ++ "in der .env Datei stehen." ++ nl) ;;
    (* LDAP Bind DN *)
    let current_dn := default "" settings_ldap_bind_dn in
    bind_dn ← lift (call (typer_prompt "LDAP Bind DN (z.B. abc12345@hs-regensburg.de)"
                            (Some current_dn) false));
    (* Passwort (verdeckte Eingabe) *)
    password ← lift (call (typer_prompt "LDAP Passwort" None true));
    password_confirm ← lift (call (typer_prompt "Passwort bestätigen" None true));
    if negb (String.eqb password password_confirm) then
      console_print "[red]Passwörter stimmen nicht überein![/red]" ;;
      mret 1
    else
      (* Speichern *)
      let creds := [("ldap_bind_dn", bind_dn); ("ldap_bind_password", password)] in
      cred_path ← lift (call (save_credentials creds));
      console_print (nl ++ "[green]✓[/green] Credentials verschlüsselt gespeichert: "
                     ++ str_of_path cred_path) ;;
      console_print (nl ++ "[bold]Wichtig:[/bold] LDAP_BIND_PASSWORD aus der .env Datei entfernen!"
                     ++ nl
                     ++ "Die .env braucht nur noch LDAP_ENABLED=true und die Server-Einstellungen.") ;;
      mret 0
  else
    console_print ("[red]Unbekannte Aktion: " ++ action ++ "[/red]") ;;
    console_print "Verfügbar: setup, check, delete" ;;
    mret 0.

End Credentials.

(** The key and the credentials file of an installation. *)
Definition credentials_files : gmap path node :=
  <[ ["etc"] := Dir ]> (
  <[ ["etc"; "credentials.enc"] := File (Bytes "gAAAAABl") ]> (
  <[ ["etc"; "credentials.key"] := File (Bytes "k3y") ]> ∅)).

(** Input at the prompts: the passwords typed differ. *)
Definition mistyped_prompt (text : string) (default : option string) (hide_input : bool)
    : Py string :=
  mret (if String.eqb text "Passwort bestätigen" then "geheim2" else "geheim1").

(** The command on that installation, with nothing stored yet. *)
Definition sample_credentials (action : string) : Cli Z :=
  credentials "INFO" None ["etc"; "credentials.enc"] ["etc"; "credentials.key"]
    (mret true) (mret None) (λ _, mret ["etc"; "credentials.enc"]) mistyped_prompt action.

(** ** The layout of a cover sheet *)

(** A text is set on the page: it starts within the margins, and it is the
    footer, 30 points above the bottom edge, or it sits in the body, no
    higher than the header line 40 points below the top edge and no lower
    than 380 points below the top edge. *)
Definition set_on_page (o : canvas_op) : Prop :=
  match o with
  | drawString x y _ | drawRightString x y _ =>
      (margin <= x)%Q ∧ (x <= right_margin)%Q
      ∧ (y = 30%Q ∨ ((height - 380 <= y)%Q ∧ (y <= height - 40)%Q))
  | _ => True
  end.

(** A block of the left column, [d] points high: run with room for it, it
    returns, touches nothing but the canvas and [y], moves [y] down by [d]
    at most, and sets its texts on the page. *)
Definition sets_block (d : Q) (m : Py unit) : Prop :=
  (0 <= d)%Q
  ∧ ∀ E l w, (height - 380 + d <= y l)%Q → (y l <= height - 40)%Q →
      ∃ l', m E l w = (l', w, Return tt)
        ∧ info_top_y l' = info_top_y l
        ∧ (y l - d <= y l')%Q ∧ (y l' <= y l)%Q
        ∧ ∃ added, c l' = (c l ++ added)%list ∧ Forall set_on_page added.

(** * Theorems *)

(** ** The monad *)

Lemma bind_run {A B} (m : Py A) (k : A → Py B) (E : env) (l : locals) (w : world) :
  (m ≫= k) E l w
  = match m E l w with
    | (l', w', Return a) => k a E l' w'
    | (l', w', Raise e) => (l', w', Raise e)
    end.
Proof. reflexivity. Qed.

(** Run the first statement of a sequence that is applied to a state. *)
Ltac bind_step :=
  lazymatch goal with
  | |- context [@mbind Py _ _ _ ?k ?m ?x ?y ?z] => rewrite (bind_run m k x y z)
  end.

Ltac run_step := cbv beta iota; bind_step.

Lemma read_file_pure p E l w :
  ∃ r, read_file p E l w = (l, w, r) ∧
    (∀ data, r = Return data ↔ fs w !! p = Some (File data) ∧ read_denied E p = false).
Proof.
  unfold read_file, get_fs, ask, raise, mbind, Py_bind, mret, Py_ret.
  destruct (fs w !! p) as [[|data]|] eqn:Hp.
  - eexists; split; [reflexivity|]. intros data; split; [discriminate|intros [? _]; discriminate].
  - destruct (read_denied E p) eqn:Hd.
    + eexists; split; [reflexivity|]. intros d'; split; [discriminate|intros [_ ?]; discriminate].
    + eexists; split; [reflexivity|]. intros d'; split.
      * intros [= ->]. done.
      * intros [[= ->] _]. done.
  - eexists; split; [reflexivity|]. intros data; split; [discriminate|intros [? _]; discriminate].
Qed.

Lemma PdfReader_pure p E l w :
  ∃ r, PdfReader p E l w = (l, w, r) ∧
    (∀ d, r = Return d ↔ fs w !! p = Some (File (Pdf d)) ∧ read_denied E p = false).
Proof.
  unfold PdfReader, mbind, Py_bind.
  destruct (read_file_pure p E l w) as (r & -> & Hr).
  destruct r as [data|e].
  - destruct (proj1 (Hr data) eq_refl) as [Hp Hd].
    destruct data as [d0| | |]; cbn; eexists; (split; [reflexivity|]); intros d';
      (split; [intros [= <-]; done | intros [? _]; congruence]).
  - eexists; split; [reflexivity|]. intros d; split; [discriminate|].
    intros H. apply Hr in H. discriminate.
Qed.

Lemma pages_pure d E l w : ∃ r, pages d E l w = (l, w, r) ∧ (∀ ps, r = Return ps ↔ page_tree d = Some ps).
Proof.
  unfold pages. destruct (page_tree d) as [ps|].
  - eexists; split; [reflexivity|]. intros ps'; split; congruence.
  - destruct (is_encrypted d); eexists; (split; [reflexivity|]); intros ps'; split; discriminate.
Qed.

(** ** PricingEngine *)

(** C8: for every price calculation the pricing engine produces, the amount
    after the deposit is the maximum of zero and the total minus the deposit,
    and so it is never negative, whatever the page count and the entries of
    the price table are. *)
Theorem price_after_deposit_clamped (t : price_table) (n : Z) (cm : ColorMode)
    (b : BindingType) (size_mm : option Z) :
  price_after_deposit (price t n cm b size_mm)
    = Z.max 0 (total_price (price t n cm b size_mm) - deposit (price t n cm b size_mm))
  ∧ (0 ≤ price_after_deposit (price t n cm b size_mm))%Z.
Proof.
  split; [reflexivity|]. cbn. apply Z.le_max_l.
Qed.

(** ** PdfService.get_page_count *)

(** C2: when the file at the path is a PDF that can be opened, an encrypted
    document gives no page count together with [True], and an unencrypted
    document whose pages can be read gives its number of pages together with
    [False]. *)
Theorem get_page_count_pdf (E : env) (w : world) (pdf_path : path) (d : pdf_doc) :
  fs w !! pdf_path = Some (File (Pdf d)) →
  read_denied E pdf_path = false →
  (is_encrypted d = true →
     (run (get_page_count pdf_path) E w).2 = Return (None, true))
  ∧ (∀ ps, is_encrypted d = false → page_tree d = Some ps →
     (run (get_page_count pdf_path) E w).2 = Return (Some (Z.of_nat (length ps)), false)).
Proof.
  intros Hp Hd.
  assert (HR : ∀ l, PdfReader pdf_path E l w = (l, w, Return d)).
  { intros l. destruct (PdfReader_pure pdf_path E l w) as (r & -> & Hr).
    f_equal. apply Hr. done. }
  split.
  - intros Henc. unfold run, get_page_count, try_except, mbind, Py_bind.
    rewrite HR, Henc. reflexivity.
  - intros ps Henc Hps. unfold run, get_page_count, try_except, mbind, Py_bind.
    rewrite HR, Henc. unfold pages. rewrite Hps. reflexivity.
Qed.

Lemma get_page_count_pdf_witness :
  (run (get_page_count ["in"; "locked.pdf"]) fair_env sample_world).2 = Return (None, true)
  ∧ (run (get_page_count ["in"; "script.pdf"]) fair_env sample_world).2 = Return (Some 2, false).
Proof.
  split.
  - apply (get_page_count_pdf fair_env sample_world ["in"; "locked.pdf"] locked_pdf);
      reflexivity.
  - apply (proj2 (get_page_count_pdf fair_env sample_world ["in"; "script.pdf"] script_pdf
                    eq_refl eq_refl) [SourcePage 0; SourcePage 1]); reflexivity.
Defined.

(** C3, as the claim states it, fails: a damaged file and a missing file make
    the reader raise two different errors, and [get_page_count] does not fail
    for either; it returns the same pair, which has no room for the cause. *)
Lemma get_page_count_drops_cause :
  (run (PdfReader ["in"; "broken.pdf"]) fair_env sample_world).2
    = Raise (Exc PdfReadError "EOF marker not found")
  ∧ (run (PdfReader ["in"; "missing.pdf"]) fair_env sample_world).2
    = Raise (Exc FileNotFoundError "/in/missing.pdf")
  ∧ (run (get_page_count ["in"; "broken.pdf"]) fair_env sample_world).2
    = Return (None, false)
  ∧ (run (get_page_count ["in"; "missing.pdf"]) fair_env sample_world).2
    = Return (None, false).
Proof. repeat split; vm_compute; reflexivity. Qed.

(** C3, amended: when opening the file raises, or reading the pages of an
    unencrypted document raises, [get_page_count] does not raise: it returns
    [(None, False)], a pair different from the one for an encrypted document
    and from every pair with a page count, writes the cause to the error log
    and leaves the files alone. *)
Theorem get_page_count_unreadable (E : env) (w : world) (pdf_path : path) (e : exc) :
  ((run (PdfReader pdf_path) E w).2 = Raise e
   ∨ ∃ d, (run (PdfReader pdf_path) E w).2 = Return d ∧ is_encrypted d = false
          ∧ (run (pages d) E w).2 = Raise e) →
  run (get_page_count pdf_path) E w
    = (with_log w [(ERROR, "Fehler beim Lesen des PDFs " ++ str_of_path pdf_path
                            ++ ": " ++ exc_str e)],
       Return (None, false))
  ∧ (None, false) ≠ (@None Z, true)
  ∧ ∀ n : Z, (None, false) ≠ (Some n, false).
Proof.
  intros H. split; [|split; [discriminate|intros n; discriminate]].
  unfold run in *. unfold get_page_count, try_except, mbind, Py_bind.
  destruct (PdfReader_pure pdf_path E no_locals w) as (r & HR & _).
  rewrite HR in *. cbn in H.
  destruct H as [->|(d & -> & Henc & Hps)].
  - reflexivity.
  - rewrite Henc.
    destruct (pages_pure d E no_locals w) as (r' & HP & _).
    rewrite HP in *. cbn in Hps. subst r'. reflexivity.
Qed.

Lemma get_page_count_unreadable_witness :
  run (get_page_count ["in"; "broken.pdf"]) fair_env sample_world
    = (with_log sample_world
         [(ERROR, "Fehler beim Lesen des PDFs /in/broken.pdf: EOF marker not found")],
       Return (None, false))
  ∧ (None, false) ≠ (@None Z, true)
  ∧ ∀ n : Z, (None, false) ≠ (Some n, false).
Proof.
  apply (get_page_count_unreadable fair_env sample_world ["in"; "broken.pdf"]
           (Exc PdfReadError "EOF marker not found")).
  left. vm_compute. reflexivity.
Defined.

(** ** Directories *)

Open Scope list_scope.

Lemma is_dir_snoc (m : gmap path node) (done : path) (name : string) :
  is_dir m (done ++ [name]) = true ↔ m !! (done ++ [name]) = Some Dir.
Proof.
  unfold is_dir. destruct done as [|a q]; cbn.
  - destruct (m !! [name]) as [[|data]|]; split; intros; done.
  - destruct (m !! (a :: q ++ [name])) as [[|data]|]; split; intros; done.
Qed.


(** [mkdir] only adds directories, at paths no longer than the one asked
    for, and when it returns the directory is there. *)
Lemma mkdir_from_fs (rest : list string) : ∀ (done : path) (E : env) (l : locals) (w : world),
  ∃ w' r, mkdir_from done rest E l w = (l, w', r)
    ∧ same_but_fs w w'
    ∧ (∀ p, fs w' !! p = fs w !! p
            ∨ (fs w !! p = None ∧ fs w' !! p = Some Dir
               ∧ (length p ≤ length done + length rest)%nat))
    ∧ (r = Return tt → is_dir (fs w) done = true → is_dir (fs w') (done ++ rest) = true).
Proof.
  induction rest as [|name rest IH]; intros done E l w.
  - exists w, (Return tt). cbn. rewrite app_nil_r. unfold same_but_fs. auto 10.
  - cbn [mkdir_from]. unfold mbind, Py_bind, get_fs, ask, raise.
    destruct (fs w !! (done ++ [name])) as [[|data]|] eqn:Hp.
    + destruct (IH (done ++ [name]) E l w) as (w' & r & Hrun & Hsame & Hfs & Hdir).
      exists w', r. split; [exact Hrun|]. split; [exact Hsame|]. split.
      * intros p. destruct (Hfs p) as [?|(?&?&Hlen)]; [auto|].
        right. rewrite length_app in Hlen. cbn in *. repeat split; auto. lia.
      * intros Hr _. rewrite (app_assoc done [name] rest : done ++ name :: rest = _).
        apply Hdir; [done|]. by apply is_dir_snoc.
    + eexists w, (Raise _). split; [reflexivity|].
      unfold same_but_fs. repeat split; auto. discriminate.
    + destruct (mkdir_denied E (done ++ [name])).
      * exists w, (Raise (Exc PermissionError (str_of_path (done ++ [name])))).
        unfold same_but_fs. repeat split; auto. discriminate.
      * unfold put_fs. cbn.
        destruct (IH (done ++ [name]) E l
                    {| fs := <[done ++ [name] := Dir]> (fs w); log := log w;
                       skriptendruck := skriptendruck w; root := root w;
                       _logging_configured := _logging_configured w |})
          as (w' & r & Hrun & Hsame & Hfs & Hdir).
        exists w', r. split; [exact Hrun|]. cbn in Hfs, Hdir. split; [exact Hsame|]. split.
        -- intros p. destruct (decide (p = done ++ [name])) as [->|Hne].
           ++ right. split; [done|]. split.
              ** destruct (Hfs (done ++ [name])) as [->|(Hn&_)].
                 --- apply lookup_insert_eq.
                 --- rewrite lookup_insert_eq in Hn. discriminate.
              ** rewrite length_app. cbn. lia.
           ++ destruct (Hfs p) as [->|(Hn&?&Hlen)].
              ** left. by apply lookup_insert_ne.
              ** right. rewrite lookup_insert_ne in Hn by done.
                 rewrite length_app in Hlen. cbn in *. repeat split; auto. lia.
        -- intros Hr _. rewrite (app_assoc done [name] rest : done ++ name :: rest = _).
           apply Hdir; [done|]. apply is_dir_snoc. apply lookup_insert_eq.
Qed.

Lemma parent_shorter (p : path) : p = [] ∨ (length (parent p) < length p)%nat.
Proof.
  destruct p as [|a q]; [by left|right]. unfold parent.
  rewrite (app_removelast_last a (l := a :: q)) at 2 by discriminate.
  rewrite length_app. cbn [length]. lia.
Qed.

(** Making the directory of a file leaves the file itself, and every file
    that is there, as it was. *)
Lemma mkdir_parents_fs (out : path) (E : env) (l : locals) (w : world) :
  ∃ w' r, mkdir_parents (parent out) E l w = (l, w', r)
    ∧ same_but_fs w w'
    ∧ fs w' !! out = fs w !! out
    ∧ (∀ p, fs w' !! p = fs w !! p ∨ (fs w !! p = None ∧ fs w' !! p = Some Dir))
    ∧ (r = Return tt → is_dir (fs w') (parent out) = true).
Proof.
  unfold mkdir_parents.
  destruct (mkdir_from_fs (parent out) [] E l w) as (w' & r & Hrun & Hsame & Hfs & Hdir).
  exists w', r. split; [exact Hrun|]. split; [exact Hsame|]. split; [|split].
  - destruct (Hfs out) as [?|(_&_&Hlen)]; [done|]. cbn in Hlen.
    destruct (parent_shorter out) as [->|?]; [|lia].
    cbn in Hrun. injection Hrun as <- _. done.
  - intros p. destruct (Hfs p) as [?|(?&?&_)]; auto.
  - intros Hr. apply Hdir; done.
Qed.

(** Opening a file for writing: the root is refused, and below the root the
    file itself and its directory decide. *)
Lemma open_wb_below (p : path) :
  p ≠ [] →
  open_wb p
  = (m ← get_fs;
     match m !! p with
     | Some Dir => raise (Exc IsADirectoryError (str_of_path p))
     | _ =>
         if is_dir m (parent p) then
           denied ← ask (λ E, write_denied E p);
           if denied : bool then raise (Exc PermissionError (str_of_path p))
           else put_fs (<[p := File (Bytes "")]> m)
         else raise (Exc FileNotFoundError (str_of_path p))
     end).
Proof. destruct p; [done|reflexivity]. Qed.

Lemma open_append_below (p : path) :
  p ≠ [] →
  open_append p
  = (m ← get_fs;
     match m !! p with
     | Some Dir => raise (Exc IsADirectoryError (str_of_path p))
     | Some (File _) =>
         denied ← ask (λ E, write_denied E p);
         if denied : bool then raise (Exc PermissionError (str_of_path p)) else mret tt
     | None =>
         if is_dir m (parent p) then
           denied ← ask (λ E, write_denied E p);
           if denied : bool then raise (Exc PermissionError (str_of_path p))
           else put_fs (<[p := File (Bytes "")]> m)
         else raise (Exc FileNotFoundError (str_of_path p))
     end).
Proof. destruct p; [done|reflexivity]. Qed.

(** ** PdfService.merge_pdfs *)

#[local] Arguments Nat.ltb : simpl never.
#[local] Arguments Nat.eqb : simpl never.

Lemma fold_left_add_page (ps writer : list page) :
  fold_left add_page ps writer = writer ++ ps.
Proof.
  revert writer. induction ps as [|pg ps IH]; intros writer; cbn.
  - by rewrite app_nil_r.
  - rewrite IH. unfold add_page. by rewrite <- app_assoc.
Qed.

(** How a merge can end: it never raises; it fails before it writes, or it
    fails while it writes and leaves a truncated file, or it succeeds. *)
Lemma merge_pdfs_outcome (E : env) (w : world) (cs doc out : path) (blank : bool) :
  ∃ w' b, run (merge_pdfs cs doc out blank) E w = (w', Return b)
    ∧ ((b = false ∧ fs w' !! out = fs w !! out)
       ∨ ∃ cps dps, pdf_with_pages (fs w) cs cps ∧ pdf_with_pages (fs w) doc dps
           ∧ ((b = false ∧ ∃ n, disk_quota E = Some n
                 ∧ (n < length (merged_pages cps blank dps))%nat
                 ∧ fs w' !! out = Some (File (Truncated (take n (merged_pages cps blank dps)))))
              ∨ (b = true
                 ∧ fs w' !! out
                   = Some (File (Pdf {| is_encrypted := false;
                                        page_tree := Some (merged_pages cps blank dps) |}))
                 ∧ ∀ p, p ≠ out → fs w !! p ≠ None → fs w' !! p = fs w !! p))).
Proof.
  unfold run, merge_pdfs, try_except, mbind, Py_bind.
  destruct (mkdir_parents_fs out E no_locals w) as (w1 & r1 & -> & _ & Hout & Hfs & Hdir).
  destruct r1 as [[]|e1]; [|eexists _, _; split; [reflexivity|left; split; [done|exact Hout]]].
  destruct (PdfReader_pure cs E no_locals w1) as (r2 & -> & Hr2).
  destruct r2 as [dc|e2]; [|eexists _, _; split; [reflexivity|left; split; [done|exact Hout]]].
  destruct (pages_pure dc E no_locals w1) as (r3 & -> & Hr3).
  destruct r3 as [cps|e3]; [|eexists _, _; split; [reflexivity|left; split; [done|exact Hout]]].
  destruct (PdfReader_pure doc E no_locals w1) as (r4 & -> & Hr4).
  destruct r4 as [dd|e4]; [|eexists _, _; split; [reflexivity|left; split; [done|exact Hout]]].
  destruct (pages_pure dd E no_locals w1) as (r5 & -> & Hr5).
  destruct r5 as [dps|e5]; [|eexists _, _; split; [reflexivity|left; split; [done|exact Hout]]].
  assert (Hcs : pdf_with_pages (fs w) cs cps).
  { exists dc. split; [|by apply Hr3].
    destruct (proj1 (Hr2 dc) eq_refl) as [Hc _].
    destruct (Hfs cs) as [<-|[_ ?]]; congruence. }
  assert (Hdoc : pdf_with_pages (fs w) doc dps).
  { exists dd. split; [|by apply Hr5].
    destruct (proj1 (Hr4 dd) eq_refl) as [Hc _].
    destruct (Hfs doc) as [<-|[_ ?]]; congruence. }
  assert (Hw : fold_left add_page dps
                 (if blank then add_blank_page (fold_left add_page cps []) (fst A4) (snd A4)
                  else fold_left add_page cps [])
               = merged_pages cps blank dps).
  { rewrite !fold_left_add_page. unfold merged_pages, add_blank_page.
    destruct blank; cbn [app]; by rewrite <- ?app_assoc, ?app_nil_r. }
  rewrite Hw. clear Hw. remember (merged_pages cps blank dps) as merged eqn:Hmerged.
  destruct (decide (out = [])) as [->|Hroot].
  { eexists _, _. split; [reflexivity|]. left. split; [done|exact Hout]. }
  rewrite (open_wb_below out Hroot).
  unfold write_pages, mbind, Py_bind, get_fs, ask, raise, put_fs. cbn.
  destruct (fs w1 !! out) as [[|data]|] eqn:Ho;
    try (eexists _, _; split; [reflexivity|left; split; [done|cbn; congruence]]).
  all: destruct (is_dir (fs w1) (parent out));
    try (eexists _, _; split; [reflexivity|left; split; [done|cbn; congruence]]).
  all: destruct (write_denied E out);
    try (eexists _, _; split; [reflexivity|left; split; [done|cbn; congruence]]).
  all: cbn; destruct (disk_quota E) as [n|] eqn:Hq; cbn.
  all: try destruct (n <? length merged)%nat eqn:Hn; cbn.
  all: eexists _, _; (split; [reflexivity|]); right; exists cps, dps; split; [done|split; [done|]].
  all: rewrite <- Hmerged; cbn.
  all: try (left; split; [done|]; exists n; split; [done|]; split;
            [by apply Nat.ltb_lt | apply lookup_insert_eq]).
  all: right; split; [done|]; split; [apply lookup_insert_eq|].
  all: intros p Hp Hsome; rewrite !lookup_insert_ne by done;
    destruct (Hfs p) as [?|[? _]]; done.
Qed.

(** C1, as the claim states it, fails: on a device that fails after one page,
    merging the one-page cover sheet with the two-page document fails, and
    the destination, which had no file, holds a truncated document. *)
Lemma merge_pdfs_leaves_partial_output :
  (run (merge_pdfs ["in"; "cover.pdf"] ["in"; "script.pdf"] ["out"; "job.pdf"] false)
       small_disk_env sample_world).2 = Return false
  ∧ fs sample_world !! ["out"; "job.pdf"] = None
  ∧ fs (run (merge_pdfs ["in"; "cover.pdf"] ["in"; "script.pdf"] ["out"; "job.pdf"] false)
            small_disk_env sample_world).1 !! ["out"; "job.pdf"]
    = Some (File (Truncated [CanvasPage A4 []])).
Proof. repeat split; vm_compute; reflexivity. Qed.

(** C1, amended: the merge writes in place.  When a call fails, the
    destination holds what it held before the call (the failure came before
    the writing: the directory, an input, opening the destination), or, when
    the device failed during the writing, a truncated document: a strict
    prefix of the merged pages. *)
Theorem merge_pdfs_failure (E : env) (w w' : world) (cs doc out : path) (blank : bool) :
  run (merge_pdfs cs doc out blank) E w = (w', Return false) →
  fs w' !! out = fs w !! out
  ∨ ∃ cps dps n, pdf_with_pages (fs w) cs cps ∧ pdf_with_pages (fs w) doc dps
      ∧ disk_quota E = Some n
      ∧ (n < length (merged_pages cps blank dps))%nat
      ∧ fs w' !! out = Some (File (Truncated (take n (merged_pages cps blank dps)))).
Proof.
  intros Hrun.
  destruct (merge_pdfs_outcome E w cs doc out blank) as (w1 & b & Hrun' & H).
  rewrite Hrun in Hrun'. injection Hrun' as <- <-.
  destruct H as [[_ ?]|(cps & dps & Hc & Hd & [(_ & n & ? & ? & ?)|(? & _)])];
    [by left| |done].
  right. exists cps, dps, n. done.
Qed.

Lemma merge_pdfs_failure_witness :
  fs (run (merge_pdfs ["in"; "broken.pdf"] ["in"; "script.pdf"] ["out"; "job.pdf"] true)
          fair_env sample_world).1 !! ["out"; "job.pdf"]
    = fs sample_world !! ["out"; "job.pdf"]
  ∨ ∃ cps dps n, pdf_with_pages (fs sample_world) ["in"; "broken.pdf"] cps
      ∧ pdf_with_pages (fs sample_world) ["in"; "script.pdf"] dps
      ∧ disk_quota fair_env = Some n
      ∧ (n < length (merged_pages cps true dps))%nat
      ∧ fs (run (merge_pdfs ["in"; "broken.pdf"] ["in"; "script.pdf"] ["out"; "job.pdf"] true)
                fair_env sample_world).1 !! ["out"; "job.pdf"]
        = Some (File (Truncated (take n (merged_pages cps true dps)))).
Proof.
  apply (merge_pdfs_failure fair_env sample_world).
  vm_compute. reflexivity.
Defined.

(** C6, as the claim states it, fails: a merge whose destination is the path
    of the document succeeds and replaces the document by the merged one. *)
Lemma merge_pdfs_overwrites_input :
  (run (merge_pdfs ["in"; "cover.pdf"] ["in"; "script.pdf"] ["in"; "script.pdf"] false)
       fair_env sample_world).2 = Return true
  ∧ fs sample_world !! ["in"; "script.pdf"]
    = Some (File (Pdf {| is_encrypted := false;
                         page_tree := Some [SourcePage 0; SourcePage 1] |}))
  ∧ fs (run (merge_pdfs ["in"; "cover.pdf"] ["in"; "script.pdf"] ["in"; "script.pdf"] false)
            fair_env sample_world).1 !! ["in"; "script.pdf"]
    = Some (File (Pdf {| is_encrypted := false;
                         page_tree := Some [CanvasPage A4 []; SourcePage 0; SourcePage 1] |})).
Proof. repeat split; vm_compute; reflexivity. Qed.

(** C6, amended: after a successful merge the destination is a document
    whose pages are the pages of the cover sheet in order, then one blank A4
    page if and only if one was asked for, then the pages of the document in
    order; and an input file whose path is not the destination is as it was
    before the call. *)
Theorem merge_pdfs_success (E : env) (w w' : world) (cs doc out : path) (blank : bool) :
  run (merge_pdfs cs doc out blank) E w = (w', Return true) →
  ∃ cps dps, pdf_with_pages (fs w) cs cps ∧ pdf_with_pages (fs w) doc dps
    ∧ fs w' !! out
      = Some (File (Pdf {| is_encrypted := false;
                           page_tree := Some (merged_pages cps blank dps) |}))
    ∧ (cs ≠ out → fs w' !! cs = fs w !! cs)
    ∧ (doc ≠ out → fs w' !! doc = fs w !! doc).
Proof.
  intros Hrun.
  destruct (merge_pdfs_outcome E w cs doc out blank) as (w1 & b & Hrun' & H).
  rewrite Hrun in Hrun'. injection Hrun' as <- <-.
  destruct H as [[? _]|(cps & dps & Hc & Hd & [(? & _)|(_ & Hout & Hframe)])];
    [done|done|].
  exists cps, dps. split; [done|]. split; [done|]. split; [done|].
  split; intros Hne; apply Hframe; try done.
  - destruct Hc as (d & -> & _). done.
  - destruct Hd as (d & -> & _). done.
Qed.

Lemma merge_pdfs_success_witness :
  ∃ cps dps, pdf_with_pages (fs sample_world) ["in"; "cover.pdf"] cps
    ∧ pdf_with_pages (fs sample_world) ["in"; "script.pdf"] dps
    ∧ fs (run (merge_pdfs ["in"; "cover.pdf"] ["in"; "script.pdf"] ["out"; "job.pdf"] true)
              fair_env sample_world).1 !! ["out"; "job.pdf"]
      = Some (File (Pdf {| is_encrypted := false;
                           page_tree := Some (merged_pages cps true dps) |}))
    ∧ (["in"; "cover.pdf"] ≠ ["out"; "job.pdf"] →
       fs (run (merge_pdfs ["in"; "cover.pdf"] ["in"; "script.pdf"] ["out"; "job.pdf"] true)
               fair_env sample_world).1 !! ["in"; "cover.pdf"]
       = fs sample_world !! ["in"; "cover.pdf"])
    ∧ (["in"; "script.pdf"] ≠ ["out"; "job.pdf"] →
       fs (run (merge_pdfs ["in"; "cover.pdf"] ["in"; "script.pdf"] ["out"; "job.pdf"] true)
               fair_env sample_world).1 !! ["in"; "script.pdf"]
       = fs sample_world !! ["in"; "script.pdf"]).
Proof.
  apply (merge_pdfs_success fair_env sample_world).
  vm_compute. reflexivity.
Defined.

(** ** config/logging.py *)

(** Opening a file to append changes the files at most. *)
Lemma open_append_frame (p : path) (E : env) (l : locals) (w : world) :
  ∃ w' r, open_append p E l w = (l, w', r) ∧ same_but_fs w w'.
Proof.
  destruct (decide (p = [])) as [->|Hroot]; [by eexists _, _|].
  rewrite (open_append_below p Hroot).
  unfold mbind, Py_bind, get_fs, ask, raise, put_fs, same_but_fs.
  destruct (fs w !! p) as [[|data]|]; cbn.
  - eexists _, _; split; [reflexivity|done].
  - destruct (write_denied E p); eexists _, _; (split; [reflexivity|done]).
  - destruct (is_dir (fs w) (parent p)); [|eexists _, _; split; [reflexivity|done]].
    cbn. destruct (write_denied E p); eexists _, _; (split; [reflexivity|done]).
Qed.

(** Whatever the logger had before, a call of [setup_logging] with a level
    name that names a level, or nothing, leaves it with one console handler
    and at most one file handler, and no other; this holds also when the log
    file cannot be opened and the call raises. *)
Lemma setup_logging_handlers (E : env) (w : world) (level_name : string)
    (log_file : option path) (use_rich : bool) :
  names_level E level_name →
  ∃ console, is_console_handler console = true
    ∧ (handlers (skriptendruck (run (setup_logging level_name log_file use_rich) E w).1)
         = [console]
       ∨ ∃ lf formatter, log_file = Some lf
           ∧ handlers (skriptendruck (run (setup_logging level_name log_file use_rich) E w).1)
             = [console; FileHandler lf formatter logging_DEBUG]).
Proof.
  intros [n Hn]. unfold run, setup_logging. rewrite bind_run.
  change (upper level_name E no_locals w) with (no_locals, w, Return (str_upper E level_name)).
  cbv beta iota. rewrite Hn.
  unfold mbind, Py_bind, get_skriptendruck, put_skriptendruck, _checkLevel, mret, Py_ret.
  cbn -[open_append mkdir_parents].
  destruct use_rich; cbn -[open_append mkdir_parents];
    [exists (RichHandler n)
    |exists (StreamHandler
               (Some (mkFormatter "%(asctime)s - %(name)s - %(levelname)s - %(message)s"
                        "%Y-%m-%d %H:%M:%S")) n)];
    (split; [reflexivity|destruct log_file as [lf|]; cbn -[open_append mkdir_parents]]).
  1, 3:
    match goal with
    | |- context [mkdir_parents (parent ?p0) ?E0 ?l0 ?w0] =>
        destruct (mkdir_parents_fs p0 E0 l0 w0) as (w1 & r1 & -> & (_ & Hsk & _) & _)
    end;
    (destruct r1 as [[]|e1]; [|cbn; left; rewrite Hsk; reflexivity]);
    match goal with
    | |- context [open_append ?p0 ?E0 ?l0 ?w0] =>
        destruct (open_append_frame p0 E0 l0 w0) as (w2 & r2 & -> & (_ & Hsk2 & _))
    end;
    (destruct r2 as [[]|e2]; cbn; [|left; rewrite Hsk2, Hsk; reflexivity]);
    right; eexists _, _; (split; [reflexivity|]);
    destruct (handlers (root w2)); cbn; rewrite Hsk2, Hsk; reflexivity.
  all: left; destruct (handlers (root w)); reflexivity.
Qed.

Lemma setup_logging_handlers_ok (E : env) (w : world) (level_name : string)
    (log_file : option path) (use_rich : bool) :
  names_level E level_name →
  handlers_ok (skriptendruck (run (setup_logging level_name log_file use_rich) E w).1).
Proof.
  intros Hn.
  destruct (setup_logging_handlers E w level_name log_file use_rich Hn)
    as (console & Hc & [H|(lf & f & _ & H)]);
    unfold handlers_ok, console_handlers, file_handlers; rewrite H; cbn; rewrite Hc;
    destruct console; try discriminate; cbn; lia.
Qed.

Lemma names_level_INFO (E : env) : names_level E "INFO".
Proof. exists logging_INFO. reflexivity. Qed.

(** A call leaves the handlers in order, when they were in order or logging
    was not configured yet. *)
Lemma do_call_handlers_ok (E : env) (w : world) (k : logging_call) :
  call_names_level E k →
  handlers_ok (skriptendruck w) ∨ _logging_configured w = false →
  handlers_ok (skriptendruck (run (do_call k) E w).1).
Proof.
  intros Hk Hw. destruct k as [level_name log_file use_rich|name]; cbn [do_call].
  - by apply setup_logging_handlers_ok.
  - pose proof (setup_logging_handlers_ok E w "INFO" None true (names_level_INFO E)) as Hs.
    unfold run in *. unfold get_logger, call, mbind, Py_bind, get_logging_configured.
    destruct (_logging_configured w) eqn:Hcfg.
    + cbn. destruct Hw as [?|?]; [done|discriminate].
    + destruct (setup_logging "INFO" None true E no_locals w) as [[l1 w1] [[]|e]]; exact Hs.
Qed.

(** For every sequence of calls with level names that name a level or
    nothing, made by a program whose logging is not configured yet or whose
    logger is in order, the logger is in order after each call: one console
    handler, at most one file handler, none twice. *)
Lemma after_calls_handlers_ok (E : env) (calls : list logging_call) :
  ∀ (w : world) (k : logging_call),
    Forall (call_names_level E) (k :: calls) →
    handlers_ok (skriptendruck w) ∨ _logging_configured w = false →
    handlers_ok (skriptendruck (after_calls E (k :: calls) w)).
Proof.
  induction calls as [|k' calls IH]; intros w k Hall Hw.
  - cbn. apply do_call_handlers_ok; [by inversion Hall|done].
  - change (after_calls E (k :: k' :: calls) w)
      with (after_calls E (k' :: calls) (run (do_call k) E w).1).
    inversion Hall as [|? ? Hk Hrest]; subst.
    apply IH; [done|]. left. by apply do_call_handlers_ok.
Qed.

(** C10 fails on the code: [setup_logging] first clears the handlers and then
    sets the level.  For the level name "basic_format" the look-up
    [getattr(logging, "BASIC_FORMAT", logging.INFO)] gives the format string
    of that name, [setLevel] raises [ValueError], and the logger, which had
    its one console handler from an earlier call, is left with no handler. *)
Theorem setup_logging_basic_format_loses_handlers :
  handlers (skriptendruck (run (setup_logging "INFO" None true) fair_env sample_world).1)
    = [RichHandler logging_INFO]
  ∧ (run (setup_logging "basic_format" None true) fair_env
         (run (setup_logging "INFO" None true) fair_env sample_world).1).2
    = Raise (Exc ValueError "Unknown level: '%(levelname)s:%(name)s:%(message)s'")
  ∧ handlers (skriptendruck
       (after_calls fair_env
          [SetupLogging "INFO" None true; SetupLogging "basic_format" None true]
          sample_world)) = []
  ∧ console_handlers (skriptendruck
       (after_calls fair_env
          [SetupLogging "INFO" None true; SetupLogging "basic_format" None true]
          sample_world)) = 0%nat.
Proof. repeat split; vm_compute; reflexivity. Qed.

(** ** Drawing *)

Section Paints.
Variable P : canvas_op → Prop.

Lemma paints_ret : paints P (mret tt).
Proof.
  intros E l w. exists l, w. repeat split. exists []. by rewrite app_nil_r.
Qed.

Lemma paints_draw (o : canvas_op) : P o → paints P (draw o).
Proof.
  intros Ho E l w. eexists _, w. split; [reflexivity|]. repeat split.
  exists [o]. split; [reflexivity|]. by constructor.
Qed.

Lemma paints_set_y (v : Q) : paints P (set_y v).
Proof.
  intros E l w. eexists _, w. split; [reflexivity|]. repeat split.
  exists []. cbn. by rewrite app_nil_r.
Qed.

Lemma paints_set_info_top_y (v : Q) : paints P (set_info_top_y v).
Proof.
  intros E l w. eexists _, w. split; [reflexivity|]. repeat split.
  exists []. cbn. by rewrite app_nil_r.
Qed.

Lemma paints_bind (m : Py unit) (k : unit → Py unit) :
  paints P m → paints P (k tt) → paints P (m ≫= k).
Proof.
  intros Hm Hk E l w. unfold mbind, Py_bind.
  destruct (Hm E l w) as (l1 & w1 & -> & Hfs1 & Htp1 & added1 & Hc1 & HP1).
  destruct (Hk E l1 w1) as (l2 & w2 & -> & Hfs2 & Htp2 & added2 & Hc2 & HP2).
  exists l2, w2. split; [reflexivity|]. split; [congruence|]. split; [congruence|].
  exists (added1 ++ added2). split.
  - rewrite Hc2, Hc1. by rewrite app_assoc.
  - by apply Forall_app.
Qed.

Lemma paints_get {A} (f : locals → A) (k : A → Py unit) :
  (∀ v, paints P (k v)) → paints P (get_local f ≫= k).
Proof. intros Hk E l w. exact (Hk (f l) E l w). Qed.

Lemma paints_sub_y (d : Q) : paints P (sub_y d).
Proof. unfold sub_y. apply paints_get. intros v. apply paints_set_y. Qed.

Lemma paints_if (b : bool) (m k : Py unit) :
  paints P m → paints P k → paints P (if b then m else k).
Proof. by destruct b. Qed.
End Paints.

(** One statement of a drawing block after the other. *)
Ltac paint_step :=
  lazymatch goal with
  | |- paints _ (mret _) => apply paints_ret
  | |- paints _ (sub_y _) => apply paints_sub_y
  | |- paints _ (set_y _) => apply paints_set_y
  | |- paints _ (set_info_top_y _) => apply paints_set_info_top_y
  | |- paints _ (draw _) => apply paints_draw; split; reflexivity
  | |- paints _ (get_local _ ≫= _) => apply paints_get; intros ?
  | |- paints _ (_ ≫= _) => apply paints_bind
  | |- paints _ (if _ then _ else _) => apply paints_if
  end.

Ltac paint := repeat paint_step.

Lemma draw_field_paints (label value : string) (bold_value : bool) :
  paints plain (draw_field label value bold_value).
Proof. unfold draw_field. paint. Qed.

Lemma draw_header_paints : paints plain draw_header.
Proof. unfold draw_header. paint. Qed.

Lemma draw_order_info_paints (order : Order) : paints plain (draw_order_info order).
Proof. unfold draw_order_info. paint; apply draw_field_paints. Qed.

Lemma draw_price_paints (order : Order) : paints plain (draw_price order).
Proof.
  unfold draw_price. destruct (price_calculation order) as [calc|]; [|paint].
  cbv zeta. paint; apply draw_field_paints.
Qed.

Lemma draw_footer_paints (order : Order) : paints plain (draw_footer order).
Proof. unfold draw_footer. paint. Qed.

#[local] Arguments Qminus : simpl never.
#[local] Arguments Qplus : simpl never.
#[local] Arguments Qmult : simpl never.
#[local] Arguments Qdiv : simpl never.
#[local] Arguments Qmin : simpl never.
#[local] Arguments inject_Z : simpl never.
#[local] Arguments String.append : simpl never.
#[local] Arguments String.eqb : simpl never.
#[local] Arguments str_of_int : simpl never.
#[local] Arguments str_of_path : simpl never.
#[local] Arguments join : simpl never.
#[local] Arguments name_text : simpl never.
#[local] Arguments height : simpl never.
#[local] Arguments width : simpl never.
#[local] Arguments right_margin : simpl never.
#[local] Arguments thumb_col_x : simpl never.
#[local] Arguments A4 : simpl never.

(** The name is the first thing [draw_name] draws. *)
Lemma draw_name_paints (order : Order) (E : env) (l : locals) (w : world) :
  ∃ l', draw_name order E l w = (l', w, Return tt)
    ∧ thumbnail_path l' = thumbnail_path l
    ∧ ∃ rest,
        c l' = c l ++ [setFont "Helvetica-Bold" 24;
                       drawString margin (height - 75) (name_text order)] ++ rest
        ∧ Forall plain rest.
Proof.
  unfold draw_name, mbind, Py_bind, set_y, draw, sub_y, get_local, put_local, mret, Py_ret.
  destruct (user order) as [u|]; cbn; eexists; (split; [reflexivity|]); cbn;
    (split; [reflexivity|]); eexists; rewrite <- !app_assoc; cbn;
    (split; [reflexivity|]); repeat constructor.
Qed.

(** The warning is drawn for the status of an invalid file name, and nothing
    is drawn for any other status. *)
Lemma draw_filename_warning_run (order : Order) (E : env) (l : locals) (w : world) :
  ∃ l', draw_filename_warning order E l w = (l', w, Return tt)
    ∧ thumbnail_path l' = thumbnail_path l
    ∧ ((status order = ERROR_INVALID_FILENAME ∧ c l' = c l ++ banner (y l - 10))
       ∨ (status order ≠ ERROR_INVALID_FILENAME ∧ c l' = c l)).
Proof.
  unfold draw_filename_warning, mbind, Py_bind, set_y, draw, sub_y, get_local, put_local,
    mret, Py_ret.
  destruct (status order) eqn:Hs; cbn; eexists; (split; [reflexivity|]); cbn;
    (split; [reflexivity|]); try (right; split; [discriminate|reflexivity]).
  left. split; [reflexivity|]. rewrite <- !app_assoc. reflexivity.
Qed.

Lemma banner_is_red (ops : list canvas_op) :
  has_banner ops → ¬ Forall (λ o, is_red o = false) ops.
Proof.
  intros (before & after & y0 & ->) H.
  apply Forall_app in H as [_ H]. apply Forall_app in H as [H _].
  inversion H as [|? ? Hred]. discriminate.
Qed.

(** ** The thumbnail *)

Lemma exists_false (m : gmap path node) (p : path) :
  exists_ m p = false → m !! p = None ∧ p ≠ [].
Proof.
  unfold exists_. destruct p as [|a q]; [discriminate|].
  destruct (m !! (a :: q)); [discriminate|done].
Qed.

Lemma fitz_open_pure (p : path) (E : env) (l : locals) (w : world) :
  ∃ r, fitz_open p E l w = (l, w, r)
    ∧ (∀ ps, r = Return ps →
         ∃ d, fs w !! p = Some (File (Pdf d)) ∧ page_tree d = Some ps).
Proof.
  unfold fitz_open. bind_step.
  destruct (read_file_pure p E l w) as (r & -> & Hr).
  destruct r as [data|e]; [|eexists; split; [reflexivity|discriminate]].
  destruct (proj1 (Hr data) eq_refl) as [Hp _].
  destruct data as [[enc [ps|]]| | |]; cbn; eexists; (split; [reflexivity|]);
    try discriminate.
  intros ps' [= <-]. eauto.
Qed.

(** The renderer never raises.  It leaves the files as they are but for the
    temporary file, which it creates where no file was; when it hands back a
    path, that file is the image and nothing stood in its way. *)
Lemma _render_page_thumbnail_run (fp : path) (E : env) (l : locals) (w : world) :
  ∃ w' tp, _render_page_thumbnail fp 0 E l w = (l, w', Return tp)
    ∧ (∀ p, fs w' !! p = fs w !! p
            ∨ (p = tmp_name E ∧ exists_ (fs w) p = false
               ∧ ∃ data, fs w' !! p = Some (File data)))
    ∧ (tp = None
       ∨ (tp = Some (tmp_name E)
          ∧ (∃ wd ht, fs w' !! tmp_name E = Some (File (Png wd ht)))
          ∧ fitz_installed E = true ∧ pix_save_fails E = false
          ∧ ∃ d pg ps size, fs w !! fp = Some (File (Pdf d))
              ∧ page_tree d = Some (pg :: ps) ∧ get_pixmap E pg = Some size)).
Proof.
  assert (Hfail : ∀ e w0, fs w0 = fs w →
    ∃ w' tp, (match exc_type e with
              | ImportError =>
                  logger DEBUG "PyMuPDF (fitz) nicht verfügbar – Thumbnail wird übersprungen" ;;
                  mret None
              | _ =>
                  logger WARNING ("Thumbnail-Rendering fehlgeschlagen: " +:+ exc_str e) ;;
                  mret None
              end : Py (option path)) E l w0 = (l, w', Return tp)
      ∧ fs w' = fs w ∧ tp = None).
  { intros [[] msg] w0 Hw0; cbn; eexists _, _; split; try reflexivity; done. }
  unfold _render_page_thumbnail, try_except. run_step.
  unfold ask at 1. destruct (fitz_installed E) eqn:Hfitz.
  2: { cbn. eexists _, _. split; [reflexivity|]. split; [intros p; by left|by left]. }
  run_step. unfold mret at 1, Py_ret at 1. run_step.
  destruct (fitz_open_pure fp E l w) as (r & -> & Hopen).
  destruct r as [doc|e].
  2: { destruct (Hfail e w eq_refl) as (w' & tp & -> & Hfs & ->).
       eexists _, _. split; [reflexivity|]. split; [intros p; left; by rewrite Hfs|by left]. }
  destruct (Hopen doc eq_refl) as (d & Hfp & Hd).
  destruct doc as [|pg ps].
  { cbn. eexists _, _. split; [reflexivity|]. split; [intros p; by left|by left]. }
  change (length (pg :: ps) =? 0)%nat with false. cbv iota.
  run_step. change (fitz_page (pg :: ps) 0 E l w) with (l, w, Return pg).
  run_step. unfold page_get_pixmap at 1. run_step. unfold ask at 1.
  destruct (get_pixmap E pg) as [size|] eqn:Hpix.
  2: { cbn. eexists _, _. split; [reflexivity|]. split; [intros p; by left|by left]. }
  unfold mret at 1, Py_ret at 1. run_step.
  unfold NamedTemporaryFile at 1. run_step. unfold ask at 1.
  run_step. unfold get_fs at 1.
  destruct (exists_ (fs w) (tmp_name E)) eqn:Hex.
  { cbn. eexists _, _. split; [reflexivity|]. split; [intros p; by left|by left]. }
  destruct (is_dir (fs w) (parent (tmp_name E))).
  2: { cbn. eexists _, _. split; [reflexivity|]. split; [intros p; by left|by left]. }
  run_step. unfold ask at 1. destruct (write_denied E (tmp_name E)).
  { cbn. eexists _, _. split; [reflexivity|]. split; [intros p; by left|by left]. }
  run_step. unfold put_fs at 1. unfold mret at 1, Py_ret at 1.
  run_step. unfold pix_save at 1. run_step. unfold ask at 1.
  destruct (pix_save_fails E) eqn:Hsave.
  - cbn. eexists _, _. split; [reflexivity|]. split; [|by left]. cbn.
    intros p. destruct (decide (p = tmp_name E)) as [->|Hne].
    + right. split; [done|]. split; [done|]. eexists. apply lookup_insert_eq.
    + left. by apply lookup_insert_ne.
  - cbn. eexists _, _. split; [reflexivity|]. cbn. split.
    + intros p. destruct (decide (p = tmp_name E)) as [->|Hne].
      * right. split; [done|]. split; [done|]. eexists. apply lookup_insert_eq.
      * left. by rewrite !lookup_insert_ne.
    + right. split; [done|]. split; [eexists _, _; apply lookup_insert_eq|].
      split; [done|]. split; [done|]. by exists d, pg, ps, size.
Qed.

(** The thumbnail step of [create_coversheet]: it raises only when looking
    at the order's file is not permitted, and then nothing has happened. *)
Lemma render_thumbnail_run (order : Order) (E : env) (l : locals) (w : world) :
  thumbnail_path l = None →
  ∃ l' w' r, render_thumbnail order E l w = (l', w', r)
    ∧ (∀ p, fs w' !! p = fs w !! p
            ∨ (p = tmp_name E ∧ exists_ (fs w) p = false
               ∧ ∃ data, fs w' !! p = Some (File data)))
    ∧ (thumbnail_path l' = None
       ∨ (thumbnail_path l' = Some (tmp_name E)
          ∧ (∃ wd ht, fs w' !! tmp_name E = Some (File (Png wd ht)))
          ∧ fitz_installed E = true ∧ pix_save_fails E = false
          ∧ ∃ fp d pg ps size, filepath order = Some fp
              ∧ fs w !! fp = Some (File (Pdf d))
              ∧ page_tree d = Some (pg :: ps) ∧ get_pixmap E pg = Some size))
    ∧ match r with
      | Return _ => ∀ fp, filepath order = Some fp → stat_denied E fp = false
      | Raise e =>
          l' = l ∧ w' = w
          ∧ ∃ fp, filepath order = Some fp ∧ stat_denied E fp = true
              ∧ e = Exc PermissionError (str_of_path fp)
      end.
Proof.
  intros Hl. unfold render_thumbnail.
  destruct (filepath order) as [fp|] eqn:Hfp.
  2: { exists l, w, (Return tt). split; [reflexivity|]. split; [intros p; by left|].
       split; [by left|done]. }
  bind_step. unfold path_exists at 1. bind_step. unfold ask at 1. cbv beta iota.
  destruct (stat_denied E fp) eqn:Hstat.
  { exists l, w, (Raise (Exc PermissionError (str_of_path fp))). split; [reflexivity|].
    split; [intros p; by left|]. split; [by left|]. split; [done|]. split; [done|].
    by exists fp. }
  bind_step. unfold get_fs at 1. cbv beta iota. unfold mret at 1, Py_ret at 1. cbv beta iota.
  destruct (exists_ (fs w) fp).
  2: { exists l, w, (Return tt). split; [reflexivity|]. split; [intros p; by left|].
       split; [by left|]. by intros ? [= <-]. }
  bind_step. unfold call at 1.
  destruct (_render_page_thumbnail_run fp E no_locals w) as (w' & tp & -> & Hfs & Htp).
  cbn. eexists _, _, _. split; [reflexivity|]. split; [exact Hfs|]. cbn.
  split; [|by intros ? [= <-]].
  destruct Htp as [->|(-> & Hpng & Hfitz & Hsave & d & pg & ps & size & ?)]; [by left|].
  right. split; [done|]. split; [done|]. split; [done|]. split; [done|].
  by exists fp, d, pg, ps, size.
Qed.

Lemma ImageReader_getSize_pure (p : path) (E : env) (l : locals) (w : world) :
  ∃ r, ImageReader_getSize p E l w = (l, w, r)
    ∧ (∀ size, r = Return size → image_reader_fails E = false).
Proof.
  unfold ImageReader_getSize. bind_step.
  destruct (read_file_pure p E l w) as (r & -> & _).
  destruct r as [data|e]; [|eexists; split; [reflexivity|discriminate]].
  cbv beta iota. bind_step. unfold ask at 1. cbv beta iota.
  destruct data; try (eexists; split; [reflexivity|discriminate]).
  destruct (image_reader_fails E); eexists; (split; [reflexivity|]); done.
Qed.

(** The thumbnail block never raises and touches no file; what it draws is
    not red, and it draws an image only when reading and embedding it
    worked. *)
Lemma draw_thumbnail_run (E : env) (l : locals) (w : world) :
  ∃ l' w', draw_thumbnail E l w = (l', w', Return tt)
    ∧ fs w' = fs w ∧ thumbnail_path l' = thumbnail_path l
    ∧ ∃ added, c l' = c l ++ added
        ∧ Forall (λ o, is_red o = false) added
        ∧ (Forall (λ o, is_image o = false) added
           ∨ (image_reader_fails E = false ∧ draw_image_fails E = false
              ∧ thumbnail_path l ≠ None)).
Proof.
  unfold draw_thumbnail. bind_step. unfold get_local at 1. cbv beta iota.
  destruct (thumbnail_path l) as [t|] eqn:Ht.
  2: { exists l, w. split; [reflexivity|]. split; [done|]. split; [done|].
       exists []. rewrite app_nil_r. split; [done|]. split; [constructor|left; constructor]. }
  unfold try_except, embed_thumbnail. bind_step.
  destruct (ImageReader_getSize_pure t E l w) as (r & Hrun & Hr). rewrite Hrun.
  destruct r as [[img_w img_h]|e]; cbv beta iota.
  2: { cbn. eexists _, _. split; [reflexivity|]. cbn. split; [done|]. split; [done|].
       exists []. rewrite app_nil_r. split; [done|]. split; [constructor|left; constructor]. }
  specialize (Hr _ eq_refl).
  bind_step. unfold get_local at 1. cbv beta iota. bind_step. unfold truediv at 1.
  destruct (img_w =? 0)%Z.
  { cbn. eexists _, _. split; [reflexivity|]. cbn. split; [done|]. split; [done|].
    exists []. rewrite app_nil_r. split; [done|]. split; [constructor|left; constructor]. }
  unfold mret at 1, Py_ret at 1. cbv beta iota. bind_step. unfold truediv at 1.
  destruct (img_h =? 0)%Z.
  { cbn. eexists _, _. split; [reflexivity|]. cbn. split; [done|]. split; [done|].
    exists []. rewrite app_nil_r. split; [done|]. split; [constructor|left; constructor]. }
  unfold mret at 1, Py_ret at 1. cbv beta iota zeta.
  do 7 (bind_step; unfold draw at 1, put_local at 1; cbv beta iota).
  unfold c_drawImage. bind_step.
  match goal with
  | |- context [ImageReader_getSize t E ?l0 w] =>
      destruct (ImageReader_getSize_pure t E l0 w) as (r' & Hrun' & _)
  end.
  rewrite Hrun'. cbv beta iota.
  destruct r' as [size'|e'].
  2: { cbn. eexists _, _. split; [reflexivity|]. cbn. split; [done|]. split; [done|].
       eexists. rewrite <- !app_assoc. split; [reflexivity|].
       split; [repeat constructor|left; repeat constructor]. }
  bind_step. unfold ask at 1. cbv beta iota.
  destruct (draw_image_fails E) eqn:Hdraw.
  - cbn. eexists _, _. split; [reflexivity|]. cbn. split; [done|]. split; [done|].
    eexists. rewrite <- !app_assoc. split; [reflexivity|].
    split; [repeat constructor|left; repeat constructor].
  - cbn. eexists _, _. split; [reflexivity|]. cbn. split; [done|]. split; [done|].
    eexists. rewrite <- !app_assoc. split; [reflexivity|].
    split; [repeat constructor|right; repeat split; done].
Qed.

(** ** Saving the canvas and cleaning up *)

Lemma c_save_run (out : path) (E : env) (l : locals) (w : world) :
  ∃ w' r, c_save out A4 E l w = (l, w', r)
    ∧ (∀ p, p ≠ out → fs w' !! p = fs w !! p)
    ∧ (∀ p data, fs w !! p = Some (File data) → ∃ data', fs w' !! p = Some (File data'))
    ∧ (r = Return tt → cover_sheet_at (fs w') out (c l))
    ∧ (out ≠ [] → fs w !! out ≠ Some Dir → is_dir (fs w) (parent out) = true →
       write_denied E out = false → disk_quota E ≠ Some 0%nat → r = Return tt).
Proof.
  unfold c_save, cover_sheet_at. bind_step. unfold get_local at 1. cbv beta iota.
  bind_step.
  destruct (decide (out = [])) as [->|Hroot].
  { cbn. eexists _, _. split; [reflexivity|]. repeat split; eauto; done. }
  rewrite (open_wb_below out Hroot). bind_step. unfold get_fs at 1. cbv beta iota.
  assert (Hstay : ∀ (m : gmap path node) p data (x : content),
            m !! p = Some (File data) → ∃ data', <[out := File x]> m !! p = Some (File data')).
  { intros m p data x Hp. destruct (decide (p = out)) as [->|Hne].
    - eexists. apply lookup_insert_eq.
    - exists data. by rewrite lookup_insert_ne. }
  destruct (fs w !! out) as [[|data]|] eqn:Hout.
  { cbn. eexists _, _. split; [reflexivity|]. repeat split; eauto; done. }
  all: destruct (is_dir (fs w) (parent out)) eqn:Hdir;
    [|cbn; eexists _, _; split; [reflexivity|]; repeat split; eauto; done].
  all: bind_step; unfold ask at 1; cbv beta iota;
    destruct (write_denied E out) eqn:Hden;
    [cbn; eexists _, _; split; [reflexivity|]; repeat split; eauto; done|].
  all: unfold put_fs at 1; cbv beta iota; unfold write_pages; bind_step;
    unfold get_fs at 1; cbv beta iota; bind_step; unfold ask at 1; cbv beta iota.
  all: destruct (disk_quota E) as [[|n]|] eqn:Hq; cbn.
  all: eexists _, _; (split; [reflexivity|]); cbn.
  all: repeat split; try done.
  all: try (intros p Hp; by rewrite !lookup_insert_ne).
  all: try (intros p data' Hp; eapply Hstay; eapply Hstay; eauto).
  all: try (intros; apply lookup_insert_eq).
  all: try (intros p data' Hp;
            destruct (Hstay (fs w) p data' (Bytes "") Hp) as [x Hx]; eapply Hstay; eauto).
Qed.

Lemma cleanup_thumbnail_run (E : env) (l : locals) (w : world) :
  ∃ w', cleanup_thumbnail E l w = (l, w', Return tt)
    ∧ (∀ p, thumbnail_path l ≠ Some p → fs w' !! p = fs w !! p)
    ∧ (∀ t data, thumbnail_path l = Some t → unlink_denied E t = false →
         fs w !! t = Some (File data) → fs w' !! t = None).
Proof.
  unfold cleanup_thumbnail. bind_step. unfold get_local at 1. cbv beta iota.
  destruct (thumbnail_path l) as [t|].
  2: { exists w. split; [reflexivity|]. split; [done|]. intros; discriminate. }
  unfold try_except, unlink. bind_step. unfold get_fs at 1. cbv beta iota.
  destruct (fs w !! t) as [[|data]|] eqn:Ht.
  - cbn. exists w. split; [reflexivity|]. split; [done|]. intros ? ? [= <-] _ ?. congruence.
  - bind_step. unfold ask at 1. cbv beta iota. destruct (unlink_denied E t) eqn:Hden.
    + cbn. exists w. split; [reflexivity|]. split; [done|]. intros ? ? [= <-]. congruence.
    + cbn. eexists. split; [reflexivity|]. cbn. split.
      * intros p Hp. apply lookup_delete_ne. congruence.
      * intros ? ? [= <-] _ _. apply lookup_delete_eq.
  - cbn. exists w. split; [reflexivity|]. split; [done|]. intros ? ? [= <-] _ ?. congruence.
Qed.

(** ** Where [y] stands *)

Lemma keeps_y_ret {A} (a : A) : keeps_y (mret a : Py A).
Proof. by intros E l w. Qed.

Lemma keeps_y_raise {A} (e : exc) : keeps_y (raise e : Py A).
Proof. by intros E l w. Qed.

Lemma keeps_y_ask {A} (f : env → A) : keeps_y (ask f).
Proof. by intros E l w. Qed.

Lemma keeps_y_get_local {A} (f : locals → A) : keeps_y (get_local f).
Proof. by intros E l w. Qed.

Lemma keeps_y_get_fs : keeps_y get_fs.
Proof. by intros E l w. Qed.

Lemma keeps_y_logger (lvl : log_level) (msg : string) : keeps_y (logger lvl msg).
Proof. by intros E l w. Qed.

Lemma keeps_y_draw (o : canvas_op) : keeps_y (draw o).
Proof. by intros E l w. Qed.

Lemma keeps_y_bind {A B} (m : Py A) (k : A → Py B) :
  keeps_y m → (∀ a, keeps_y (k a)) → keeps_y (m ≫= k).
Proof.
  intros Hm Hk E l w. rewrite bind_run. specialize (Hm E l w).
  destruct (m E l w) as [[l1 w1] [a|e]]; [|exact Hm].
  rewrite <- Hm. apply Hk.
Qed.

Lemma keeps_y_try_except {A} (body : Py A) (handler : exc → Py A) :
  keeps_y body → (∀ e, keeps_y (handler e)) → keeps_y (try_except body handler).
Proof.
  intros Hm Hk E l w. unfold try_except. specialize (Hm E l w).
  destruct (body E l w) as [[l1 w1] [a|e]]; [exact Hm|].
  rewrite <- Hm. apply Hk.
Qed.

(** One statement after the other. *)
Ltac keep_step :=
  cbv beta zeta;
  lazymatch goal with
  | |- keeps_y (mret _) => apply keeps_y_ret
  | |- keeps_y (raise _) => apply keeps_y_raise
  | |- keeps_y (ask _) => apply keeps_y_ask
  | |- keeps_y (get_local _) => apply keeps_y_get_local
  | |- keeps_y get_fs => apply keeps_y_get_fs
  | |- keeps_y (logger _ _) => apply keeps_y_logger
  | |- keeps_y (draw _) => apply keeps_y_draw
  | |- keeps_y (try_except _ _) => apply keeps_y_try_except; [|intros ?]
  | |- keeps_y (_ ≫= _) => apply keeps_y_bind; [|intros ?]
  | |- keeps_y (match ?x with _ => _ end) => destruct x
  end.

Ltac keep := repeat keep_step.

Lemma read_file_keeps_y (p : path) : keeps_y (read_file p).
Proof. unfold read_file. keep. Qed.

Lemma ImageReader_getSize_keeps_y (p : path) : keeps_y (ImageReader_getSize p).
Proof. unfold ImageReader_getSize. keep. apply read_file_keeps_y. Qed.

(** The thumbnail block leaves [y] where the price block put it. *)
Lemma draw_thumbnail_keeps_y : keeps_y draw_thumbnail.
Proof.
  unfold draw_thumbnail, embed_thumbnail, c_drawImage, truediv.
  keep; apply ImageReader_getSize_keeps_y.
Qed.

Lemma moves_y_ret : moves_y 0 (mret tt).
Proof. intros E l w. exists l, w. split; [reflexivity|]. lra. Qed.

Lemma moves_y_draw (o : canvas_op) : moves_y 0 (draw o).
Proof. intros E l w. eexists _, w. split; [reflexivity|]. cbn. lra. Qed.

Lemma moves_y_sub_y (d : Q) : moves_y d (sub_y d).
Proof. intros E l w. eexists _, w. split; [reflexivity|]. cbn. lra. Qed.

Lemma moves_y_get {A} (d : Q) (f : locals → A) (k : A → Py unit) :
  (∀ v, moves_y d (k v)) → moves_y d (get_local f ≫= k).
Proof. intros Hk E l w. exact (Hk (f l) E l w). Qed.

Lemma moves_y_bind (d1 d2 : Q) (m : Py unit) (k : unit → Py unit) :
  moves_y d1 m → moves_y d2 (k tt) → moves_y (d1 + d2) (m ≫= k).
Proof.
  intros Hm Hk E l w. rewrite bind_run.
  destruct (Hm E l w) as (l1 & w1 & -> & Hy1).
  destruct (Hk E l1 w1) as (l2 & w2 & -> & Hy2).
  exists l2, w2. split; [reflexivity|]. lra.
Qed.

Lemma moves_y_eq (d d' : Q) (m : Py unit) : moves_y d m → (d == d')%Q → moves_y d' m.
Proof.
  intros Hm Hd E l w. destruct (Hm E l w) as (l1 & w1 & -> & Hy1).
  exists l1, w1. split; [reflexivity|]. lra.
Qed.

(** One statement of a block after the other; the heights add up. *)
Ltac move_step :=
  cbv beta;
  lazymatch goal with
  | |- moves_y _ (mret _) => apply moves_y_ret
  | |- moves_y _ (sub_y _) => apply moves_y_sub_y
  | |- moves_y _ (draw _) => apply moves_y_draw
  | |- moves_y _ (get_local _ ≫= _) => apply moves_y_get; intros ?
  | |- moves_y _ (_ ≫= _) => eapply moves_y_bind
  end.

Ltac move_by := eapply moves_y_eq; [repeat move_step|unfold Qeq; vm_compute; reflexivity].

Lemma draw_field_moves_y (label value : string) (bold_value : bool) :
  moves_y 20 (draw_field label value bold_value).
Proof. unfold draw_field. move_by. Qed.

Lemma draw_order_info_moves_y (order : Order) :
  moves_y (info_height order) (draw_order_info order).
Proof.
  unfold draw_order_info, info_height. destruct (truthy_int (page_count order)).
  all: eapply moves_y_eq;
    [repeat move_step; apply draw_field_moves_y|unfold Qeq; vm_compute; reflexivity].
Qed.

Lemma draw_price_moves_y (order : Order) :
  moves_y (price_height order) (draw_price order).
Proof.
  unfold draw_price, price_height. destruct (price_calculation order) as [calc|]; cbv zeta.
  all: eapply moves_y_eq;
    [repeat move_step; apply draw_field_moves_y|unfold Qeq; vm_compute; reflexivity].
Qed.

(** The name block ends 136 points below the top edge, with or without an
    identity. *)
Lemma draw_name_y (order : Order) (E : env) (l : locals) (w : world) :
  ∃ l', draw_name order E l w = (l', w, Return tt) ∧ (y l' == height - 136)%Q.
Proof.
  unfold draw_name. rewrite bind_run. unfold set_y at 1, put_local at 1. cbv beta iota.
  match goal with
  | |- context [?m E ?l0 w] =>
      assert (Hrest : moves_y 61 m);
      [|destruct (Hrest E l0 w) as (l' & w' & Hrun & Hy)]
  end.
  - destruct (user order) as [u|]; move_by.
  - destruct (draw_name_paints order E l w) as (l1 & Hrun1 & _).
    unfold draw_name in Hrun1. rewrite bind_run in Hrun1.
    unfold set_y at 1, put_local at 1 in Hrun1. cbv beta iota in Hrun1.
    rewrite Hrun in Hrun1. injection Hrun1 as -> ->.
    rewrite Hrun. exists l1. split; [reflexivity|]. cbn in Hy. lra.
Qed.

Lemma draw_header_run (E : env) (l : locals) (w : world) :
  ∃ l', draw_header E l w = (l', w, Return tt)
    ∧ thumbnail_path l' = thumbnail_path l ∧ c l' = c l ++ header_ops.
Proof.
  unfold draw_header. repeat (rewrite bind_run; unfold draw at 1, put_local at 1; cbv beta iota).
  eexists. split; [reflexivity|]. cbn [c thumbnail_path]. split; [done|].
  by rewrite <- !app_assoc.
Qed.

Lemma draw_footer_run (order : Order) (E : env) (l : locals) (w : world) :
  ∃ l', draw_footer order E l w = (l', w, Return tt)
    ∧ thumbnail_path l' = thumbnail_path l ∧ c l' = c l ++ footer_ops order.
Proof.
  unfold draw_footer. repeat (rewrite bind_run; unfold draw at 1, put_local at 1; cbv beta iota).
  eexists. split; [reflexivity|]. cbn [c thumbnail_path]. split; [done|].
  by rewrite <- !app_assoc.
Qed.

(** ** PdfService.create_coversheet *)

(** The course of a call: it never raises.  When the directory cannot be
    made it fails at once, and so it does when looking at the order's file is
    refused.  Otherwise the renderer runs ([w1] to [w2]), the sheet is drawn,
    the canvas is saved ([w2] to [w3]) and the temporary file is cleaned up
    ([w3] to the final world). *)
Lemma create_coversheet_run (E : env) (w : world) (order : Order) (out : path) :
  ∃ w1 r1, mkdir_parents (parent out) E no_locals w = (no_locals, w1, r1)
  ∧ ∃ l' w' b, create_coversheet order out E no_locals w = (l', w', Return b)
    ∧ match r1 with
      | Raise _ => b = false ∧ thumbnail_path l' = None ∧ fs w' = fs w1
      | Return _ =>
          (b = false ∧ thumbnail_path l' = None ∧ fs w' = fs w1
           ∧ ∃ fp, filepath order = Some fp ∧ stat_denied E fp = true)
          ∨ (∀ fp, filepath order = Some fp → stat_denied E fp = false)
          ∧ ∃ w2 w3,
            (∀ p, fs w2 !! p = fs w1 !! p
                  ∨ (p = tmp_name E ∧ exists_ (fs w1) p = false
                     ∧ ∃ data, fs w2 !! p = Some (File data)))
            ∧ (thumbnail_path l' = None
               ∨ (thumbnail_path l' = Some (tmp_name E)
                  ∧ (∃ wd ht, fs w2 !! tmp_name E = Some (File (Png wd ht)))
                  ∧ fitz_installed E = true ∧ pix_save_fails E = false
                  ∧ ∃ fp d pg ps size, filepath order = Some fp
                      ∧ fs w1 !! fp = Some (File (Pdf d))
                      ∧ page_tree d = Some (pg :: ps) ∧ get_pixmap E pg = Some size))
            ∧ shows_name (c l') (name_text order)
            ∧ (has_banner (c l') ↔ status order = ERROR_INVALID_FILENAME)
            ∧ (Forall (λ o, is_image o = false) (c l')
               ∨ (image_reader_fails E = false ∧ draw_image_fails E = false
                  ∧ thumbnail_path l' ≠ None))
            ∧ (∀ p, p ≠ out → fs w3 !! p = fs w2 !! p)
            ∧ (∀ p data, fs w2 !! p = Some (File data) →
                 ∃ data', fs w3 !! p = Some (File data'))
            ∧ (b = true → cover_sheet_at (fs w3) out (c l'))
            ∧ (out ≠ [] → fs w2 !! out ≠ Some Dir → is_dir (fs w2) (parent out) = true →
               write_denied E out = false → disk_quota E ≠ Some 0%nat → b = true)
            ∧ (∀ p, thumbnail_path l' ≠ Some p → fs w' !! p = fs w3 !! p)
            ∧ (∀ t data, thumbnail_path l' = Some t → unlink_denied E t = false →
                 fs w3 !! t = Some (File data) → fs w' !! t = None)
      end.
Proof.
  destruct (mkdir_parents_fs out E no_locals w) as (w1 & r1 & Hmk & _ & _ & _ & _).
  exists w1, r1. split; [exact Hmk|].
  unfold create_coversheet. bind_step.
  change (set_thumbnail_path None E no_locals w) with (no_locals, w, Return tt).
  cbv beta iota. unfold try_finally, try_except. bind_step. rewrite Hmk. cbv beta iota.
  destruct r1 as [[]|e1].
  2: { cbn. eexists _, _, _. split; [reflexivity|]. done. }
  bind_step.
  destruct (render_thumbnail_run order E no_locals w1 eq_refl)
    as (l2 & w2 & r2 & -> & Hfs2 & Htp2 & Hr2).
  cbv beta iota.
  destruct r2 as [[]|e2].
  2: { destruct Hr2 as (-> & -> & fp & Hfp & Hstat & _). cbn.
       eexists _, _, _. split; [reflexivity|]. left. cbn.
       split; [done|]. split; [done|]. split; [done|]. by exists fp. }
  bind_step. unfold Canvas at 1, put_local at 1. cbv beta iota.
  bind_step.
  match goal with
  | |- context [draw_header E ?l0 w2] =>
      destruct (draw_header_paints E l0 w2)
        as (l3 & w3 & -> & Hfs3 & Htp3 & a3 & Hc3 & HP3)
  end.
  cbn in Htp3, Hc3. cbv beta iota. bind_step.
  destruct (draw_name_paints order E l3 w3) as (l4 & -> & Htp4 & a4 & Hc4 & HP4).
  cbv beta iota. bind_step. unfold get_local at 1. cbv beta iota.
  bind_step. unfold set_info_top_y at 1, put_local at 1. cbv beta iota.
  bind_step.
  match goal with
  | |- context [draw_order_info order E ?l0 w3] =>
      destruct (draw_order_info_paints order E l0 w3)
        as (l5 & w5 & -> & Hfs5 & Htp5 & a5 & Hc5 & HP5)
  end.
  cbn in Htp5, Hc5. cbv beta iota. bind_step.
  destruct (draw_price_paints order E l5 w5)
    as (l6 & w6 & -> & Hfs6 & Htp6 & a6 & Hc6 & HP6).
  cbv beta iota. bind_step.
  destruct (draw_thumbnail_run E l6 w6)
    as (l7 & w7 & -> & Hfs7 & Htp7 & a7 & Hc7 & HP7 & Himg7).
  cbv beta iota. bind_step.
  destruct (draw_filename_warning_run order E l7 w7) as (l8 & -> & Htp8 & Hc8).
  cbv beta iota. bind_step.
  destruct (draw_footer_paints order E l8 w7)
    as (l9 & w9 & -> & Hfs9 & Htp9 & a9 & Hc9 & HP9).
  cbv beta iota. bind_step.
  destruct (c_save_run out E l9 w9) as (w10 & r10 & -> & Hfs10 & Hstay10 & Hsheet10 & Hok10).
  cbv beta iota.
  assert (Hfs92 : fs w9 = fs w2) by congruence.
  assert (Htp92 : thumbnail_path l9 = thumbnail_path l2) by congruence.
  rewrite Hfs92 in Hfs10, Hstay10, Hok10.
  assert (Hred : ∀ ops, Forall plain ops → Forall (λ o, is_red o = false) ops).
  { intros ops H. eapply Forall_impl; [exact H|]. by intros o [_ ?]. }
  assert (Hnoimg : ∀ ops, Forall plain ops → Forall (λ o, is_image o = false) ops).
  { intros ops H. eapply Forall_impl; [exact H|]. by intros o [? _]. }
  assert (Hc7' : c l7 = a3 ++ [setFont "Helvetica-Bold" 24;
                              drawString margin (height - 75) (name_text order)]
                        ++ a4 ++ a5 ++ a6 ++ a7).
  { rewrite Hc7, Hc6, Hc5, Hc4, Hc3. by rewrite <- !app_assoc. }
  assert (Hname : shows_name (c l9) (name_text order)).
  { exists a3. destruct Hc8 as [[_ Hc8]|[_ Hc8]]; rewrite Hc9, Hc8, Hc7'.
    - eexists. rewrite <- !app_assoc. reflexivity.
    - eexists. rewrite <- !app_assoc. reflexivity. }
  assert (Hban : has_banner (c l9) ↔ status order = ERROR_INVALID_FILENAME).
  { split.
    - intros Hb. destruct Hc8 as [[? _]|[_ Hc8]]; [done|].
      exfalso. apply (banner_is_red _ Hb). rewrite Hc9, Hc8, Hc7'.
      repeat (apply Forall_app; split); auto; repeat constructor.
    - intros Hs. destruct Hc8 as [[_ Hc8]|[? _]]; [|done].
      exists (c l7), a9, (y l7 - 10)%Q. rewrite Hc9, Hc8. by rewrite <- app_assoc. }
  assert (Himg : Forall (λ o, is_image o = false) (c l9)
                 ∨ (image_reader_fails E = false ∧ draw_image_fails E = false
                    ∧ thumbnail_path l9 ≠ None)).
  { destruct Himg7 as [Hno|(? & ? & ?)].
    - left. destruct Hc8 as [[_ Hc8]|[_ Hc8]]; rewrite Hc9, Hc8, Hc7';
        repeat (apply Forall_app; split); auto; repeat constructor.
    - right. repeat split; try done. congruence. }
  assert (Htp : thumbnail_path l9 = None
            ∨ (thumbnail_path l9 = Some (tmp_name E)
               ∧ (∃ wd ht, fs w2 !! tmp_name E = Some (File (Png wd ht)))
               ∧ fitz_installed E = true ∧ pix_save_fails E = false
               ∧ ∃ fp d pg ps size, filepath order = Some fp
                   ∧ fs w1 !! fp = Some (File (Pdf d))
                   ∧ page_tree d = Some (pg :: ps) ∧ get_pixmap E pg = Some size)).
  { rewrite Htp92. exact Htp2. }
  destruct r10 as [[]|e10].
  - bind_step. unfold logger at 1. cbv beta iota. unfold mret at 1, Py_ret at 1.
    cbv beta iota.
    match goal with
    | |- context [cleanup_thumbnail E l9 ?w0] =>
        destruct (cleanup_thumbnail_run E l9 w0) as (w11 & -> & Hfs11 & Hdel11)
    end.
    cbn in Hfs11, Hdel11. cbv beta iota.
    exists l9, w11, true. split; [reflexivity|]. right. split; [exact Hr2|].
    exists w2, w10. repeat split; try done. all: tauto.
  - bind_step. unfold logger at 1. cbv beta iota. unfold mret at 1, Py_ret at 1.
    cbv beta iota.
    match goal with
    | |- context [cleanup_thumbnail E l9 ?w0] =>
        destruct (cleanup_thumbnail_run E l9 w0) as (w11 & -> & Hfs11 & Hdel11)
    end.
    cbn in Hfs11, Hdel11. cbv beta iota.
    exists l9, w11, false. split; [reflexivity|]. right. split; [exact Hr2|].
    exists w2, w10. repeat split; try done. all: try tauto.
    intros. exfalso.
    by discriminate (Hok10 ltac:(done) ltac:(done) ltac:(done) ltac:(done) ltac:(done)).
Qed.

(** What a successful call has drawn: the header line, the name, the order
    data, the price and the preview, none of it in red; then the warning,
    its first line at the height [banner_y], for the status of an invalid
    file name and nothing for any other status; then the footer. *)
Lemma create_coversheet_canvas (E : env) (w : world) (order : Order) (out : path) :
  ∃ l' w' b, create_coversheet order out E no_locals w = (l', w', Return b)
    ∧ (b = true →
       ∃ mid y0, (y0 == banner_y order)%Q
         ∧ Forall (λ o, is_red o = false) mid
         ∧ ((status order = ERROR_INVALID_FILENAME
             ∧ c l' = header_ops
                        ++ [setFont "Helvetica-Bold" 24;
                            drawString margin (height - 75) (name_text order)]
                        ++ mid ++ banner y0 ++ footer_ops order)
            ∨ (status order ≠ ERROR_INVALID_FILENAME
               ∧ c l' = header_ops
                          ++ [setFont "Helvetica-Bold" 24;
                              drawString margin (height - 75) (name_text order)]
                          ++ mid ++ footer_ops order))).
Proof.
  destruct (mkdir_parents_fs out E no_locals w) as (w1 & r1 & Hmk & _).
  unfold create_coversheet. bind_step.
  change (set_thumbnail_path None E no_locals w) with (no_locals, w, Return tt).
  cbv beta iota. unfold try_finally, try_except. bind_step. rewrite Hmk. cbv beta iota.
  destruct r1 as [[]|e1].
  2: { cbn. eexists _, _, _. split; [reflexivity|]. done. }
  bind_step.
  destruct (render_thumbnail_run order E no_locals w1 eq_refl)
    as (l2 & w2 & r2 & -> & _ & _ & Hr2).
  cbv beta iota.
  destruct r2 as [[]|e2].
  2: { destruct Hr2 as (-> & -> & _). cbn. eexists _, _, _. split; [reflexivity|]. done. }
  bind_step. unfold Canvas at 1, put_local at 1. cbv beta iota. bind_step.
  match goal with
  | |- context [draw_header E ?l0 w2] =>
      destruct (draw_header_run E l0 w2) as (l3 & -> & _ & Hc3)
  end.
  cbn in Hc3. cbv beta iota. bind_step.
  destruct (draw_name_paints order E l3 w2) as (l4 & Hrun4 & _ & a4 & Hc4 & HP4).
  destruct (draw_name_y order E l3 w2) as (l4' & Hrun4' & Hy4).
  rewrite Hrun4 in Hrun4'. injection Hrun4' as <-. rewrite Hrun4.
  cbv beta iota. bind_step. unfold get_local at 1. cbv beta iota.
  bind_step. unfold set_info_top_y at 1, put_local at 1. cbv beta iota.
  bind_step.
  match goal with
  | |- context [draw_order_info order E ?l0 w2] =>
      destruct (draw_order_info_paints order E l0 w2)
        as (l5 & w5 & Hrun5 & _ & _ & a5 & Hc5 & HP5);
      destruct (draw_order_info_moves_y order E l0 w2) as (l5' & w5' & Hrun5' & Hy5)
  end.
  rewrite Hrun5 in Hrun5'. injection Hrun5' as <- <-. rewrite Hrun5.
  cbn in Hc5, Hy5. cbv beta iota. bind_step.
  destruct (draw_price_paints order E l5 w5) as (l6 & w6 & Hrun6 & _ & _ & a6 & Hc6 & HP6).
  destruct (draw_price_moves_y order E l5 w5) as (l6' & w6' & Hrun6' & Hy6).
  rewrite Hrun6 in Hrun6'. injection Hrun6' as <- <-. rewrite Hrun6.
  cbv beta iota. bind_step.
  destruct (draw_thumbnail_run E l6 w6) as (l7 & w7 & Hrun7 & _ & _ & a7 & Hc7 & HP7 & _).
  pose proof (draw_thumbnail_keeps_y E l6 w6) as Hy7. rewrite Hrun7 in Hy7. cbn in Hy7.
  rewrite Hrun7. cbv beta iota. bind_step.
  destruct (draw_filename_warning_run order E l7 w7) as (l8 & -> & _ & Hc8).
  cbv beta iota. bind_step.
  destruct (draw_footer_run order E l8 w7) as (l9 & -> & _ & Hc9).
  cbv beta iota. bind_step.
  destruct (c_save_run out E l9 w7) as (w10 & r10 & -> & _).
  cbv beta iota.
  assert (Hred : ∀ ops, Forall plain ops → Forall (λ o, is_red o = false) ops).
  { intros ops H. eapply Forall_impl; [exact H|]. by intros o [_ ?]. }
  assert (Hshape : ∃ mid y0, (y0 == banner_y order)%Q
            ∧ Forall (λ o, is_red o = false) mid
            ∧ ((status order = ERROR_INVALID_FILENAME
                ∧ c l9 = header_ops
                           ++ [setFont "Helvetica-Bold" 24;
                               drawString margin (height - 75) (name_text order)]
                           ++ mid ++ banner y0 ++ footer_ops order)
               ∨ (status order ≠ ERROR_INVALID_FILENAME
                  ∧ c l9 = header_ops
                             ++ [setFont "Helvetica-Bold" 24;
                                 drawString margin (height - 75) (name_text order)]
                             ++ mid ++ footer_ops order))).
  { exists (a4 ++ a5 ++ a6 ++ a7), (y l7 - 10)%Q. split.
    { unfold banner_y. rewrite Hy7, Hy6, Hy5, Hy4. reflexivity. }
    split; [repeat (apply Forall_app; split); auto|].
    destruct Hc8 as [[Hs Hc8]|[Hs Hc8]]; [left|right]; (split; [exact Hs|]);
      rewrite Hc9, Hc8, Hc7, Hc6, Hc5, Hc4, Hc3; by rewrite <- !app_assoc. }
  destruct r10 as [[]|e10].
  - bind_step. unfold logger at 1. cbv beta iota. unfold mret at 1, Py_ret at 1.
    cbv beta iota.
    match goal with
    | |- context [cleanup_thumbnail E l9 ?w0] =>
        destruct (cleanup_thumbnail_run E l9 w0) as (w11 & -> & _)
    end.
    cbv beta iota. by exists l9, w11, true.
  - bind_step. unfold logger at 1. cbv beta iota. unfold mret at 1, Py_ret at 1.
    cbv beta iota.
    match goal with
    | |- context [cleanup_thumbnail E l9 ?w0] =>
        destruct (cleanup_thumbnail_run E l9 w0) as (w11 & -> & _)
    end.
    cbv beta iota. by exists l9, w11, false.
Qed.

Lemma mkdir_keeps_files (w w1 : world) (p : path) (x : content) :
  (∀ q, fs w1 !! q = fs w !! q ∨ (fs w !! q = None ∧ fs w1 !! q = Some Dir)) →
  fs w1 !! p = Some (File x) → fs w !! p = Some (File x).
Proof. intros H Hp. destruct (H p) as [<-|[_ ?]]; congruence. Qed.

Lemma status_value_invalid (s : OrderStatus) :
  status_value s = "error_invalid_filename"%string ↔ s = ERROR_INVALID_FILENAME.
Proof. destruct s; split; intros H; try done; discriminate. Qed.

Lemma header_ops_plain : Forall plain header_ops.
Proof. repeat constructor. Qed.

Lemma footer_ops_plain (order : Order) : Forall plain (footer_ops order).
Proof. repeat constructor. Qed.

Lemma banner_no_image (y0 : Q) : Forall (λ o, is_image o = false) (banner y0).
Proof. repeat constructor. Qed.

(** The warning stays on the page: its first line is no higher than 214
    and no lower than 340 points below the top edge, so that its third line,
    40 points further down, is above the footer. *)
Lemma banner_y_on_page (order : Order) :
  (height - 340 <= banner_y order)%Q ∧ (banner_y order <= height - 214)%Q.
Proof.
  unfold banner_y, info_height, price_height.
  destruct (truthy_int (page_count order)), (price_calculation order); split; lra.
Qed.

(** The file a successful call leaves at the path, the temporary file not
    being there: the sheet of the order.  It holds the header line, the name,
    the order data with the price and the preview, none of it in red; then
    the warning, its first line at the height [banner_y], for the status of
    an invalid file name and nothing for any other status; then the footer.
    It holds an image only when nothing stood in the way of the thumbnail. *)
Lemma create_coversheet_sheet (E : env) (w w' : world) (order : Order) (out : path) :
  run (create_coversheet order out) E w = (w', Return true) →
  tmp_name E ≠ out →
  ∃ ops mid y0,
    cover_sheet_at (fs w') out ops
    ∧ (y0 == banner_y order)%Q
    ∧ Forall (λ o, is_red o = false) mid
    ∧ (Forall (λ o, is_image o = false) ops ∨ thumbnail_faultless E w order)
    ∧ ((status order = ERROR_INVALID_FILENAME
        ∧ ops = header_ops
                  ++ [setFont "Helvetica-Bold" 24;
                      drawString margin (height - 75) (name_text order)]
                  ++ mid ++ banner y0 ++ footer_ops order)
       ∨ (status order ≠ ERROR_INVALID_FILENAME
          ∧ ops = header_ops
                    ++ [setFont "Helvetica-Bold" 24;
                        drawString margin (height - 75) (name_text order)]
                    ++ mid ++ footer_ops order)).
Proof.
  unfold run. intros Hrun Htmp.
  destruct (create_coversheet_canvas E w order out) as (l' & w0 & b & Hrun' & Hshape).
  rewrite Hrun' in Hrun. injection Hrun as -> ->.
  destruct (Hshape eq_refl) as (mid & y0 & Hy0 & Hmid & Hops).
  destruct (mkdir_parents_fs out E no_locals w) as (w1 & r1 & Hrun1 & _ & _ & Hfs1 & _).
  destruct (create_coversheet_run E w order out)
    as (w1' & r1' & Hrun1' & l0 & w0 & b & Hrun & H).
  rewrite Hrun1 in Hrun1'. injection Hrun1' as <- <-.
  rewrite Hrun' in Hrun. injection Hrun as <- <- <-.
  destruct r1 as [[]|e1]; [|by destruct H].
  destruct H as [(? & _)|(_ & w2 & w3 & _ & Htp & _ & _ & Himg & _ & _ & Hsheet & _ & Hfs' & _)];
    [done|].
  exists (c l'), mid, y0. split.
  { unfold cover_sheet_at. rewrite Hfs' by (destruct Htp as [->|[-> _]]; congruence).
    by apply Hsheet. }
  split; [exact Hy0|]. split; [exact Hmid|]. split; [|exact Hops].
  destruct Himg as [?|(Hreader & Hdraw & Hsome)]; [by left|right].
  destruct Htp as [?|(_ & _ & Hfitz & Hsave & fp & d & pg & ps & size & Hfp & Hd & Hpt & Hpix)];
    [done|].
  repeat split; try done. exists fp, d, pg, ps, size. repeat split; try done.
  by apply (mkdir_keeps_files w w1).
Qed.







(** What C5 leaves aside: when writing the image fails after the temporary
    file was created, the renderer hands back no path, and the empty file
    stays behind although removing it would not be refused. *)
Lemma thumbnail_file_left_when_pix_save_fails :
  fs sample_world !! ["tmp"; "tmpk3x9.png"] = None
  ∧ (run (create_coversheet sample_order ["out"; "cover.pdf"])
         failing_pix_save_env sample_world).2 = Return true
  ∧ fs (run (create_coversheet sample_order ["out"; "cover.pdf"])
            failing_pix_save_env sample_world).1 !! ["tmp"; "tmpk3x9.png"]
    = Some (File (Bytes ""))
  ∧ unlink_denied failing_pix_save_env ["tmp"; "tmpk3x9.png"] = false.
Proof. repeat split; vm_compute; reflexivity. Qed.

(** C7: on the cover sheet a successful call leaves at the path (the
    temporary file not being there), an order whose status has the value
    "error_invalid_filename" has the warning banner: in red, that the file
    name is not correct, and the naming convention, right before the footer,
    its first line 10 points below the order data and the price, which keeps
    its three lines on the page.  For an order with any other status nothing
    on the sheet is red, and there is no banner. *)
Theorem create_coversheet_warning (E : env) (w w' : world) (order : Order) (out : path) :
  run (create_coversheet order out) E w = (w', Return true) →
  tmp_name E ≠ out →
  ∃ ops, cover_sheet_at (fs w') out ops
    ∧ (status_value (status order) = "error_invalid_filename"%string →
       warns ops order
       ∧ (height - 340 <= banner_y order)%Q ∧ (banner_y order <= height - 214)%Q)
    ∧ (status_value (status order) ≠ "error_invalid_filename"%string →
       Forall (λ o, is_red o = false) ops ∧ ¬ has_banner ops).
Proof.
  intros Hrun Htmp.
  destruct (create_coversheet_sheet E w w' order out Hrun Htmp)
    as (ops & mid & y0 & Hsheet & Hy0 & Hmid & _ & Hops).
  exists ops. split; [exact Hsheet|]. rewrite status_value_invalid. split.
  - intros Hs. destruct Hops as [[_ ->]|[? _]]; [|done].
    split; [|apply banner_y_on_page].
    exists (header_ops
              ++ [setFont "Helvetica-Bold" 24;
                  drawString margin (height - 75) (name_text order)] ++ mid), y0.
    split; [exact Hy0|]. by rewrite <- !app_assoc.
  - intros Hs. destruct Hops as [[? _]|[_ ->]]; [done|].
    assert (Hred : Forall (λ o, is_red o = false)
                     (header_ops
                        ++ [setFont "Helvetica-Bold" 24;
                            drawString margin (height - 75) (name_text order)]
                        ++ mid ++ footer_ops order)).
    { repeat (apply Forall_app; split); try done.
      - eapply Forall_impl; [apply header_ops_plain|]. by intros o [_ ?].
      - repeat constructor.
      - eapply Forall_impl; [apply footer_ops_plain|]. by intros o [_ ?]. }
    split; [exact Hred|]. intros Hb. by apply (banner_is_red _ Hb).
Qed.

Lemma create_coversheet_warning_witness :
  ∃ ops,
    cover_sheet_at
      (fs (run (create_coversheet misnamed_order ["out"; "cover.pdf"]) fair_env
             sample_world).1) ["out"; "cover.pdf"] ops
    ∧ (status_value (status misnamed_order) = "error_invalid_filename"%string →
       warns ops misnamed_order
       ∧ (height - 340 <= banner_y misnamed_order)%Q
       ∧ (banner_y misnamed_order <= height - 214)%Q)
    ∧ (status_value (status misnamed_order) ≠ "error_invalid_filename"%string →
       Forall (λ o, is_red o = false) ops ∧ ¬ has_banner ops).
Proof.
  apply (create_coversheet_warning fair_env sample_world _ misnamed_order
           ["out"; "cover.pdf"]).
  - vm_compute. reflexivity.
  - discriminate.
Defined.

(** C9, as the claim states it, fails: for an order whose identity has an
    empty full name the call succeeds, and the name drawn at the top of the
    cover sheet, the sixth operation on it, is the empty string, although the
    file name gave a name and a user name. *)
Lemma cover_sheet_name_empty :
  name_text nameless_order = ""%string
  ∧ (run (create_coversheet nameless_order ["out"; "cover.pdf"]) fair_env sample_world).2
    = Return true
  ∧ nth_error
      (sheet_ops (fs (run (create_coversheet nameless_order ["out"; "cover.pdf"])
                          fair_env sample_world).1) ["out"; "cover.pdf"]) 5
    = Some (drawString margin (height - 75) "").
Proof. repeat split; vm_compute; reflexivity. Qed.

(** C9, amended: the cover sheet a successful call leaves at the path (the
    temporary file not being there) shows, large at the top, right after the
    header line, the name chosen in this order: the full name of the identity
    if one is attached; otherwise the name parsed from the file name, if
    there is one and it is not empty; otherwise the parsed user name, if
    there is one and it is not empty; otherwise "Unbekannt".  The name is not
    empty when no identity is attached or the full name of the identity is
    not empty. *)
Theorem cover_sheet_name (E : env) (w w' : world) (order : Order) (out : path) :
  run (create_coversheet order out) E w = (w', Return true) →
  tmp_name E ≠ out →
  (∃ ops, cover_sheet_at (fs w') out ops ∧ name_on_top ops (name_text order))
  ∧ (∀ u, user order = Some u → name_text order = full_name u)
  ∧ (user order = None →
     ∀ n, parsed_name order = Some n → n ≠ ""%string → name_text order = n)
  ∧ (user order = None →
     parsed_name order = None ∨ parsed_name order = Some ""%string →
     ∀ n, parsed_username order = Some n → n ≠ ""%string → name_text order = n)
  ∧ (user order = None →
     parsed_name order = None ∨ parsed_name order = Some ""%string →
     parsed_username order = None ∨ parsed_username order = Some ""%string →
     name_text order = "Unbekannt"%string)
  ∧ ((∀ u, user order = Some u → full_name u ≠ ""%string) → name_text order ≠ ""%string).
Proof.
  intros Hrun Htmp. split.
  { destruct (create_coversheet_sheet E w w' order out Hrun Htmp)
      as (ops & mid & y0 & Hsheet & _ & _ & _ & Hops).
    exists ops. split; [exact Hsheet|].
    destruct Hops as [[_ ->]|[_ ->]]; eexists; reflexivity. }
  unfold name_text.
  destruct (user order) as [u|].
  - repeat split; try done.
    + by intros ? [= <-].
    + intros H. by apply H.
  - destruct (parsed_name order) as [[|a n]|], (parsed_username order) as [[|a' n']|];
      cbn; repeat split; try done; intros; simplify_eq; try done;
      repeat match goal with H : _ ∨ _ |- _ => destruct H end; simplify_eq; done.
Qed.

Lemma cover_sheet_name_witness :
  (∃ ops,
     cover_sheet_at
       (fs (run (create_coversheet sample_order ["out"; "cover.pdf"]) fair_env
              sample_world).1) ["out"; "cover.pdf"] ops
     ∧ name_on_top ops (name_text sample_order))
  ∧ (∀ u, user sample_order = Some u → name_text sample_order = full_name u)
  ∧ (user sample_order = None →
     ∀ n, parsed_name sample_order = Some n → n ≠ ""%string →
          name_text sample_order = n)
  ∧ (user sample_order = None →
     parsed_name sample_order = None ∨ parsed_name sample_order = Some ""%string →
     ∀ n, parsed_username sample_order = Some n → n ≠ ""%string →
          name_text sample_order = n)
  ∧ (user sample_order = None →
     parsed_name sample_order = None ∨ parsed_name sample_order = Some ""%string →
     parsed_username sample_order = None
     ∨ parsed_username sample_order = Some ""%string →
     name_text sample_order = "Unbekannt"%string)
  ∧ ((∀ u, user sample_order = Some u → full_name u ≠ ""%string) →
     name_text sample_order ≠ ""%string).
Proof.
  apply (cover_sheet_name fair_env sample_world _ sample_order ["out"; "cover.pdf"]).
  - vm_compute. reflexivity.
  - discriminate.
Defined.

(** * Further properties *)

(** ** PdfService.get_page_count *)

(** X1: [get_page_count] never raises and leaves the files alone: it hands
    one record to the logger and returns a pair.  The flag is [True] exactly
    for a file the reader opens and finds encrypted, and the page count is a
    number exactly for a file the reader opens, finds unencrypted and whose
    pages it can read; the number is then the number of pages. *)
Theorem get_page_count_outcome (E : env) (w : world) (pdf_path : path) :
  ∃ page_count encrypted entry,
    run (get_page_count pdf_path) E w = (with_log w [entry], Return (page_count, encrypted))
    ∧ (encrypted = true ↔
       ∃ d, fs w !! pdf_path = Some (File (Pdf d)) ∧ read_denied E pdf_path = false
            ∧ is_encrypted d = true)
    ∧ (∀ n, page_count = Some n ↔
       ∃ d ps, fs w !! pdf_path = Some (File (Pdf d)) ∧ read_denied E pdf_path = false
               ∧ is_encrypted d = false ∧ page_tree d = Some ps
               ∧ n = Z.of_nat (length ps)).
Proof.
  unfold run, get_page_count, try_except. bind_step.
  destruct (PdfReader_pure pdf_path E no_locals w) as (r & -> & Hr).
  destruct r as [d|e]; cbv beta iota.
  - destruct (proj1 (Hr d) eq_refl) as [Hp Hd]. destruct (is_encrypted d) eqn:Henc.
    + cbn. eexists _, _, _. split; [reflexivity|]. split.
      * split; [eauto|done].
      * intros n. split; [discriminate|]. intros (d' & ps & Hp' & _ & Henc' & _).
        congruence.
    + bind_step. destruct (pages_pure d E no_locals w) as (r' & -> & Hr').
      destruct r' as [ps|e']; cbn.
      * eexists _, _, _. split; [reflexivity|]. split.
        -- split; [discriminate|]. intros (d' & Hp' & _ & Henc'). congruence.
        -- intros n. split.
           ++ intros [= <-]. exists d, ps. repeat split; try done. by apply Hr'.
           ++ intros (d' & ps' & Hp' & _ & _ & Hps' & ->).
              assert (d' = d) as -> by congruence.
              assert (ps' = ps) as -> by (apply Hr' in Hps'; congruence). done.
      * eexists _, _, _. split; [reflexivity|]. split.
        -- split; [discriminate|]. intros (d' & Hp' & _ & Henc'). congruence.
        -- intros n. split; [discriminate|]. intros (d' & ps' & Hp' & _ & _ & Hps' & _).
           assert (d' = d) as -> by congruence. apply Hr' in Hps'. discriminate.
  - cbn. eexists _, _, _. split; [reflexivity|]. split.
    + split; [discriminate|]. intros (d & Hp & Hd & _).
      assert (Raise e = Return d) by (apply Hr; done). discriminate.
    + intros n. split; [discriminate|]. intros (d & ps & Hp & Hd & _).
      assert (Raise e = Return d) by (apply Hr; done). discriminate.
Qed.

(** ** PdfService._render_page_thumbnail *)

(** What the renderer does to the files and what it returns, case by case:
    whatever is raised on the way is caught. *)
Lemma render_page_thumbnail_outcome (pdf_path : path) (E : env) (l : locals) (w : world) :
  ∃ w' tp, _render_page_thumbnail pdf_path 0 E l w = (l, w', Return tp)
    ∧ skriptendruck w' = skriptendruck w ∧ root w' = root w
    ∧ _logging_configured w' = _logging_configured w
    ∧ match first_page_pixmap E (fs w) pdf_path with
      | Some size =>
          if tmp_file_free E (fs w) then
            if pix_save_fails E then
              fs w' = <[tmp_name E := File (Bytes "")]> (fs w) ∧ tp = None
            else
              fs w' = <[tmp_name E := File (Png size.1 size.2)]> (fs w)
              ∧ tp = Some (tmp_name E)
          else fs w' = fs w ∧ tp = None
      | None => fs w' = fs w ∧ tp = None
      end.
Proof.
  unfold first_page_pixmap, tmp_file_free, _render_page_thumbnail, try_except.
  bind_step. unfold ask at 1. destruct (fitz_installed E); [|by eexists _, _].
  run_step. unfold mret at 1, Py_ret at 1. run_step.
  unfold fitz_open at 1. bind_step. unfold read_file at 1. bind_step.
  unfold get_fs at 1. cbv beta iota.
  destruct (fs w !! pdf_path) as [[|[[enc [[|pg ps]|]]| | |]]|] eqn:Hp;
    try (by eexists _, _).
  all: bind_step; unfold ask at 1; cbv beta iota;
    destruct (read_denied E pdf_path); try (by eexists _, _).
  unfold mret at 1, Py_ret at 1. cbv beta iota.
  unfold mret at 1, Py_ret at 1. cbv beta iota.
  change (length (pg :: ps) =? 0)%nat with false. cbv iota.
  bind_step. change (fitz_page (pg :: ps) 0 E l w) with (l, w, Return pg).
  run_step. unfold page_get_pixmap at 1. bind_step. unfold ask at 1.
  destruct (get_pixmap E pg) as [size|]; [|by eexists _, _].
  unfold mret at 1, Py_ret at 1. run_step.
  unfold NamedTemporaryFile at 1. bind_step. unfold ask at 1.
  run_step. unfold get_fs at 1. cbv beta iota.
  destruct (exists_ (fs w) (tmp_name E)); [by eexists _, _|].
  destruct (is_dir (fs w) (parent (tmp_name E))); [|by eexists _, _].
  bind_step. unfold ask at 1. cbv beta iota.
  destruct (write_denied E (tmp_name E)); [by eexists _, _|].
  cbn [negb andb]. bind_step. unfold put_fs at 1. unfold mret at 1, Py_ret at 1.
  run_step. unfold pix_save at 1. bind_step. unfold ask at 1. cbv beta iota.
  destruct (pix_save_fails E); cbn; eexists _, _; (split; [reflexivity|]); [done|].
  repeat (split; [done|]). split; [|done]. apply insert_insert_eq.
Qed.

(** X2: the thumbnail renderer never raises.  The only file it can touch is
    the temporary one, and the loggers are as they were. *)
Theorem render_page_thumbnail_never_raises (E : env) (w : world) (pdf_path : path) :
  ∃ w' tp, run (_render_page_thumbnail pdf_path 0) E w = (w', Return tp)
    ∧ (∀ p, p ≠ tmp_name E → fs w' !! p = fs w !! p)
    ∧ skriptendruck w' = skriptendruck w ∧ root w' = root w
    ∧ _logging_configured w' = _logging_configured w.
Proof.
  unfold run.
  destruct (render_page_thumbnail_outcome pdf_path E no_locals w)
    as (w' & tp & -> & Hs & Hr & Hc & H).
  exists w', tp. split; [reflexivity|]. split; [|done].
  intros p Hp.
  destruct (first_page_pixmap E (fs w) pdf_path) as [size|]; [|by destruct H as [-> _]].
  destruct (tmp_file_free E (fs w)); [|by destruct H as [-> _]].
  destruct (pix_save_fails E); destruct H as [-> _]; by apply lookup_insert_ne.
Qed.

(** X3: a path the renderer returns is the name of the temporary file; no
    file had that name before, and it now holds the image of the first page
    of the document, in the size the page was rendered in. *)
Theorem render_page_thumbnail_image (E : env) (w w' : world) (pdf_path p : path) :
  run (_render_page_thumbnail pdf_path 0) E w = (w', Return (Some p)) →
  p = tmp_name E ∧ fs w !! p = None
  ∧ ∃ wd ht, first_page_pixmap E (fs w) pdf_path = Some (wd, ht)
      ∧ fs w' !! p = Some (File (Png wd ht)).
Proof.
  unfold run.
  destruct (render_page_thumbnail_outcome pdf_path E no_locals w)
    as (w0 & tp & -> & _ & _ & _ & H).
  intros [= <- ->].
  destruct (first_page_pixmap E (fs w) pdf_path) as [[wd ht]|]; [|by destruct H].
  unfold tmp_file_free in H.
  destruct (exists_ (fs w) (tmp_name E)) eqn:Hex; [by destruct H|].
  destruct (is_dir (fs w) (parent (tmp_name E))); [|by destruct H].
  destruct (write_denied E (tmp_name E)); [by destruct H|].
  cbn [negb andb] in H.
  destruct (pix_save_fails E); destruct H as [Hfs [= ->]].
  split; [done|]. split; [exact (proj1 (exists_false _ _ Hex))|].
  exists wd, ht. split; [done|]. rewrite Hfs. apply lookup_insert_eq.
Qed.

Lemma render_page_thumbnail_image_witness :
  ["tmp"; "tmpk3x9.png"] = tmp_name fair_env
  ∧ fs sample_world !! ["tmp"; "tmpk3x9.png"] = None
  ∧ ∃ wd ht, first_page_pixmap fair_env (fs sample_world) ["in"; "script.pdf"] = Some (wd, ht)
      ∧ fs (run (_render_page_thumbnail ["in"; "script.pdf"] 0) fair_env sample_world).1
          !! ["tmp"; "tmpk3x9.png"] = Some (File (Png wd ht)).
Proof.
  apply (render_page_thumbnail_image fair_env sample_world
           (run (_render_page_thumbnail ["in"; "script.pdf"] 0) fair_env sample_world).1
           ["in"; "script.pdf"] ["tmp"; "tmpk3x9.png"]).
  vm_compute. reflexivity.
Defined.

(** X4: when the page is rendered and the temporary file is created but
    writing the image into it raises, the renderer returns [None] and the
    empty temporary file stays behind: nothing in the handler removes it,
    and the caller is not told its name. *)
Theorem render_page_thumbnail_leaves_empty_file (E : env) (w : world) (pdf_path : path)
    (size : Z * Z) :
  first_page_pixmap E (fs w) pdf_path = Some size →
  tmp_file_free E (fs w) = true →
  pix_save_fails E = true →
  ∃ w', run (_render_page_thumbnail pdf_path 0) E w = (w', Return None)
    ∧ fs w !! tmp_name E = None
    ∧ fs w' !! tmp_name E = Some (File (Bytes "")).
Proof.
  intros Hpix Hfree Hsave. unfold run.
  destruct (render_page_thumbnail_outcome pdf_path E no_locals w)
    as (w' & tp & -> & _ & _ & _ & H).
  rewrite Hpix, Hfree, Hsave in H. destruct H as [Hfs ->].
  exists w'. split; [reflexivity|]. split.
  - unfold tmp_file_free in Hfree.
    destruct (exists_ (fs w) (tmp_name E)) eqn:Hex; [discriminate|].
    exact (proj1 (exists_false _ _ Hex)).
  - rewrite Hfs. apply lookup_insert_eq.
Qed.

Lemma render_page_thumbnail_leaves_empty_file_witness :
  ∃ w', run (_render_page_thumbnail ["in"; "script.pdf"] 0) failing_pix_save_env sample_world
          = (w', Return None)
    ∧ fs sample_world !! tmp_name failing_pix_save_env = None
    ∧ fs w' !! tmp_name failing_pix_save_env = Some (File (Bytes "")).
Proof.
  apply (render_page_thumbnail_leaves_empty_file failing_pix_save_env sample_world
           ["in"; "script.pdf"] (892, 1263)); vm_compute; reflexivity.
Defined.

(** X5: without PyMuPDF the renderer gives up at the import: it returns
    [None], touches no file and leaves one line in the debug log.  An empty
    document gives [None] as well, and not even a log line. *)
Theorem render_page_thumbnail_skipped (E : env) (w : world) (pdf_path : path) :
  (fitz_installed E = false →
   run (_render_page_thumbnail pdf_path 0) E w
     = (with_log w [(DEBUG, "PyMuPDF (fitz) nicht verfügbar – Thumbnail wird übersprungen")],
        Return None))
  ∧ (fitz_installed E = true → read_denied E pdf_path = false →
     pdf_with_pages (fs w) pdf_path [] →
     run (_render_page_thumbnail pdf_path 0) E w = (w, Return None)).
Proof.
  split.
  - intros Hf. unfold run, _render_page_thumbnail, try_except. bind_step.
    unfold ask at 1. rewrite Hf. reflexivity.
  - intros Hf Hr (d & Hp & Hd). unfold run, _render_page_thumbnail, try_except. bind_step.
    unfold ask at 1. rewrite Hf. run_step. unfold mret at 1, Py_ret at 1. run_step.
    unfold fitz_open at 1. bind_step. unfold read_file at 1. bind_step.
    unfold get_fs at 1. cbv beta iota. rewrite Hp. bind_step. unfold ask at 1.
    cbv beta iota. rewrite Hr. destruct d as [enc tree]. cbn in Hd. subst tree.
    reflexivity.
Qed.

Lemma render_page_thumbnail_skipped_witness :
  run (_render_page_thumbnail ["in"; "script.pdf"] 0) no_fitz_env sample_world
    = (with_log sample_world
         [(DEBUG, "PyMuPDF (fitz) nicht verfügbar – Thumbnail wird übersprungen")],
       Return None).
Proof.
  apply (proj1 (render_page_thumbnail_skipped no_fitz_env sample_world ["in"; "script.pdf"])).
  reflexivity.
Defined.

(** ** PdfService.create_coversheet *)

(** X6: [create_coversheet] never raises, and apart from the cover sheet and
    the temporary file it changes no file and no directory that is there: it
    only makes directories where nothing was. *)
Theorem create_coversheet_frame (E : env) (w : world) (order : Order) (out : path) :
  ∃ w' b, run (create_coversheet order out) E w = (w', Return b)
    ∧ ∀ p, p ≠ out → p ≠ tmp_name E →
        fs w' !! p = fs w !! p ∨ (fs w !! p = None ∧ fs w' !! p = Some Dir).
Proof.
  destruct (mkdir_parents_fs out E no_locals w) as (w1 & r1 & Hmk & _ & _ & Hfs1 & _).
  destruct (create_coversheet_run E w order out)
    as (w1' & r1' & Hmk' & l' & w' & b & Hrun & H).
  rewrite Hmk in Hmk'. injection Hmk' as <- <-.
  exists w', b. unfold run. rewrite Hrun. split; [reflexivity|].
  intros p Hout Htmp. destruct r1 as [[]|e1].
  - destruct H as [(_ & _ & -> & _)
                   |(_ & w2 & w3 & Hfs2 & Htp & _ & _ & _ & Hfs3 & _ & _ & _ & Hfs' & _)];
      [apply Hfs1|].
    assert (fs w' !! p = fs w1 !! p) as ->; [|apply Hfs1].
    rewrite Hfs', Hfs3 by (try done; destruct Htp as [->|[-> _]]; congruence).
    destruct (Hfs2 p) as [?|[? _]]; done.
  - destruct H as (_ & _ & ->). apply Hfs1.
Qed.

(** X7: when the directory for the cover sheet cannot be made,
    [create_coversheet] gives up at once: it returns [False] with the error
    in the log, and no thumbnail is rendered and nothing is written. *)
Theorem create_coversheet_no_directory (E : env) (w w1 : world) (order : Order)
    (out : path) (e : exc) :
  run (mkdir_parents (parent out)) E w = (w1, Raise e) →
  run (create_coversheet order out) E w
    = (with_log w1 [(ERROR, "Fehler beim Erstellen des Deckblatts: " +:+ exc_str e)],
       Return false).
Proof.
  unfold run. intros Hmk.
  destruct (mkdir_parents_fs out E no_locals w) as (w1' & r1 & Hmk' & _).
  rewrite Hmk' in Hmk. injection Hmk as -> ->.
  unfold create_coversheet. bind_step.
  change (set_thumbnail_path None E no_locals w) with (no_locals, w, Return tt).
  cbv beta iota. unfold try_finally, try_except. bind_step. rewrite Hmk'. reflexivity.
Qed.

Lemma create_coversheet_no_directory_witness :
  run (create_coversheet sample_order ["in"; "script.pdf"; "cover.pdf"]) fair_env sample_world
    = (with_log sample_world
         [(ERROR, "Fehler beim Erstellen des Deckblatts: /in/script.pdf")],
       Return false).
Proof.
  apply (create_coversheet_no_directory fair_env sample_world sample_world sample_order
           ["in"; "script.pdf"; "cover.pdf"] (Exc FileExistsError "/in/script.pdf")).
  vm_compute. reflexivity.
Defined.

Lemma get_page_count_of_pages (E : env) (w : world) (p : path) (d : pdf_doc)
    (ps : list page) :
  fs w !! p = Some (File (Pdf d)) → read_denied E p = false →
  is_encrypted d = false → page_tree d = Some ps →
  (run (get_page_count p) E w).2 = Return (Some (Z.of_nat (length ps)), false).
Proof.
  intros Hp Hr Henc Hps. unfold run, get_page_count, try_except, mbind, Py_bind.
  destruct (PdfReader_pure p E no_locals w) as (r & -> & HR).
  assert (r = Return d) as -> by (by apply HR).
  rewrite Henc. unfold pages. rewrite Hps. reflexivity.
Qed.

(** X8: a cover sheet is one page.  After a successful call whose temporary
    file was not at the path of the cover sheet, [get_page_count] on that
    path gives one page and no password. *)
Theorem create_coversheet_page_count (E : env) (w w' : world) (order : Order) (out : path) :
  run (create_coversheet order out) E w = (w', Return true) →
  tmp_name E ≠ out →
  read_denied E out = false →
  (run (get_page_count out) E w').2 = Return (Some 1, false).
Proof.
  unfold run at 1. intros Hrun Htmp Hread.
  destruct (create_coversheet_run E w order out)
    as (w1 & r1 & _ & l' & w0 & b & Hrun' & H).
  rewrite Hrun' in Hrun. injection Hrun as -> ->.
  destruct r1 as [[]|e1]; [|by destruct H].
  destruct H as [(? & _)|(_ & w2 & w3 & _ & Htp & _ & _ & _ & _ & _ & Hsheet & _ & Hfs' & _)];
    [done|].
  apply (get_page_count_of_pages E w' out
           {| is_encrypted := false; page_tree := Some [CanvasPage A4 (c l')] |}
           [CanvasPage A4 (c l')]); try done.
  rewrite Hfs' by (destruct Htp as [->|[-> _]]; congruence). by apply Hsheet.
Qed.

Lemma create_coversheet_page_count_witness :
  (run (get_page_count ["out"; "cover.pdf"]) fair_env
     (run (create_coversheet sample_order ["out"; "cover.pdf"]) fair_env sample_world).1).2
    = Return (Some 1, false).
Proof.
  apply (create_coversheet_page_count fair_env sample_world _ sample_order
           ["out"; "cover.pdf"]).
  - vm_compute. reflexivity.
  - discriminate.
  - reflexivity.
Defined.

(** X27: the look at the order's file.  Whether the file is there is asked
    before the renderer is called, outside of what the renderer catches.
    When that look is refused, [create_coversheet] fails although only the
    thumbnail was at stake: it returns [False] with the error in the log,
    nothing is rendered and no sheet is written. *)
Theorem create_coversheet_stat_refused (E : env) (w w1 : world) (order : Order)
    (out fp : path) :
  run (mkdir_parents (parent out)) E w = (w1, Return tt) →
  filepath order = Some fp →
  stat_denied E fp = true →
  run (create_coversheet order out) E w
    = (with_log w1 [(ERROR, "Fehler beim Erstellen des Deckblatts: " +:+ str_of_path fp)],
       Return false).
Proof.
  unfold run. intros Hmk Hfp Hstat.
  destruct (mkdir_parents_fs out E no_locals w) as (w1' & r1 & Hmk' & _).
  rewrite Hmk' in Hmk. injection Hmk as -> ->.
  unfold create_coversheet. bind_step.
  change (set_thumbnail_path None E no_locals w) with (no_locals, w, Return tt).
  cbv beta iota. unfold try_finally, try_except. bind_step. rewrite Hmk'.
  cbv beta iota. bind_step. unfold render_thumbnail at 1. rewrite Hfp.
  bind_step. unfold path_exists at 1. bind_step. unfold ask at 1. cbv beta iota.
  rewrite Hstat. reflexivity.
Qed.

Lemma create_coversheet_stat_refused_witness :
  run (create_coversheet sample_order ["tmp"; "cover.pdf"]) locked_dir_env sample_world
    = (with_log sample_world
         [(ERROR, "Fehler beim Erstellen des Deckblatts: " +:+ str_of_path ["in"; "script.pdf"])],
       Return false).
Proof.
  apply (create_coversheet_stat_refused locked_dir_env sample_world sample_world sample_order
           ["tmp"; "cover.pdf"] ["in"; "script.pdf"]).
  - vm_compute. reflexivity.
  - reflexivity.
  - reflexivity.
Defined.

(** ** The preview *)

(** The statements that embed the thumbnail, run on an image that can be
    read: label and frame are drawn, then the image, unless drawing it
    raises. *)
Lemma embed_thumbnail_steps (tp : path) (E : env) (l : locals) (w : world) (wd ht : Z) :
  fs w !! tp = Some (File (Png wd ht)) → read_denied E tp = false →
  image_reader_fails E = false → wd ≠ 0 → ht ≠ 0 →
  ∃ l' scale,
    scale = Qmin (Qmin ((right_margin - thumb_col_x - 10) / inject_Z wd)
                       ((info_top_y l - 80) / inject_Z ht)) 1
    ∧ embed_thumbnail tp E l w
      = (l', w, if draw_image_fails E then Raise (Exc OSError "cannot embed image")
                else Return tt)
    ∧ thumbnail_path l' = thumbnail_path l
    ∧ c l' = c l ++ preview_frame (info_top_y l) (inject_Z wd * scale) (inject_Z ht * scale)
               ++ (if draw_image_fails E then []
                   else [drawImage tp thumb_col_x (info_top_y l - inject_Z ht * scale)
                           (inject_Z wd * scale) (inject_Z ht * scale) true]).
Proof.
  intros Hp Hread Hreader Hwd Hht.
  assert (Hsize : ∀ l0, ImageReader_getSize tp E l0 w = (l0, w, Return (wd, ht))).
  { intros l0. unfold ImageReader_getSize. bind_step.
    destruct (read_file_pure tp E l0 w) as (r & -> & Hr).
    assert (r = Return (Png wd ht)) as -> by (by apply Hr).
    cbv beta iota. bind_step. unfold ask at 1. cbv beta iota. rewrite Hreader. reflexivity. }
  unfold embed_thumbnail. bind_step. rewrite Hsize. cbv beta iota.
  bind_step. unfold get_local at 1. cbv beta iota. bind_step. unfold truediv at 1.
  destruct (Z.eqb_spec wd 0) as [?|_]; [done|].
  unfold mret at 1, Py_ret at 1. cbv beta iota. bind_step. unfold truediv at 1.
  destruct (Z.eqb_spec ht 0) as [?|_]; [done|].
  unfold mret at 1, Py_ret at 1. cbv beta iota zeta.
  do 7 (bind_step; unfold draw at 1, put_local at 1; cbv beta iota).
  unfold c_drawImage. bind_step. rewrite Hsize. cbv beta iota.
  bind_step. unfold ask at 1. cbv beta iota.
  destruct (draw_image_fails E); cbn; eexists _, _; (split; [reflexivity|]);
    (split; [reflexivity|]); cbn; (split; [reflexivity|]);
    rewrite <- ?app_assoc; reflexivity.
Qed.

(** X9: the preview fits and keeps its shape.  For an image of positive
    width and height that is read and drawn without error, the thumbnail
    block draws label, frame and one image: at the left of the right column,
    its top at the top of the order data, no wider than the column and no
    higher than the space above the footer, never enlarged, and, in exact
    arithmetic, with the proportions of the image. *)
Theorem embed_thumbnail_fits (tp : path) (E : env) (l : locals) (w : world) (wd ht : Z) :
  fs w !! tp = Some (File (Png wd ht)) → read_denied E tp = false →
  image_reader_fails E = false → draw_image_fails E = false →
  0 < wd → 0 < ht →
  ∃ l' tw th,
    embed_thumbnail tp E l w = (l', w, Return tt)
    ∧ c l' = c l ++ preview_frame (info_top_y l) tw th
               ++ [drawImage tp thumb_col_x (info_top_y l - th) tw th true]
    ∧ (tw <= right_margin - thumb_col_x - 10)%Q
    ∧ (th <= info_top_y l - 80)%Q
    ∧ (tw <= inject_Z wd)%Q ∧ (th <= inject_Z ht)%Q
    ∧ (tw * inject_Z ht == th * inject_Z wd)%Q.
Proof.
  intros Hp Hread Hreader Hdraw Hwd Hht.
  destruct (embed_thumbnail_steps tp E l w wd ht) as (l' & scale & Hscale & Hrun & _ & Hc);
    try done; try lia.
  rewrite Hdraw in Hrun, Hc.
  exists l', (inject_Z wd * scale)%Q, (inject_Z ht * scale)%Q.
  split; [exact Hrun|]. split; [exact Hc|].
  assert (Hw0 : (0 < inject_Z wd)%Q) by (unfold Qlt, inject_Z; cbn; lia).
  assert (Hh0 : (0 < inject_Z ht)%Q) by (unfold Qlt, inject_Z; cbn; lia).
  assert (Hs1 : (scale <= 1)%Q) by (rewrite Hscale; apply Q.le_min_r).
  assert (Hsw : (scale <= (right_margin - thumb_col_x - 10) / inject_Z wd)%Q).
  { rewrite Hscale. eapply Qle_trans; [apply Q.le_min_l|apply Q.le_min_l]. }
  assert (Hsh : (scale <= (info_top_y l - 80) / inject_Z ht)%Q).
  { rewrite Hscale. eapply Qle_trans; [apply Q.le_min_l|apply Q.le_min_r]. }
  repeat split.
  - apply (Qmult_le_l _ _ _ Hw0) in Hsw. rewrite Qmult_div_r in Hsw; [done|].
    intros H0. rewrite H0 in Hw0. by apply Qlt_irrefl in Hw0.
  - apply (Qmult_le_l _ _ _ Hh0) in Hsh. rewrite Qmult_div_r in Hsh; [done|].
    intros H0. rewrite H0 in Hh0. by apply Qlt_irrefl in Hh0.
  - apply (Qmult_le_l _ _ _ Hw0) in Hs1. by rewrite Qmult_1_r in Hs1.
  - apply (Qmult_le_l _ _ _ Hh0) in Hs1. by rewrite Qmult_1_r in Hs1.
  - ring.
Qed.

Lemma embed_thumbnail_fits_witness :
  ∃ l' tw th,
    embed_thumbnail ["tmp"; "tmpk3x9.png"] fair_env (sample_locals ["tmp"; "tmpk3x9.png"])
      thumbnail_world = (l', thumbnail_world, Return tt)
    ∧ c l' = c (sample_locals ["tmp"; "tmpk3x9.png"])
               ++ preview_frame (info_top_y (sample_locals ["tmp"; "tmpk3x9.png"])) tw th
               ++ [drawImage ["tmp"; "tmpk3x9.png"] thumb_col_x
                     (info_top_y (sample_locals ["tmp"; "tmpk3x9.png"]) - th) tw th true]
    ∧ (tw <= right_margin - thumb_col_x - 10)%Q
    ∧ (th <= info_top_y (sample_locals ["tmp"; "tmpk3x9.png"]) - 80)%Q
    ∧ (tw <= inject_Z 892)%Q ∧ (th <= inject_Z 1263)%Q
    ∧ (tw * inject_Z 1263 == th * inject_Z 892)%Q.
Proof.
  apply (embed_thumbnail_fits ["tmp"; "tmpk3x9.png"] fair_env
           (sample_locals ["tmp"; "tmpk3x9.png"]) thumbnail_world 892 1263);
    try reflexivity.
Defined.

(** X10: when [c.drawImage] raises, the label and the frame of the preview
    are on the canvas already and stay there: the thumbnail block catches
    the error and logs a warning, and the sheet shows an empty frame. *)
Theorem draw_thumbnail_empty_frame (tp : path) (E : env) (l : locals) (w : world)
    (wd ht : Z) :
  thumbnail_path l = Some tp →
  fs w !! tp = Some (File (Png wd ht)) → read_denied E tp = false →
  image_reader_fails E = false → wd ≠ 0 → ht ≠ 0 →
  draw_image_fails E = true →
  ∃ l' tw th,
    draw_thumbnail E l w
      = (l', with_log w [(WARNING, "Thumbnail konnte nicht ins Deckblatt eingefügt werden: "
                                    +:+ "cannot embed image")], Return tt)
    ∧ c l' = c l ++ preview_frame (info_top_y l) tw th
    ∧ Forall (λ o, is_image o = false) (preview_frame (info_top_y l) tw th).
Proof.
  intros Htp Hp Hread Hreader Hwd Hht Hdraw.
  destruct (embed_thumbnail_steps tp E l w wd ht) as (l' & scale & _ & Hrun & _ & Hc);
    try done.
  rewrite Hdraw in Hrun, Hc. rewrite app_nil_r in Hc.
  exists l', (inject_Z wd * scale)%Q, (inject_Z ht * scale)%Q.
  split; [|split; [exact Hc|repeat constructor]].
  unfold draw_thumbnail. bind_step. unfold get_local at 1. cbv beta iota. rewrite Htp.
  unfold try_except. rewrite Hrun. reflexivity.
Qed.

Lemma draw_thumbnail_empty_frame_witness :
  ∃ l' tw th,
    draw_thumbnail failing_draw_image_env (sample_locals ["tmp"; "tmpk3x9.png"])
      thumbnail_world
      = (l', with_log thumbnail_world
               [(WARNING, "Thumbnail konnte nicht ins Deckblatt eingefügt werden: "
                           +:+ "cannot embed image")], Return tt)
    ∧ c l' = c (sample_locals ["tmp"; "tmpk3x9.png"])
               ++ preview_frame (info_top_y (sample_locals ["tmp"; "tmpk3x9.png"])) tw th
    ∧ Forall (λ o, is_image o = false)
        (preview_frame (info_top_y (sample_locals ["tmp"; "tmpk3x9.png"])) tw th).
Proof.
  apply (draw_thumbnail_empty_frame ["tmp"; "tmpk3x9.png"] failing_draw_image_env
           (sample_locals ["tmp"; "tmpk3x9.png"]) thumbnail_world 892 1263);
    try reflexivity; discriminate.
Defined.

(** ** PdfService.merge_pdfs, once more *)

(** A merge never raises.  After the directory was made ([w] to [w1]) it
    touches the destination only, and it succeeds only if the directory was
    made. *)
Lemma merge_pdfs_steps (E : env) (w : world) (cs doc out : path) (blank : bool) :
  ∃ w1 r1, mkdir_parents (parent out) E no_locals w = (no_locals, w1, r1)
    ∧ ∃ w' b, run (merge_pdfs cs doc out blank) E w = (w', Return b)
        ∧ (∀ p, p ≠ out → fs w' !! p = fs w1 !! p)
        ∧ skriptendruck w' = skriptendruck w ∧ root w' = root w
        ∧ _logging_configured w' = _logging_configured w
        ∧ (b = true → r1 = Return tt)
        ∧ ((∀ ps, ¬ pdf_with_pages (fs w1) cs ps) ∨ (∀ ps, ¬ pdf_with_pages (fs w1) doc ps) →
           b = false ∧ fs w' = fs w1).
Proof.
  destruct (mkdir_parents_fs out E no_locals w)
    as (w1 & r1 & Hmk & (_ & Hsk & Hroot & Hcfg) & _).
  exists w1, r1. split; [exact Hmk|].
  unfold run, merge_pdfs, try_except, mbind, Py_bind. rewrite Hmk.
  destruct r1 as [[]|e1]; [|by eexists _, _].
  destruct (PdfReader_pure cs E no_locals w1) as (r2 & -> & Hr2).
  destruct r2 as [dc|e2].
  2: { eexists _, _. split; [reflexivity|]. cbn. repeat split; try done. }
  destruct (pages_pure dc E no_locals w1) as (r3 & -> & Hr3).
  destruct r3 as [cps|e3].
  2: { eexists _, _. split; [reflexivity|]. cbn. repeat split; try done. }
  assert (Hcs : pdf_with_pages (fs w1) cs cps).
  { exists dc. split; [by apply Hr2|by apply Hr3]. }
  destruct (PdfReader_pure doc E no_locals w1) as (r4 & -> & Hr4).
  destruct r4 as [dd|e4].
  2: { eexists _, _. split; [reflexivity|]. cbn. repeat split; try done. }
  destruct (pages_pure dd E no_locals w1) as (r5 & -> & Hr5).
  destruct r5 as [dps|e5].
  2: { eexists _, _. split; [reflexivity|]. cbn. repeat split; try done. }
  assert (Hdoc : pdf_with_pages (fs w1) doc dps).
  { exists dd. split; [by apply Hr4|by apply Hr5]. }
  assert (Hno : ¬ ((∀ ps, ¬ pdf_with_pages (fs w1) cs ps)
                   ∨ (∀ ps, ¬ pdf_with_pages (fs w1) doc ps))).
  { intros [H|H]; eapply H; eauto. }
  match goal with
  | |- context [fold_left add_page dps ?x] => generalize (fold_left add_page dps x)
  end.
  intros merged.
  destruct (decide (out = [])) as [->|Hbelow].
  { eexists _, _. split; [reflexivity|cbn; repeat split; done]. }
  rewrite (open_wb_below out Hbelow).
  unfold write_pages, mbind, Py_bind, get_fs, ask, raise, put_fs. cbn.
  destruct (fs w1 !! out) as [[|data]|] eqn:Ho;
    try (eexists _, _; split; [reflexivity|cbn; repeat split; done]).
  all: destruct (is_dir (fs w1) (parent out));
    try (eexists _, _; split; [reflexivity|cbn; repeat split; done]).
  all: destruct (write_denied E out);
    try (eexists _, _; split; [reflexivity|cbn; repeat split; done]).
  all: cbn; destruct (disk_quota E) as [n|] eqn:Hq; cbn.
  all: try destruct (n <? length merged)%nat eqn:Hn; cbn.
  all: eexists _, _; (split; [reflexivity|]); cbn.
  all: repeat split; try done.
  all: intros p Hp; by rewrite !lookup_insert_ne.
Qed.

(** X11: [merge_pdfs] never raises, and whether it succeeds or fails it
    changes no file and no directory other than the destination: it only
    makes directories where nothing was.  The loggers are as they were. *)
Theorem merge_pdfs_frame (E : env) (w : world) (cs doc out : path) (blank : bool) :
  ∃ w' b, run (merge_pdfs cs doc out blank) E w = (w', Return b)
    ∧ (∀ p, p ≠ out → fs w' !! p = fs w !! p ∨ (fs w !! p = None ∧ fs w' !! p = Some Dir))
    ∧ skriptendruck w' = skriptendruck w ∧ root w' = root w
    ∧ _logging_configured w' = _logging_configured w.
Proof.
  destruct (mkdir_parents_fs out E no_locals w) as (w1 & r1 & Hmk & _ & _ & Hfs1 & _).
  destruct (merge_pdfs_steps E w cs doc out blank)
    as (w1' & r1' & Hmk' & w' & b & Hrun & Hfs & Hrest).
  rewrite Hmk in Hmk'. injection Hmk' as <- <-.
  exists w', b. split; [exact Hrun|]. split; [|tauto].
  intros p Hp. rewrite (Hfs p Hp). apply Hfs1.
Qed.

(** X12: the directory of the destination is made before the inputs are
    read.  When the cover sheet or the document is not a PDF with readable
    pages, the merge returns [False] and the destination is as it was, but
    the directory, if it could be made, is there. *)
Theorem merge_pdfs_unreadable_input (E : env) (w : world) (cs doc out : path)
    (blank : bool) :
  (∀ ps, ¬ pdf_with_pages (fs w) cs ps) ∨ (∀ ps, ¬ pdf_with_pages (fs w) doc ps) →
  ∃ w', run (merge_pdfs cs doc out blank) E w = (w', Return false)
    ∧ fs w' !! out = fs w !! out
    ∧ ((run (mkdir_parents (parent out)) E w).2 = Return tt →
       is_dir (fs w') (parent out) = true).
Proof.
  intros Hin.
  destruct (mkdir_parents_fs out E no_locals w) as (w1 & r1 & Hmk & _ & Hout & Hfs1 & Hdir).
  destruct (merge_pdfs_steps E w cs doc out blank)
    as (w1' & r1' & Hmk' & w' & b & Hrun & _ & _ & _ & _ & _ & Hfail).
  rewrite Hmk in Hmk'. injection Hmk' as <- <-.
  destruct Hfail as [-> Hfs].
  { destruct Hin as [H|H]; [left|right]; intros ps (d & Hd & Hps); apply (H ps); exists d;
      (split; [|done]); by apply (mkdir_keeps_files w w1). }
  exists w'. split; [exact Hrun|]. rewrite Hfs. split; [exact Hout|].
  unfold run. rewrite Hmk. cbn. exact Hdir.
Qed.

Lemma merge_pdfs_unreadable_input_witness :
  ∃ w', run (merge_pdfs ["in"; "broken.pdf"] ["in"; "script.pdf"] ["out"; "job.pdf"] false)
          fair_env sample_world = (w', Return false)
    ∧ fs w' !! ["out"; "job.pdf"] = fs sample_world !! ["out"; "job.pdf"]
    ∧ ((run (mkdir_parents (parent ["out"; "job.pdf"])) fair_env sample_world).2 = Return tt →
       is_dir (fs w') (parent ["out"; "job.pdf"]) = true).
Proof.
  apply (merge_pdfs_unreadable_input fair_env sample_world ["in"; "broken.pdf"]
           ["in"; "script.pdf"] ["out"; "job.pdf"] false).
  left. intros ps (d & Hd & _). vm_compute in Hd. discriminate.
Defined.

(** X13: the page count of a merged file.  After a successful merge,
    [get_page_count] on the destination gives the pages of the cover sheet
    plus those of the document, plus one when a blank page was asked for,
    and no password. *)
Theorem merge_pdfs_page_count (E : env) (w w' : world) (cs doc out : path) (blank : bool) :
  run (merge_pdfs cs doc out blank) E w = (w', Return true) →
  read_denied E out = false →
  ∃ cps dps, pdf_with_pages (fs w) cs cps ∧ pdf_with_pages (fs w) doc dps
    ∧ (run (get_page_count out) E w').2
      = Return (Some (Z.of_nat (length cps) + (if blank then 1 else 0)
                      + Z.of_nat (length dps)), false).
Proof.
  intros Hrun Hread.
  destruct (merge_pdfs_outcome E w cs doc out blank) as (w0 & b & Hrun' & H).
  rewrite Hrun in Hrun'. injection Hrun' as <- <-.
  destruct H as [[? _]|(cps & dps & Hc & Hd & [(? & _)|(_ & Hout & _)])]; [done|done|].
  exists cps, dps. split; [done|]. split; [done|].
  rewrite (get_page_count_of_pages E w' out _ _ Hout Hread eq_refl eq_refl).
  do 3 f_equal. unfold merged_pages. rewrite !length_app. destruct blank; cbn [length]; lia.
Qed.

Lemma merge_pdfs_page_count_witness :
  ∃ cps dps, pdf_with_pages (fs sample_world) ["in"; "cover.pdf"] cps
    ∧ pdf_with_pages (fs sample_world) ["in"; "script.pdf"] dps
    ∧ (run (get_page_count ["out"; "job.pdf"]) fair_env
         (run (merge_pdfs ["in"; "cover.pdf"] ["in"; "script.pdf"] ["out"; "job.pdf"] true)
              fair_env sample_world).1).2
      = Return (Some (Z.of_nat (length cps) + (if true then 1 else 0)
                      + Z.of_nat (length dps)), false).
Proof.
  apply (merge_pdfs_page_count fair_env sample_world _ ["in"; "cover.pdf"]
           ["in"; "script.pdf"] ["out"; "job.pdf"] true).
  - vm_compute. reflexivity.
  - reflexivity.
Defined.

(** X14: cover sheet, then merge.  When [create_coversheet] succeeds and
    [merge_pdfs] then succeeds on the sheet it wrote, the merged file opens
    with the one page of the cover sheet, which shows the name of the order
    and the warning exactly for an invalid file name; the blank page, if
    asked for, and the pages of the document follow. *)
Theorem coversheet_then_merge (E : env) (w w1 w2 : world) (order : Order)
    (cs doc out : path) (blank : bool) :
  run (create_coversheet order cs) E w = (w1, Return true) →
  tmp_name E ≠ cs →
  run (merge_pdfs cs doc out blank) E w1 = (w2, Return true) →
  ∃ ops dps,
    shows_name ops (name_text order)
    ∧ (has_banner ops ↔ status order = ERROR_INVALID_FILENAME)
    ∧ pdf_with_pages (fs w1) doc dps
    ∧ fs w2 !! out
      = Some (File (Pdf {| is_encrypted := false;
                           page_tree := Some (merged_pages [CanvasPage A4 ops] blank dps) |})).
Proof.
  unfold run at 1. intros Hcs Htmp Hmerge.
  destruct (create_coversheet_run E w order cs)
    as (w0 & r0 & _ & l' & w1' & b & Hrun & H).
  rewrite Hrun in Hcs. injection Hcs as -> ->.
  destruct r0 as [[]|e0]; [|by destruct H].
  destruct H as [(? & _)
                 |(_ & w3 & w4 & _ & Htp & Hname & Hban & _ & _ & _ & Hsheet & _ & Hfs' & _)];
    [done|].
  assert (Hcover : cover_sheet_at (fs w1) cs (c l')).
  { unfold cover_sheet_at. rewrite Hfs' by (destruct Htp as [->|[-> _]]; congruence).
    by apply Hsheet. }
  destruct (merge_pdfs_outcome E w1 cs doc out blank) as (w2' & b & Hrun' & H).
  rewrite Hmerge in Hrun'. injection Hrun' as <- <-.
  destruct H as [[? _]|(cps & dps & Hc & Hd & [(? & _)|(_ & Hout & _)])]; [done|done|].
  exists (c l'), dps. split; [done|]. split; [done|]. split; [done|].
  destruct Hc as (d & Hd1 & Hd2). unfold cover_sheet_at in Hcover.
  rewrite Hcover in Hd1. injection Hd1 as <-. cbn in Hd2. injection Hd2 as <-. done.
Qed.

Lemma coversheet_then_merge_witness :
  ∃ ops dps,
    shows_name ops (name_text misnamed_order)
    ∧ (has_banner ops ↔ status misnamed_order = ERROR_INVALID_FILENAME)
    ∧ pdf_with_pages
        (fs (run (create_coversheet misnamed_order ["out"; "cover.pdf"]) fair_env
               sample_world).1) ["in"; "script.pdf"] dps
    ∧ fs (run (merge_pdfs ["out"; "cover.pdf"] ["in"; "script.pdf"] ["out"; "job.pdf"] true)
            fair_env
            (run (create_coversheet misnamed_order ["out"; "cover.pdf"]) fair_env
               sample_world).1).1 !! ["out"; "job.pdf"]
      = Some (File (Pdf {| is_encrypted := false;
                           page_tree := Some (merged_pages [CanvasPage A4 ops] true dps) |})).
Proof.
  apply (coversheet_then_merge fair_env sample_world _ _ misnamed_order
           ["out"; "cover.pdf"] ["in"; "script.pdf"] ["out"; "job.pdf"] true).
  - vm_compute. reflexivity.
  - discriminate.
  - vm_compute. reflexivity.
Defined.

(** ** config/logging.py, in detail *)

Lemma logging_getattr_cases (name : string) (default : pyobj) :
  (∃ n, logging_getattr name default = PyInt n)
  ∨ logging_getattr name default = PyStr "%(levelname)s:%(name)s:%(message)s"
  ∨ logging_getattr name default = PyDict
  ∨ logging_getattr name default = default.
Proof.
  unfold logging_getattr. destruct (_nameToLevel name) as [n|]; [left; by exists n|].
  right. repeat case_match; auto.
Qed.

(** Making directories and opening a file to append look at the files only
    and change the files only. *)
Lemma mkdir_from_with_fs (rest : list string) :
  ∀ (done : path) (E : env) (m : gmap path node),
    ∃ m' r, ∀ l w, fs w = m → mkdir_from done rest E l w = (l, with_fs w m', r).
Proof.
  induction rest as [|name rest IH]; intros done E m.
  - exists m, (Return tt). intros l [] <-. reflexivity.
  - cbn [mkdir_from]. unfold mbind, Py_bind, get_fs, ask, raise, put_fs.
    destruct (m !! (done ++ [name])) as [[|data]|] eqn:Hp.
    + destruct (IH (done ++ [name]) E m) as (m' & r & H).
      exists m', r. intros l w Hw. rewrite Hw, Hp. by apply H.
    + eexists m, _. intros l [] <-. cbn in *. rewrite Hp. reflexivity.
    + destruct (mkdir_denied E (done ++ [name])) eqn:Hden.
      * eexists m, _. intros l [] <-. cbn in *. rewrite Hp, Hden. reflexivity.
      * destruct (IH (done ++ [name]) E (<[done ++ [name] := Dir]> m)) as (m' & r & H).
        exists m', r. intros l w Hw. rewrite Hw, Hp, Hden. cbn. rewrite H by done.
        reflexivity.
Qed.

Lemma open_append_with_fs (p : path) (E : env) (m : gmap path node) :
  ∃ m' r, ∀ l w, fs w = m → open_append p E l w = (l, with_fs w m', r).
Proof.
  destruct (decide (p = [])) as [->|Hbelow].
  { eexists m, _. intros l [] <-. reflexivity. }
  rewrite (open_append_below p Hbelow).
  unfold mbind, Py_bind, get_fs, ask, raise, put_fs, mret, Py_ret.
  destruct (m !! p) as [[|data]|] eqn:Hp.
  - eexists m, _. intros l [] <-. cbn in *. rewrite Hp. reflexivity.
  - destruct (write_denied E p) eqn:Hden; eexists m, _; intros l [] <-; cbn in *;
      rewrite Hp, Hden; reflexivity.
  - destruct (is_dir m (parent p)) eqn:Hdir.
    + destruct (write_denied E p) eqn:Hden.
      * eexists m, _. intros l [] <-. cbn in *. rewrite Hp, Hdir, Hden. reflexivity.
      * eexists _, _. intros l [] <-. cbn in *. rewrite Hp, Hdir, Hden. reflexivity.
    + eexists m, _. intros l [] <-. cbn in *. rewrite Hp, Hdir. reflexivity.
Qed.

(** Preparing the log file: its directory is made and the file is opened. *)
Lemma open_log_file_with_fs (lf : path) (E : env) (m : gmap path node) :
  ∃ m' r, ∀ l w, fs w = m →
    (mkdir_parents (parent lf) ;; open_append lf) E l w = (l, with_fs w m', r).
Proof.
  destruct (mkdir_from_with_fs (parent lf) [] E m) as (m1 & r1 & H1).
  destruct r1 as [[]|e1].
  - destruct (open_append_with_fs lf E m1) as (m2 & r2 & H2).
    exists m2, r2. intros l w Hw. unfold mbind, Py_bind, mkdir_parents.
    rewrite (H1 l w Hw). rewrite (H2 l (with_fs w m1) eq_refl). reflexivity.
  - exists m1, (Raise e1). intros l w Hw. unfold mbind, Py_bind, mkdir_parents.
    rewrite (H1 l w Hw). reflexivity.
Qed.

(** The course of [setup_logging] for a level name that gives a level: the
    logger is set up, then the log file, if any, is opened; when that raises,
    the root logger and the flag are not reached. *)
Lemma setup_logging_run (E : env) (w : world) (level_name : string)
    (log_file : option path) (use_rich : bool) (n : Z) :
  logging_getattr (str_upper E level_name) (PyInt logging_INFO) = PyInt n →
  match log_file with
  | None =>
      run (setup_logging level_name None use_rich) E w
        = ({| fs := fs w; log := log w;
              skriptendruck := {| handlers := [console_handler use_rich n]; level := n;
                                  propagate := false |};
              root := secured_root (root w);
              _logging_configured := true |}, Return tt)
  | Some lf =>
      ∃ m1 r1, run (mkdir_parents (parent lf) ;; open_append lf) E w = (with_fs w m1, r1)
        ∧ run (setup_logging level_name (Some lf) use_rich) E w
          = match r1 with
            | Return _ =>
                ({| fs := m1; log := log w;
                    skriptendruck :=
                      {| handlers := [console_handler use_rich n;
                                      FileHandler lf (Some file_formatter) logging_DEBUG];
                         level := n; propagate := false |};
                    root := secured_root (root w);
                    _logging_configured := true |}, Return tt)
            | Raise e =>
                ({| fs := m1; log := log w;
                    skriptendruck := {| handlers := [console_handler use_rich n];
                                        level := n; propagate := false |};
                    root := root w;
                    _logging_configured := _logging_configured w |}, Raise e)
            end
  end.
Proof.
  intros Hn. destruct log_file as [lf|].
  - destruct (mkdir_from_with_fs (parent lf) [] E (fs w)) as (ma & ra & Ha).
    destruct ra as [[]|e1].
    + destruct (open_append_with_fs lf E ma) as (mb & rb & Hb).
      exists mb, rb. split.
      { unfold run, mbind, Py_bind, mkdir_parents. rewrite (Ha no_locals w eq_refl).
        rewrite (Hb no_locals (with_fs w ma) eq_refl). reflexivity. }
      unfold run, setup_logging. rewrite bind_run.
      change (upper level_name E no_locals w)
        with (no_locals, w, Return (str_upper E level_name)).
      cbv beta iota. rewrite Hn.
      unfold mbind, Py_bind, get_skriptendruck, put_skriptendruck, _checkLevel, mret, Py_ret,
        mkdir_parents.
      destruct use_rich; cbn -[mkdir_from open_append].
      all: rewrite Ha by reflexivity; rewrite Hb by reflexivity.
      all: destruct rb as [[]|e2]; cbn.
      all: unfold secured_root, put_root, put_logging_configured, addHandler, get_root;
        cbn; destruct (handlers (root w)) eqn:Hh; cbn; rewrite ?Hh; reflexivity.
    + exists ma, (Raise e1). split.
      { unfold run, mbind, Py_bind, mkdir_parents. rewrite (Ha no_locals w eq_refl).
        reflexivity. }
      unfold run, setup_logging. rewrite bind_run.
      change (upper level_name E no_locals w)
        with (no_locals, w, Return (str_upper E level_name)).
      cbv beta iota. rewrite Hn.
      unfold mbind, Py_bind, get_skriptendruck, put_skriptendruck, _checkLevel, mret, Py_ret,
        mkdir_parents.
      destruct use_rich; cbn -[mkdir_from open_append].
      all: rewrite Ha by reflexivity; reflexivity.
  - unfold run, setup_logging. rewrite bind_run.
      change (upper level_name E no_locals w)
        with (no_locals, w, Return (str_upper E level_name)).
      cbv beta iota. rewrite Hn.
    unfold mbind, Py_bind, get_skriptendruck, put_skriptendruck, _checkLevel, mret, Py_ret.
    cbn. unfold secured_root, put_root, put_logging_configured, addHandler.
    destruct use_rich; cbn; destruct (handlers (root w)) eqn:Hh; cbn; rewrite ?Hh;
      reflexivity.
Qed.

(** How a call of [setup_logging] ends, for every level name: when it
    returns, the root logger is secured and the flag is set; when it raises,
    neither was touched.  It writes nothing to the log. *)
Lemma setup_logging_outcome (E : env) (w : world) (level_name : string)
    (log_file : option path) (use_rich : bool) :
  ∃ w' r, run (setup_logging level_name log_file use_rich) E w = (w', r)
    ∧ log w' = log w
    ∧ (log_file = None → fs w' = fs w)
    ∧ match r with
      | Return _ =>
          root w' = secured_root (root w) ∧ _logging_configured w' = true
          ∧ ∃ n, logging_getattr (str_upper E level_name) (PyInt logging_INFO) = PyInt n
      | Raise e => root w' = root w ∧ _logging_configured w' = _logging_configured w
      end.
Proof.
  assert (Hn : (∃ n, logging_getattr (str_upper E level_name) (PyInt logging_INFO) = PyInt n)
               ∨ logging_getattr (str_upper E level_name) (PyInt logging_INFO)
                 = PyStr "%(levelname)s:%(name)s:%(message)s"
               ∨ logging_getattr (str_upper E level_name) (PyInt logging_INFO) = PyDict).
  { destruct (logging_getattr_cases (str_upper E level_name) (PyInt logging_INFO))
      as [?|[?|[?|?]]]; eauto. }
  destruct Hn as [[n Hn]|[Hn|Hn]].
  - pose proof (setup_logging_run E w level_name log_file use_rich n Hn) as H.
    destruct log_file as [lf|].
    + destruct H as (m1 & r1 & _ & ->). destruct r1 as [[]|e]; eexists _, _;
        (split; [reflexivity|]); cbn; (split; [done|]); (split; [done|]); eauto.
    + rewrite H. eexists _, _. split; [reflexivity|]. cbn. eauto 10.
  - unfold run, setup_logging. rewrite bind_run.
      change (upper level_name E no_locals w)
        with (no_locals, w, Return (str_upper E level_name)).
      cbv beta iota. rewrite Hn. eexists _, _. split; [reflexivity|]. done.
  - unfold run, setup_logging. rewrite bind_run.
      change (upper level_name E no_locals w)
        with (no_locals, w, Return (str_upper E level_name)).
      cbv beta iota. rewrite Hn. eexists _, _. split; [reflexivity|]. done.
Qed.

(** X15: the levels [setup_logging] sets.  For a level name whose upper
    case, as [str.upper] gives it, is an attribute of [logging] with the
    integer value [n] (or is no attribute, with [n] the level [INFO]), the
    logger has the level [n] and does not propagate, and its first handler
    is the console handler, at the level [n]; a second handler is there only
    when a log file was asked for and could be opened, and it takes every
    record from [DEBUG] on, whatever [n] is.  This holds also when the call
    raises. *)
Theorem setup_logging_levels (E : env) (w : world) (level_name : string)
    (log_file : option path) (use_rich : bool) (n : Z) :
  logging_getattr (str_upper E level_name) (PyInt logging_INFO) = PyInt n →
  ∃ w' r, run (setup_logging level_name log_file use_rich) E w = (w', r)
    ∧ level (skriptendruck w') = n ∧ propagate (skriptendruck w') = false
    ∧ ∃ rest, handlers (skriptendruck w') = console_handler use_rich n :: rest
        ∧ handler_level (console_handler use_rich n) = Some n
        ∧ (rest = []
           ∨ ∃ lf, log_file = Some lf ∧ r = Return tt
               ∧ rest = [FileHandler lf (Some file_formatter) logging_DEBUG]).
Proof.
  intros Hn. pose proof (setup_logging_run E w level_name log_file use_rich n Hn) as H.
  assert (Hlevel : handler_level (console_handler use_rich n) = Some n)
    by (by destruct use_rich).
  destruct log_file as [lf|].
  - destruct H as (m1 & r1 & _ & ->). destruct r1 as [[]|e]; eexists _, _;
      (split; [reflexivity|]); cbn; (split; [done|]); (split; [done|]); eexists;
      (split; [reflexivity|]); (split; [done|]); [right; by exists lf|by left].
  - rewrite H. eexists _, _. split; [reflexivity|]. cbn. split; [done|]. split; [done|].
    exists []. split; [done|]. split; [done|]. by left.
Qed.

Lemma setup_logging_levels_witness :
  ∃ w' r, run (setup_logging "debug" (Some ["logs"; "druck.log"]) false) fair_env sample_world
            = (w', r)
    ∧ level (skriptendruck w') = 10 ∧ propagate (skriptendruck w') = false
    ∧ ∃ rest, handlers (skriptendruck w') = console_handler false 10 :: rest
        ∧ handler_level (console_handler false 10) = Some 10
        ∧ (rest = []
           ∨ ∃ lf, Some ["logs"; "druck.log"] = Some lf ∧ r = Return tt
               ∧ rest = [FileHandler lf (Some file_formatter) logging_DEBUG]).
Proof.
  apply (setup_logging_levels fair_env sample_world "debug" (Some ["logs"; "druck.log"])
           false 10).
  reflexivity.
Defined.

(** X16: the root logger.  A call of [setup_logging] that returns has set
    the flag and the root logger's level to [WARNING]; it removed none of
    the root logger's handlers, and it added a [NullHandler] exactly when
    there was none.  A call that raises has touched neither the root logger
    nor the flag. *)
Theorem setup_logging_root (E : env) (w : world) (level_name : string)
    (log_file : option path) (use_rich : bool) :
  ∃ w' r, run (setup_logging level_name log_file use_rich) E w = (w', r)
    ∧ match r with
      | Return _ =>
          _logging_configured w' = true
          ∧ level (root w') = logging_WARNING
          ∧ propagate (root w') = propagate (root w)
          ∧ (handlers (root w) = [] → handlers (root w') = [NullHandler])
          ∧ (handlers (root w) ≠ [] → handlers (root w') = handlers (root w))
      | Raise e => root w' = root w ∧ _logging_configured w' = _logging_configured w
      end.
Proof.
  destruct (setup_logging_outcome E w level_name log_file use_rich) as (w' & r & Hrun & _ & _ & H).
  exists w', r. split; [exact Hrun|]. destruct r as [[]|e]; [|exact H].
  destruct H as (-> & -> & _). unfold secured_root. cbn.
  repeat split; destruct (handlers (root w)); done.
Qed.

(** X17: when the level name, in the upper case [str.upper] gives it, is
    good for a level [n] and the log file cannot be prepared (its directory
    cannot be made or the file cannot be opened), [setup_logging] raises that
    error: the console handler is attached and the level is set, but there
    is no file handler, the root logger is not secured and the flag stays as
    it was. *)
Theorem setup_logging_log_file_failure (E : env) (w : world) (level_name : string)
    (lf : path) (use_rich : bool) (n : Z) (e : exc) :
  logging_getattr (str_upper E level_name) (PyInt logging_INFO) = PyInt n →
  (run (mkdir_parents (parent lf) ;; open_append lf) E w).2 = Raise e →
  ∃ w', run (setup_logging level_name (Some lf) use_rich) E w = (w', Raise e)
    ∧ skriptendruck w' = {| handlers := [console_handler use_rich n]; level := n;
                            propagate := false |}
    ∧ root w' = root w
    ∧ _logging_configured w' = _logging_configured w.
Proof.
  intros Hn Hfail.
  destruct (setup_logging_run E w level_name (Some lf) use_rich n Hn) as (m1 & r1 & Hopen & ->).
  rewrite Hopen in Hfail. cbn in Hfail. subst r1. eexists. split; [reflexivity|]. done.
Qed.

Lemma setup_logging_log_file_failure_witness :
  ∃ w', run (setup_logging "INFO" (Some ["logs"; "druck.log"]) true) read_only_env sample_world
          = (w', Raise (Exc PermissionError "/logs/druck.log"))
    ∧ skriptendruck w' = {| handlers := [console_handler true 20]; level := 20;
                            propagate := false |}
    ∧ root w' = root sample_world
    ∧ _logging_configured w' = _logging_configured sample_world.
Proof.
  apply (setup_logging_log_file_failure read_only_env sample_world "INFO"
           ["logs"; "druck.log"] true 20 (Exc PermissionError "/logs/druck.log")).
  - reflexivity.
  - vm_compute. reflexivity.
Defined.

(** Once logging is configured, [get_logger] only names the logger. *)
Lemma get_logger_configured (E : env) (w : world) (name : string) :
  _logging_configured w = true →
  run (get_logger name) E w = (w, Return ("skriptendruck." +:+ name)).
Proof.
  intros Hcfg. unfold run, get_logger. bind_step. unfold get_logging_configured at 1.
  cbv beta iota. rewrite Hcfg. reflexivity.
Qed.

(** The set-up [get_logger] makes when logging is not configured. *)
Lemma get_logger_unconfigured (E : env) (w : world) (name : string) :
  _logging_configured w = false →
  run (get_logger name) E w
    = ({| fs := fs w; log := log w;
          skriptendruck := {| handlers := [RichHandler logging_INFO];
                              level := logging_INFO; propagate := false |};
          root := secured_root (root w);
          _logging_configured := true |}, Return ("skriptendruck." +:+ name)).
Proof.
  intros Hcfg.
  pose proof (setup_logging_run E w "INFO" None true logging_INFO eq_refl) as Hset.
  unfold run in Hset.
  destruct (setup_logging "INFO" None true E no_locals w) as [[l0 w0] r0] eqn:Hs.
  injection Hset as -> ->.
  unfold run, get_logger, call. bind_step. unfold get_logging_configured at 1.
  cbv beta iota. rewrite Hcfg. bind_step. rewrite Hs. reflexivity.
Qed.

(** X18: [get_logger] never raises and configures logging at most once.
    The first call sets up the defaults (one rich console handler, level
    [INFO]) when logging was not configured, and changes nothing when it
    was; every later call changes nothing.  No call writes a file or a log
    record. *)
Theorem get_logger_idempotent (E : env) (w : world) (name name' : string) :
  ∃ w1, run (get_logger name) E w = (w1, Return ("skriptendruck." +:+ name))
    ∧ run (get_logger name') E w1 = (w1, Return ("skriptendruck." +:+ name'))
    ∧ _logging_configured w1 = true
    ∧ fs w1 = fs w ∧ log w1 = log w
    ∧ (_logging_configured w = true → w1 = w)
    ∧ (_logging_configured w = false →
       skriptendruck w1 = {| handlers := [RichHandler logging_INFO]; level := logging_INFO;
                             propagate := false |}).
Proof.
  destruct (_logging_configured w) eqn:Hcfg.
  - exists w. rewrite !get_logger_configured by done. repeat split; done.
  - eexists. split; [by apply get_logger_unconfigured|].
    split; [by apply get_logger_configured|]. repeat split; done.
Qed.

(** X19: [get_logger] keeps a configuration.  After a call of
    [setup_logging] that returned, whatever its level, log file and console,
    [get_logger] leaves loggers, handlers and levels as that call set
    them. *)
Theorem get_logger_keeps_setup (E : env) (w w1 : world) (level_name : string)
    (log_file : option path) (use_rich : bool) (name : string) :
  run (setup_logging level_name log_file use_rich) E w = (w1, Return tt) →
  run (get_logger name) E w1 = (w1, Return ("skriptendruck." +:+ name)).
Proof.
  intros Hrun.
  destruct (setup_logging_outcome E w level_name log_file use_rich) as (w' & r & Hrun' & _ & _ & H).
  rewrite Hrun in Hrun'. injection Hrun' as <- <-. destruct H as (_ & Hcfg & _).
  by apply get_logger_configured.
Qed.

Lemma get_logger_keeps_setup_witness :
  run (get_logger "pdf_service") fair_env
      (run (setup_logging "debug" (Some ["logs"; "druck.log"]) false) fair_env sample_world).1
    = ((run (setup_logging "debug" (Some ["logs"; "druck.log"]) false) fair_env
          sample_world).1,
       Return ("skriptendruck." +:+ "pdf_service")).
Proof.
  apply (get_logger_keeps_setup fair_env sample_world _ "debug" (Some ["logs"; "druck.log"])
           false "pdf_service").
  vm_compute. reflexivity.
Defined.

(** X20: a failed set-up is overridden.  When the first call of
    [setup_logging] raises, the flag is still unset, and the next
    [get_logger] sets up the defaults: the level asked for is replaced by
    [INFO] and the console handler by the rich one. *)
Theorem get_logger_after_failed_setup (E : env) (w w1 : world) (level_name : string)
    (log_file : option path) (use_rich : bool) (e : exc) (name : string) :
  _logging_configured w = false →
  run (setup_logging level_name log_file use_rich) E w = (w1, Raise e) →
  ∃ w2, run (get_logger name) E w1 = (w2, Return ("skriptendruck." +:+ name))
    ∧ skriptendruck w2 = {| handlers := [RichHandler logging_INFO]; level := logging_INFO;
                            propagate := false |}
    ∧ _logging_configured w2 = true.
Proof.
  intros Hcfg Hrun.
  destruct (setup_logging_outcome E w level_name log_file use_rich) as (w' & r & Hrun' & _ & _ & H).
  rewrite Hrun in Hrun'. injection Hrun' as <- <-. destruct H as (_ & Hcfg1).
  rewrite Hcfg in Hcfg1.
  eexists. split; [by apply get_logger_unconfigured|]. done.
Qed.

Lemma get_logger_after_failed_setup_witness :
  ∃ w2, run (get_logger "pdf_service") read_only_env
          (run (setup_logging "debug" (Some ["logs"; "druck.log"]) false) read_only_env
             sample_world).1
        = (w2, Return ("skriptendruck." +:+ "pdf_service"))
    ∧ skriptendruck w2 = {| handlers := [RichHandler logging_INFO]; level := logging_INFO;
                            propagate := false |}
    ∧ _logging_configured w2 = true.
Proof.
  apply (get_logger_after_failed_setup read_only_env sample_world _ "debug"
           (Some ["logs"; "druck.log"]) false (Exc PermissionError "/logs/druck.log")
           "pdf_service").
  - reflexivity.
  - vm_compute. reflexivity.
Defined.

(** ** commands.py: credentials *)

Lemma slice_to_prefix (n : nat) (s : string) : String.prefix (slice_to n s) s = true.
Proof.
  revert n. induction s as [|a rest IH]; intros n; [done|]. cbn.
  destruct (is_continuation a); [|destruct n as [|n']; [done|]]; cbn;
    (destruct (ascii_dec a a); [apply IH|done]).
Qed.

Lemma len_slice_to (n : nat) (s : string) : len (slice_to n s) = (n `min` len s)%nat.
Proof.
  revert n. induction s as [|a rest IH]; intros n; [cbn; lia|]. cbn.
  destruct (is_continuation a) eqn:Ha.
  - cbn. rewrite Ha. apply IH.
  - destruct n as [|n']; [done|]. cbn. rewrite Ha, IH. lia.
Qed.

(** X21: what [credentials check] shows of a secret.  The masked value is
    three stars after a piece of the secret; the piece is the first three
    characters of a secret longer than three characters and nothing of a
    shorter one.  So two secrets longer than three that begin alike look
    alike, and every secret of up to three characters looks the same.
    Characters are counted as Python counts them, not bytes. *)
Theorem masked_shows_prefix (value : string) :
  ∃ shown, masked value = shown +:+ "***"
    ∧ (len shown ≤ 3)%nat
    ∧ String.prefix shown value = true
    ∧ ((len value ≤ 3)%nat → shown = "")
    ∧ ((3 < len value)%nat → len shown = 3%nat).
Proof.
  unfold masked. destruct (Nat.ltb_spec 3 (len value)) as [Hlong|Hshort].
  - exists (slice_to 3 value). split; [done|]. rewrite len_slice_to.
    split; [lia|]. split; [apply slice_to_prefix|]. split; lia.
  - exists "". split; [done|]. split; [cbn; lia|]. split; [by destruct value|].
    split; [done|lia].
Qed.

Lemma cli_bind_run {A B} (m : Cli A) (k : A → Cli B) (out : list string) (E : env)
    (l : locals) (w : world) :
  (m ≫= k) out E l w
  = match m out E l w with
    | (l', w', Return (a, out')) => k a out' E l' w'
    | (l', w', Raise e) => (l', w', Raise e)
    end.
Proof.
  unfold mbind at 1, Cli_bind. rewrite bind_run.
  destruct (m out E l w) as [[l' w'] [[a out']|e]]; reflexivity.
Qed.

Ltac cli_step :=
  lazymatch goal with
  | |- context [@mbind Cli _ _ _ ?k ?m ?o ?x ?y ?z] => rewrite (cli_bind_run m k o x y z)
  end.

(** A line is printed, or the command ends in the error of the markup. *)
Ltac cli_print :=
  lazymatch goal with
  | |- context [markup_fails ?E ?s] =>
      destruct (markup_fails E s); cbv beta iota;
      [unfold raise; cbv beta iota; discriminate|]
  end.

(** Run the statements of a command as far as they are known. *)
Ltac cli_go := repeat (first [cli_step | bind_step | cli_print]; cbv beta iota).

(** A set-up without log file that returns leaves the files alone. *)
Lemma setup_logging_no_file_fs (E : env) (w w1 : world) (l l1 : locals)
    (level_name : string) (use_rich : bool) (r : result unit) :
  call (setup_logging level_name None use_rich) E l w = (l1, w1, r) →
  l1 = l ∧ fs w1 = fs w.
Proof.
  unfold call. intros Hrun.
  destruct (setup_logging_outcome E w level_name None use_rich) as (w' & r' & Hrun' & _ & Hfs & _).
  unfold run in Hrun'.
  destruct (setup_logging level_name None use_rich E no_locals w) as [[l0 w0] r0].
  injection Hrun' as -> ->. injection Hrun as <- <- <-. split; [done|]. by apply Hfs.
Qed.

(** The loop of [credentials delete]: a file of the list that is there is
    removed, nothing else is touched and nothing is created; the flag tells
    whether anything was removed, and every line printed reports a removal. *)
Lemma delete_files_run (fnames : list path) :
  ∀ (deleted : bool) (out : list string) (E : env) (l : locals) (w : world)
    (l' : locals) (w' : world) (d : bool) (out' : list string),
    delete_files fnames deleted out E l w = (l', w', Return (d, out')) →
    l' = l
    ∧ Forall (λ p, exists_ (fs w') p = false) fnames
    ∧ (∀ p, exists_ (fs w) p = false → exists_ (fs w') p = false)
    ∧ (∀ p, p ∉ fnames → fs w' !! p = fs w !! p)
    ∧ d = deleted || existsb (exists_ (fs w)) fnames
    ∧ ∃ added, out' = out ++ added
        ∧ Forall (λ s, ∃ p, s = "[green]✓[/green] Gelöscht: " +:+ str_of_path p) added.
Proof.
  induction fnames as [|fname rest IH]; intros deleted out E l w l' w' d out' Hrun.
  - injection Hrun as <- <- <- <-. repeat split; try done.
    + by rewrite orb_false_r.
    + exists []. by rewrite app_nil_r.
  - cbn [delete_files] in Hrun. rewrite cli_bind_run in Hrun.
    unfold lift at 1 in Hrun. rewrite bind_run in Hrun.
    unfold path_exists at 1 in Hrun. rewrite bind_run in Hrun.
    unfold ask at 1 in Hrun. cbv beta iota in Hrun.
    destruct (stat_denied E fname); [discriminate|].
    change ((get_fs ≫= λ m, mret (exists_ m fname)) E l w)
      with (l, w, Return (exists_ (fs w) fname)) in Hrun.
    unfold mret at 1, Py_ret at 1 in Hrun. cbv beta iota in Hrun. cbn [existsb].
    destruct (exists_ (fs w) fname) eqn:Hex.
    + rewrite cli_bind_run in Hrun. unfold lift at 1 in Hrun. rewrite bind_run in Hrun.
      unfold call at 1, unlink_strict in Hrun. rewrite bind_run in Hrun.
      unfold get_fs at 1 in Hrun. cbv beta iota in Hrun.
      destruct fname as [|a q] eqn:Hfname; [discriminate|]. rewrite <- Hfname in *.
      assert (Hne : fname ≠ []) by (by rewrite Hfname).
      clear Hfname.
      destruct (fs w !! fname) as [[|data]|] eqn:Hp; try discriminate.
      rewrite bind_run in Hrun. unfold ask at 1 in Hrun. cbv beta iota in Hrun.
      destruct (unlink_denied E fname); [discriminate|].
      unfold put_fs at 1, mret at 1, Py_ret at 1 in Hrun. cbv beta iota in Hrun.
      rewrite cli_bind_run in Hrun. unfold console_print at 1 in Hrun.
      rewrite bind_run in Hrun. unfold ask at 1 in Hrun. cbv beta iota in Hrun.
      destruct (markup_fails E _); [discriminate|].
      unfold mret at 1, Py_ret at 1 in Hrun. cbv beta iota in Hrun.
      apply IH in Hrun as (-> & Hall & Hmono & Hfs & -> & added & -> & Hadded).
      cbn [fs] in Hmono, Hfs.
      assert (Hgone : ∀ p, exists_ (fs w) p = false → exists_ (delete fname (fs w)) p = false).
      { intros p Hq. apply exists_false in Hq as [Hq Hq']. unfold exists_.
        destruct p; [done|]. rewrite lookup_delete_ne by congruence. by rewrite Hq. }
      split; [done|]. split; [|split; [|split; [|split]]].
      * constructor; [|done]. apply Hmono. unfold exists_. destruct fname; [done|].
        by rewrite lookup_delete_eq.
      * intros p Hq. apply Hmono. by apply Hgone.
      * intros p Hq. rewrite Hfs by (intros ?; apply Hq; by right).
        apply lookup_delete_ne. intros ->. apply Hq. by left.
      * by rewrite orb_true_r.
      * eexists. rewrite <- app_assoc. split; [reflexivity|]. constructor; [by eexists|done].
    + destruct (IH deleted out E l w l' w' d out' Hrun) as (-> & Hall & Hmono & Hfs & -> & Hout).
      split; [done|]. split; [constructor; [by apply Hmono|done]|]. split; [done|].
      split; [|done]. intros p Hp. apply Hfs. intros ?. apply Hp. by right.
Qed.


(** X22: [credentials delete].  When the command returns, neither the
    credentials file nor the key file is there, no other file or directory
    was touched, and the exit code is 0; it reports that nothing was found
    exactly when neither file was there before.  (It does not return when a
    file that is there cannot be removed.) *)
Theorem credentials_delete_outcome (settings_log_level : string)
    (settings_ldap_bind_dn : option string) (CREDENTIALS_FILE KEY_FILE : path)
    (has_credentials : Py bool) (load_credentials : Py (option (list (string * string))))
    (save_credentials : list (string * string) → Py path)
    (typer_prompt : string → option string → bool → Py string)
    (E : env) (w w' : world) (code : Z) (out : list string) :
  run (credentials settings_log_level settings_ldap_bind_dn CREDENTIALS_FILE KEY_FILE
         has_credentials load_credentials save_credentials typer_prompt "delete" []) E w
    = (w', Return (code, out)) →
  code = 0
  ∧ exists_ (fs w') CREDENTIALS_FILE = false ∧ exists_ (fs w') KEY_FILE = false
  ∧ (∀ p, p ≠ CREDENTIALS_FILE → p ≠ KEY_FILE → fs w' !! p = fs w !! p)
  ∧ (In "[yellow]Keine Credentials-Dateien gefunden[/yellow]" out
     ↔ exists_ (fs w) CREDENTIALS_FILE = false ∧ exists_ (fs w) KEY_FILE = false).
Proof.
  unfold run, credentials. intros Hrun. rewrite cli_bind_run in Hrun.
  unfold lift at 1 in Hrun. rewrite bind_run in Hrun.
  destruct (call (setup_logging settings_log_level None true) E no_locals w)
    as [[l1 w1] r1] eqn:Hs.
  apply setup_logging_no_file_fs in Hs as [-> Hfs1].
  destruct r1 as [[]|e1]; [|discriminate].
  unfold mret at 1, Py_ret at 1 in Hrun. cbv beta iota in Hrun.
  change (String.eqb "delete" "check") with false in Hrun.
  change (String.eqb "delete" "delete") with true in Hrun. cbv iota in Hrun.
  rewrite cli_bind_run in Hrun.
  destruct (delete_files [CREDENTIALS_FILE; KEY_FILE] false [] E no_locals w1)
    as [[l2 w2] [[deleted out2]|e2]] eqn:Hdel; [|discriminate].
  apply delete_files_run in Hdel as (-> & Hall & _ & Hfs & -> & added & -> & Hadded).
  rewrite Hfs1 in *. cbn [existsb orb] in Hrun.
  inversion Hall as [|? ? Hc Hall']. inversion Hall' as [|? ? Hk _]. subst.
  assert (Hframe : ∀ p, p ≠ CREDENTIALS_FILE → p ≠ KEY_FILE → fs w2 !! p = fs w !! p).
  { intros p H1 H2. apply Hfs. rewrite !not_elem_of_cons. split; [done|]. split; [done|].
    apply not_elem_of_nil. }
  assert (Hgreen : ¬ In "[yellow]Keine Credentials-Dateien gefunden[/yellow]" added).
  { intros Hin. apply (proj1 (List.Forall_forall _ _) Hadded) in Hin as [p Hp].
    discriminate. }
  rewrite cli_bind_run in Hrun.
  destruct (exists_ (fs w) CREDENTIALS_FILE), (exists_ (fs w) KEY_FILE);
    cbn in Hrun;
    try (unfold console_print, mbind, Py_bind, ask in Hrun;
         destruct (markup_fails E _); [discriminate|]; cbn in Hrun);
    injection Hrun as <- <- <-; repeat split; try done.
  all: try (intros Hin; exfalso; by apply Hgreen).
  all: try (by intros [? ?]).
  intros _. apply in_or_app. right. by left.
Qed.

Lemma credentials_delete_outcome_witness :
  0 = 0
  ∧ exists_ (fs (run (sample_credentials "delete" []) fair_env (world_of credentials_files)).1)
      ["etc"; "credentials.enc"] = false
  ∧ exists_ (fs (run (sample_credentials "delete" []) fair_env (world_of credentials_files)).1)
      ["etc"; "credentials.key"] = false
  ∧ (∀ p, p ≠ ["etc"; "credentials.enc"] → p ≠ ["etc"; "credentials.key"] →
       fs (run (sample_credentials "delete" []) fair_env (world_of credentials_files)).1 !! p
       = fs (world_of credentials_files) !! p)
  ∧ (In "[yellow]Keine Credentials-Dateien gefunden[/yellow]"
       ["[green]✓[/green] Gelöscht: /etc/credentials.enc";
        "[green]✓[/green] Gelöscht: /etc/credentials.key"]
     ↔ exists_ (fs (world_of credentials_files)) ["etc"; "credentials.enc"] = false
       ∧ exists_ (fs (world_of credentials_files)) ["etc"; "credentials.key"] = false).
Proof.
  apply (credentials_delete_outcome "INFO" None ["etc"; "credentials.enc"]
           ["etc"; "credentials.key"] (mret true) (mret None)
           (λ _, mret ["etc"; "credentials.enc"]) mistyped_prompt fair_env
           (world_of credentials_files)).
  vm_compute. reflexivity.
Defined.

(** X23: [credentials setup] saves nothing when the two passwords differ.
    A run that ends in [raise typer.Exit(1)] never called
    [save_credentials]: with any other way of saving it ends in the same
    state with the same output, whose last line says that the passwords do
    not match.  (A run that ends in an exception nothing catches, as one
    raised by [save_credentials] itself, is not such a run, although the
    process then has the exit code 1 as well.) *)
Theorem credentials_setup_mismatch (settings_log_level : string)
    (settings_ldap_bind_dn : option string) (CREDENTIALS_FILE KEY_FILE : path)
    (has_credentials : Py bool) (load_credentials : Py (option (list (string * string))))
    (save_credentials save_credentials' : list (string * string) → Py path)
    (typer_prompt : string → option string → bool → Py string)
    (E : env) (w w' : world) (out : list string) :
  run (credentials settings_log_level settings_ldap_bind_dn CREDENTIALS_FILE KEY_FILE
         has_credentials load_credentials save_credentials typer_prompt "setup" []) E w
    = (w', Return (1, out)) →
  run (credentials settings_log_level settings_ldap_bind_dn CREDENTIALS_FILE KEY_FILE
         has_credentials load_credentials save_credentials' typer_prompt "setup" []) E w
    = (w', Return (1, out))
  ∧ last out = Some "[red]Passwörter stimmen nicht überein![/red]".
Proof.
  unfold run, credentials, lift, console_print, ask, mret, Cli_ret, Py_ret.
  change (String.eqb "setup" "check") with false.
  change (String.eqb "setup" "delete") with false.
  change (String.eqb "setup" "setup") with true. cbv iota.
  cli_go.
  destruct (call (setup_logging settings_log_level None true) E no_locals w)
    as [[l1 w1] [[]|e1]]; [|discriminate].
  cli_go.
  do 3 (match goal with
        | |- context [call (typer_prompt ?t ?d ?h) ?E0 ?l0 ?w0] =>
            destruct (call (typer_prompt t d h) E0 l0 w0) as [[? ?] [?|?]]; [|discriminate]
        end; cli_go).
  match goal with
  | |- context [String.eqb ?a ?b] => destruct (String.eqb a b)
  end; cbn [negb]; cbv iota; cli_go.
  - match goal with
    | |- context [call (save_credentials ?x) ?E0 ?l0 ?w0] =>
        destruct (call (save_credentials x) E0 l0 w0) as [[? ?] [?|?]]; [|discriminate]
    end.
    cli_go. discriminate.
  - intros [= <- <-]. split; reflexivity.
Qed.

Lemma credentials_setup_mismatch_witness :
  run (credentials "INFO" None ["etc"; "credentials.enc"] ["etc"; "credentials.key"]
         (mret true) (mret None) (λ _, raise (Exc OSError "disk full")) mistyped_prompt
         "setup" []) fair_env (world_of credentials_files)
    = ((run (sample_credentials "setup" []) fair_env (world_of credentials_files)).1,
       Return (1, [nl +:+ "[bold blue]LDAP-Credentials einrichten[/bold blue]" +:+ nl;
                   "Das Passwort wird verschlüsselt gespeichert und muss nicht" +:+ nl
                   +:+ "in der .env Datei stehen." +:+ nl;
                   "[red]Passwörter stimmen nicht überein![/red]"]))
  ∧ last [nl +:+ "[bold blue]LDAP-Credentials einrichten[/bold blue]" +:+ nl;
          "Das Passwort wird verschlüsselt gespeichert und muss nicht" +:+ nl
          +:+ "in der .env Datei stehen." +:+ nl;
          "[red]Passwörter stimmen nicht überein![/red]"]
    = Some "[red]Passwörter stimmen nicht überein![/red]".
Proof.
  apply (credentials_setup_mismatch "INFO" None ["etc"; "credentials.enc"]
           ["etc"; "credentials.key"] (mret true) (mret None)
           (λ _, mret ["etc"; "credentials.enc"]) (λ _, raise (Exc OSError "disk full"))
           mistyped_prompt fair_env (world_of credentials_files)).
  vm_compute. reflexivity.
Defined.

(** ** config/logging.py, over a whole run *)

(** A call into [logging.py] leaves the root logger as it was or secures
    it. *)
Lemma do_call_root (E : env) (w : world) (k : logging_call) :
  root (run (do_call k) E w).1 = root w
  ∨ root (run (do_call k) E w).1 = secured_root (root w).
Proof.
  destruct k as [level_name log_file use_rich|name]; cbn [do_call].
  - destruct (setup_logging_outcome E w level_name log_file use_rich)
      as (w' & r & -> & _ & _ & H).
    destruct r as [[]|e]; cbn; [right|left]; by destruct H.
  - unfold run. rewrite bind_run.
    destruct (_logging_configured w) eqn:Hcfg.
    + pose proof (get_logger_configured E w name Hcfg) as H. unfold run in H.
      destruct (get_logger name E no_locals w) as [[l1 w1] r1].
      injection H as -> ->. by left.
    + pose proof (get_logger_unconfigured E w name Hcfg) as H. unfold run in H.
      destruct (get_logger name E no_locals w) as [[l1 w1] r1].
      injection H as -> ->. by right.
Qed.

(** X24: the root logger over a whole run.  Whatever calls a program makes
    into [logging.py], in whatever order and whether they return or raise,
    the root logger keeps the handlers it had; one [NullHandler] is added,
    and only when it had no handler, so it is never added twice.  The level
    of the root logger is the one it had or [WARNING], and its propagation
    is untouched. *)
Theorem after_calls_root (E : env) (calls : list logging_call) (w : world) :
  (handlers (root (after_calls E calls w)) = handlers (root w)
   ∨ (handlers (root w) = [] ∧ handlers (root (after_calls E calls w)) = [NullHandler]))
  ∧ (level (root (after_calls E calls w)) = level (root w)
     ∨ level (root (after_calls E calls w)) = logging_WARNING)
  ∧ propagate (root (after_calls E calls w)) = propagate (root w).
Proof.
  revert w. induction calls as [|k calls IH]; intros w; [cbn; auto|].
  cbn [after_calls]. destruct (IH (run (do_call k) E w).1) as (Hh & Hl & Hp).
  destruct (do_call_root E w k) as [Hr|Hr]; rewrite Hr in Hh, Hl, Hp; [done|].
  unfold secured_root in Hh, Hl, Hp. cbn in Hh, Hl, Hp.
  split; [|split; [|done]].
  - destruct (handlers (root w)) as [|h hs] eqn:Hw.
    + right. split; [done|]. by destruct Hh as [?|[? _]].
    + left. by destruct Hh as [?|[? _]].
  - right. by destruct Hl.
Qed.

(** The handlers [setup_logging] leaves on the logger, for every level
    name: none when the level is refused, otherwise the console handler and
    at most the file handler. *)
Lemma setup_logging_handlers_any (E : env) (w : world) (level_name : string)
    (log_file : option path) (use_rich : bool) :
  handlers (skriptendruck (run (setup_logging level_name log_file use_rich) E w).1) = []
  ∨ ∃ n, handlers (skriptendruck (run (setup_logging level_name log_file use_rich) E w).1)
         = [console_handler use_rich n]
       ∨ ∃ lf, handlers (skriptendruck
                           (run (setup_logging level_name log_file use_rich) E w).1)
               = [console_handler use_rich n;
                  FileHandler lf (Some file_formatter) logging_DEBUG].
Proof.
  destruct (logging_getattr_cases (str_upper E level_name) (PyInt logging_INFO))
    as [[n Hn]|[Hn|[Hn|Hn]]].
  2, 3: left; unfold run, setup_logging; rewrite bind_run;
    change (upper level_name E no_locals w)
      with (no_locals, w, Return (str_upper E level_name));
    cbv beta iota; rewrite Hn; reflexivity.
  all: right; eexists;
    pose proof (setup_logging_run E w level_name log_file use_rich _ Hn) as H;
    destruct log_file as [lf|];
    [destruct H as (m1 & [[]|e] & _ & ->); cbn; eauto|rewrite H; cbn; eauto].
Qed.

(** After a call the logger has at most one console handler and at most one
    file handler, when it had so before or logging was not configured. *)
Lemma do_call_no_duplicates (E : env) (w : world) (k : logging_call) :
  ((console_handlers (skriptendruck w) ≤ 1)%nat ∧ (file_handlers (skriptendruck w) ≤ 1)%nat)
  ∨ _logging_configured w = false →
  (console_handlers (skriptendruck (run (do_call k) E w).1) ≤ 1)%nat
  ∧ (file_handlers (skriptendruck (run (do_call k) E w).1) ≤ 1)%nat.
Proof.
  assert (Hsetup : ∀ level_name log_file use_rich,
    (console_handlers
       (skriptendruck (run (setup_logging level_name log_file use_rich) E w).1) ≤ 1)%nat
    ∧ (file_handlers
         (skriptendruck (run (setup_logging level_name log_file use_rich) E w).1) ≤ 1)%nat).
  { intros level_name log_file use_rich.
    unfold console_handlers, file_handlers.
    destruct (setup_logging_handlers_any E w level_name log_file use_rich)
      as [->|(n & [->|(lf & ->)])]; destruct use_rich; cbn; lia. }
  intros Hw. destruct k as [level_name log_file use_rich|name]; cbn [do_call].
  - apply Hsetup.
  - unfold run. rewrite bind_run.
    destruct (_logging_configured w) eqn:Hcfg.
    + pose proof (get_logger_configured E w name Hcfg) as H. unfold run in H.
      destruct (get_logger name E no_locals w) as [[l1 w1] r1].
      injection H as -> ->. cbn. by destruct Hw.
    + pose proof (get_logger_unconfigured E w name Hcfg) as H. unfold run in H.
      destruct (get_logger name E no_locals w) as [[l1 w1] r1].
      injection H as -> ->. cbn. unfold console_handlers, file_handlers. cbn. lia.
Qed.

(** X25: no handler twice.  Let a program start with logging not configured,
    or with a logger that has at most one console handler and at most one
    file handler.  Then after every sequence of calls into [logging.py],
    with whatever level names and log files and whether the calls return or
    raise, the logger has at most one console handler and at most one file
    handler. *)
Theorem after_calls_no_duplicates (E : env) (calls : list logging_call) :
  ∀ (w : world) (k : logging_call),
    ((console_handlers (skriptendruck w) ≤ 1)%nat
     ∧ (file_handlers (skriptendruck w) ≤ 1)%nat)
    ∨ _logging_configured w = false →
    (console_handlers (skriptendruck (after_calls E (k :: calls) w)) ≤ 1)%nat
    ∧ (file_handlers (skriptendruck (after_calls E (k :: calls) w)) ≤ 1)%nat.
Proof.
  induction calls as [|k' calls IH]; intros w k Hw.
  - cbn. by apply do_call_no_duplicates.
  - change (after_calls E (k :: k' :: calls) w)
      with (after_calls E (k' :: calls) (run (do_call k) E w).1).
    apply IH. left. by apply do_call_no_duplicates.
Qed.

Lemma after_calls_no_duplicates_witness :
  (console_handlers
     (skriptendruck
        (after_calls fair_env
           [GetLogger "cli"; SetupLogging "basic_format" None true;
            SetupLogging "debug" (Some ["logs"; "druck.log"]) false;
            SetupLogging "debug" (Some ["logs"; "druck.log"]) false]
           sample_world)) ≤ 1)%nat
  ∧ (file_handlers
       (skriptendruck
          (after_calls fair_env
             [GetLogger "cli"; SetupLogging "basic_format" None true;
              SetupLogging "debug" (Some ["logs"; "druck.log"]) false;
              SetupLogging "debug" (Some ["logs"; "druck.log"]) false]
             sample_world)) ≤ 1)%nat.
Proof.
  apply (after_calls_no_duplicates fair_env
           [SetupLogging "basic_format" None true;
            SetupLogging "debug" (Some ["logs"; "druck.log"]) false;
            SetupLogging "debug" (Some ["logs"; "druck.log"]) false]
           sample_world (GetLogger "cli")).
  right. reflexivity.
Defined.

(** ** The layout of a cover sheet *)

Lemma page_size :
  (595 <= width)%Q ∧ (width <= 596)%Q ∧ (841 <= height)%Q ∧ (height <= 842)%Q.
Proof. repeat split; apply Qle_bool_iff; vm_compute; reflexivity. Qed.

(** The left column holds the labels and the values within the margins. *)
Lemma columns_within_margins :
  (margin <= label_x)%Q ∧ (label_x <= right_margin)%Q
  ∧ (margin <= value_x)%Q ∧ (value_x <= right_margin)%Q
  ∧ (margin <= thumb_col_x)%Q ∧ (thumb_col_x <= right_margin)%Q
  ∧ (margin <= right_margin)%Q.
Proof. repeat split; apply Qle_bool_iff; vm_compute; reflexivity. Qed.

Lemma sets_block_ret : sets_block 0 (mret tt).
Proof.
  split; [lra|]. intros E l w Hlo Hhi. exists l. split; [reflexivity|].
  split; [done|]. split; [lra|]. split; [lra|]. exists []. by rewrite app_nil_r.
Qed.

Lemma sets_block_weaken (d d' : Q) (m : Py unit) :
  sets_block d m → (d <= d')%Q → sets_block d' m.
Proof.
  intros [Hd Hm] Hle. split; [lra|]. intros E l w Hlo Hhi.
  destruct (Hm E l w) as (l' & -> & Hi & Hy & Hy' & added & Hc & Hall); [lra..|].
  exists l'. split; [reflexivity|]. split; [done|]. split; [lra|]. split; [lra|]. eauto.
Qed.

Lemma sets_block_bind (d1 d2 : Q) (m : Py unit) (k : unit → Py unit) :
  sets_block d1 m → sets_block d2 (k tt) → sets_block (d1 + d2) (m ≫= k).
Proof.
  intros [Hd1 Hm] [Hd2 Hk]. split; [lra|]. intros E l w Hlo Hhi. rewrite bind_run.
  destruct (Hm E l w) as (l1 & -> & Hi1 & Hy1 & Hy1' & a1 & Hc1 & Ha1); [lra..|].
  destruct (Hk E l1 w) as (l2 & -> & Hi2 & Hy2 & Hy2' & a2 & Hc2 & Ha2); [lra..|].
  exists l2. split; [reflexivity|]. split; [congruence|]. split; [lra|]. split; [lra|].
  exists (a1 ++ a2). split; [by rewrite Hc2, Hc1, app_assoc|by apply Forall_app].
Qed.

(** [c.drawString(x, y, text)] and the like, at the current [y]. *)
Lemma sets_block_at_y (op : Q → canvas_op) :
  (∀ v, (height - 380 <= v)%Q → (v <= height - 40)%Q → set_on_page (op v)) →
  sets_block 0 (get_local y ≫= λ y0, draw (op y0)).
Proof.
  intros Hop. split; [lra|]. intros E l w Hlo Hhi. eexists. split; [reflexivity|]. cbn.
  split; [done|]. split; [lra|]. split; [lra|].
  exists [op (y l)]. split; [done|]. constructor; [|constructor]. apply Hop; lra.
Qed.

Lemma sets_block_at_y_then (d : Q) (op : Q → canvas_op) (k : unit → Py unit) :
  (∀ v, (height - 380 <= v)%Q → (v <= height - 40)%Q → set_on_page (op v)) →
  sets_block d (k tt) →
  sets_block d (get_local y ≫= λ y0, draw (op y0) ≫= k).
Proof.
  intros Hop [Hd Hk]. split; [done|]. intros E l w Hlo Hhi.
  rewrite bind_run. unfold get_local at 1. cbv beta iota. rewrite bind_run.
  unfold draw at 1, put_local at 1. cbv beta iota.
  match goal with
  | |- context [k tt E ?l0 w] =>
      destruct (Hk E l0 w) as (l2 & -> & Hi2 & Hy2 & Hy2' & a2 & Hc2 & Ha2); [cbn; lra..|]
  end.
  cbn in Hi2, Hy2, Hy2', Hc2.
  exists l2. split; [reflexivity|]. split; [done|]. split; [lra|]. split; [lra|].
  exists ([op (y l)] ++ a2). split; [by rewrite Hc2, app_assoc|].
  constructor; [apply Hop; lra|done].
Qed.

(** An operation that is on the page wherever [y] is. *)
Lemma sets_block_draw (o : canvas_op) : set_on_page o → sets_block 0 (draw o).
Proof.
  intros Ho. split; [lra|]. intros E l w Hlo Hhi. eexists. split; [reflexivity|]. cbn.
  split; [done|]. split; [lra|]. split; [lra|].
  exists [o]. split; [done|]. by constructor.
Qed.

Lemma sets_block_sub_y (d : Q) : (0 <= d)%Q → sets_block d (sub_y d).
Proof.
  intros Hd. split; [done|]. intros E l w Hlo Hhi. eexists. split; [reflexivity|]. cbn.
  split; [done|]. split; [lra|]. split; [lra|]. exists []. by rewrite app_nil_r.
Qed.

(** One statement of a block after the other; the heights add up. *)
Ltac block_step :=
  cbv beta;
  lazymatch goal with
  | |- sets_block _ (mret _) => apply sets_block_ret
  | |- sets_block _ (sub_y _) =>
      apply sets_block_sub_y; apply Qle_bool_iff; vm_compute; reflexivity
  | |- sets_block _ (draw _) => apply sets_block_draw; exact I
  | |- sets_block _ (get_local y ≫= λ y0, draw _ ≫= _) =>
      eapply sets_block_at_y_then;
      [intros v Hlo Hhi; pose proof columns_within_margins as (? & ? & ? & ? & ? & ? & ?);
       first [exact I | cbn; split; [done|split; [done|right; split; done]]]|]
  | |- sets_block _ (get_local y ≫= λ y0, draw _) =>
      eapply sets_block_at_y;
      intros v Hlo Hhi; pose proof columns_within_margins as (? & ? & ? & ? & ? & ? & ?);
      first [exact I | cbn; split; [done|split; [done|right; split; done]]]
  | |- sets_block _ (_ ≫= _) => eapply sets_block_bind
  end.

Ltac block := repeat block_step.

Lemma draw_field_layout (label value : string) (bold_value : bool) :
  sets_block 20 (draw_field label value bold_value).
Proof.
  eapply sets_block_weaken; [unfold draw_field; block|].
  apply Qle_bool_iff; vm_compute; reflexivity.
Qed.

(** The height of a block is what its statements add up to, or more. *)
Ltac block_of_height :=
  eapply sets_block_weaken; [block|apply Qle_bool_iff; vm_compute; reflexivity].

Lemma draw_order_info_layout (order : Order) : sets_block 88 (draw_order_info order).
Proof.
  unfold draw_order_info. destruct (truthy_int (page_count order)).
  all: eapply sets_block_weaken;
    [block; apply draw_field_layout|apply Qle_bool_iff; vm_compute; reflexivity].
Qed.

Lemma draw_price_layout (order : Order) : sets_block 106 (draw_price order).
Proof.
  unfold draw_price. destruct (price_calculation order) as [calc|]; cbv zeta.
  all: eapply sets_block_weaken;
    [block; apply draw_field_layout|apply Qle_bool_iff; vm_compute; reflexivity].
Qed.

Lemma draw_filename_warning_layout (order : Order) :
  sets_block 50 (draw_filename_warning order).
Proof.
  unfold draw_filename_warning. destruct (String.eqb _ _).
  all: block_of_height.
Qed.

(** The name block starts from the top, whatever [y] was, and ends no lower
    than 136 points below the top edge. *)
Lemma draw_name_layout (order : Order) (E : env) (l : locals) (w : world) :
  ∃ l', draw_name order E l w = (l', w, Return tt)
    ∧ (height - 136 <= y l')%Q ∧ (y l' <= height - 75)%Q
    ∧ ∃ added, c l' = c l ++ added ∧ Forall set_on_page added.
Proof.
  unfold draw_name. rewrite bind_run. unfold set_y at 1, put_local at 1. cbv beta iota.
  match goal with
  | |- context [?m E ?l0 w] =>
      assert (Hrest : sets_block 61 m);
      [|destruct Hrest as [_ Hrest];
        destruct (Hrest E l0 w) as (l' & -> & _ & Hy & Hy' & added & Hc & Hall);
        [cbn; lra..|]]
  end.
  - destruct (user order) as [u|]; block_of_height.
  - cbn in Hy, Hy', Hc. exists l'. split; [reflexivity|]. split; [lra|]. split; [lra|].
    by exists added.
Qed.

Lemma draw_header_layout (E : env) (l : locals) (w : world) :
  ∃ l', draw_header E l w = (l', w, Return tt)
    ∧ ∃ added, c l' = c l ++ added ∧ Forall set_on_page added.
Proof.
  pose proof page_size as (? & ? & ? & ?).
  pose proof columns_within_margins as (? & ? & ? & ? & ? & ? & ?).
  unfold draw_header. repeat (rewrite bind_run; unfold draw at 1, put_local at 1; cbv beta iota).
  eexists. split; [reflexivity|]. cbn [c]. eexists. rewrite <- !app_assoc.
  split; [reflexivity|]. cbn [app].
  repeat (apply List.Forall_cons; [first [exact I|cbn; split; [lra|split; [lra|right; lra]]]|]).
  apply List.Forall_nil.
Qed.

Lemma draw_footer_layout (order : Order) (E : env) (l : locals) (w : world) :
  ∃ l', draw_footer order E l w = (l', w, Return tt)
    ∧ ∃ added, c l' = c l ++ added ∧ Forall set_on_page added.
Proof.
  pose proof columns_within_margins as (? & ? & ? & ? & ? & ? & ?).
  unfold draw_footer. repeat (rewrite bind_run; unfold draw at 1, put_local at 1; cbv beta iota).
  eexists. split; [reflexivity|]. cbn [c]. eexists. rewrite <- !app_assoc.
  split; [reflexivity|]. cbn [app].
  repeat (apply List.Forall_cons;
          [first [exact I|cbn; split; [lra|split; [lra|left; reflexivity]]]|]).
  apply List.Forall_nil.
Qed.

(** Texts at known places. *)
Ltac texts_ok :=
  cbn [app];
  repeat (apply List.Forall_cons;
          [first [exact I
                 |cbn; split; [lra|split; [lra|first [left; reflexivity|right; lra]]]]|]);
  apply List.Forall_nil.

(** The thumbnail block never raises and leaves [y] alone; the one text it
    may draw, the label, sits four points above the top of the order
    data. *)
Lemma draw_thumbnail_layout (E : env) (l : locals) (w : world) :
  (height - 380 <= info_top_y l + 4)%Q → (info_top_y l + 4 <= height - 40)%Q →
  ∃ l' w', draw_thumbnail E l w = (l', w', Return tt)
    ∧ y l' = y l
    ∧ ∃ added, c l' = c l ++ added ∧ Forall set_on_page added.
Proof.
  intros Hlo Hhi.
  pose proof columns_within_margins as (? & ? & ? & ? & ? & ? & ?).
  unfold draw_thumbnail. bind_step. unfold get_local at 1. cbv beta iota.
  destruct (thumbnail_path l) as [t|] eqn:Ht.
  2: { exists l, w. split; [reflexivity|]. split; [done|].
       exists []. rewrite app_nil_r. split; [done|constructor]. }
  unfold try_except, embed_thumbnail. bind_step.
  destruct (ImageReader_getSize_pure t E l w) as (r & Hrun & _). rewrite Hrun.
  destruct r as [[img_w img_h]|e]; cbv beta iota.
  2: { unfold logger. eexists _, _. split; [reflexivity|]. split; [done|].
       exists []. rewrite app_nil_r. split; [done|constructor]. }
  bind_step. unfold get_local at 1. cbv beta iota. bind_step. unfold truediv at 1.
  destruct (img_w =? 0)%Z.
  { unfold logger, raise. eexists _, _. split; [reflexivity|]. split; [done|].
    exists []. rewrite app_nil_r. split; [done|constructor]. }
  unfold mret at 1, Py_ret at 1. cbv beta iota. bind_step. unfold truediv at 1.
  destruct (img_h =? 0)%Z.
  { unfold logger, raise. eexists _, _. split; [reflexivity|]. split; [done|].
    exists []. rewrite app_nil_r. split; [done|constructor]. }
  unfold mret at 1, Py_ret at 1. cbv beta iota zeta.
  do 7 (bind_step; unfold draw at 1, put_local at 1; cbv beta iota).
  unfold c_drawImage. bind_step.
  match goal with
  | |- context [ImageReader_getSize t E ?l0 w] =>
      destruct (ImageReader_getSize_pure t E l0 w) as (r' & Hrun' & _)
  end.
  rewrite Hrun'. cbv beta iota.
  destruct r' as [size'|e'].
  2: { unfold logger. eexists _, _. split; [reflexivity|]. cbn [y c]. split; [done|].
       eexists. rewrite <- !app_assoc. split; [reflexivity|]. texts_ok. }
  bind_step. unfold ask at 1. cbv beta iota.
  destruct (draw_image_fails E); unfold logger, raise, draw, put_local; eexists _, _;
    (split; [reflexivity|]); cbn [y c];
    (split; [done|]); eexists; rewrite <- !app_assoc; (split; [reflexivity|]); texts_ok.
Qed.

(** Every text of a cover sheet is set on the page, whatever the order is
    and whether or not the sheet can be saved. *)
Lemma create_coversheet_layout (E : env) (w : world) (order : Order) (out : path) :
  ∃ l' w' b, create_coversheet order out E no_locals w = (l', w', Return b)
    ∧ Forall set_on_page (c l').
Proof.
  destruct (mkdir_parents_fs out E no_locals w) as (w1 & r1 & Hmk & _).
  unfold create_coversheet. bind_step.
  change (set_thumbnail_path None E no_locals w) with (no_locals, w, Return tt).
  cbv beta iota. unfold try_finally, try_except. bind_step. rewrite Hmk. cbv beta iota.
  destruct r1 as [[]|e1].
  2: { cbn. eexists _, _, _. split; [reflexivity|]. constructor. }
  bind_step.
  destruct (render_thumbnail_run order E no_locals w1 eq_refl)
    as (l2 & w2 & r2 & -> & _ & _ & Hr2).
  cbv beta iota.
  destruct r2 as [[]|e2].
  2: { destruct Hr2 as (-> & -> & _). cbn. eexists _, _, _. split; [reflexivity|].
       constructor. }
  bind_step. unfold Canvas at 1, put_local at 1. cbv beta iota.
  bind_step.
  match goal with
  | |- context [draw_header E ?l0 w2] =>
      destruct (draw_header_layout E l0 w2) as (l3 & -> & a3 & Hc3 & HP3)
  end.
  cbn in Hc3. cbv beta iota. bind_step.
  destruct (draw_name_layout order E l3 w2) as (l4 & -> & Hy4 & Hy4' & a4 & Hc4 & HP4).
  cbv beta iota. bind_step. unfold get_local at 1. cbv beta iota.
  bind_step. unfold set_info_top_y at 1, put_local at 1. cbv beta iota.
  bind_step.
  match goal with
  | |- context [draw_order_info order E ?l0 w2] =>
      destruct (proj2 (draw_order_info_layout order) E l0 w2)
        as (l5 & -> & Hi5 & Hy5 & Hy5' & a5 & Hc5 & HP5); [cbn; lra..|]
  end.
  cbn in Hi5, Hy5, Hy5', Hc5. cbv beta iota. bind_step.
  destruct (proj2 (draw_price_layout order) E l5 w2)
    as (l6 & -> & Hi6 & Hy6 & Hy6' & a6 & Hc6 & HP6); [lra..|].
  cbv beta iota. bind_step.
  destruct (draw_thumbnail_layout E l6 w2) as (l7 & w7 & -> & Hy7 & a7 & Hc7 & HP7);
    [rewrite Hi6, Hi5; lra..|].
  cbv beta iota. bind_step.
  destruct (proj2 (draw_filename_warning_layout order) E l7 w7)
    as (l8 & -> & _ & _ & _ & a8 & Hc8 & HP8); [rewrite Hy7; lra..|].
  cbv beta iota. bind_step.
  destruct (draw_footer_layout order E l8 w7) as (l9 & -> & a9 & Hc9 & HP9).
  cbv beta iota. bind_step.
  destruct (c_save_run out E l9 w7) as (w10 & r10 & -> & _).
  cbv beta iota.
  assert (Hall : Forall set_on_page (c l9)).
  { rewrite Hc9, Hc8, Hc7, Hc6, Hc5, Hc4, Hc3.
    repeat (apply Forall_app; split); auto. }
  destruct r10 as [[]|e10].
  - bind_step. unfold logger at 1. cbv beta iota. unfold mret at 1, Py_ret at 1.
    cbv beta iota.
    match goal with
    | |- context [cleanup_thumbnail E l9 ?w0] =>
        destruct (cleanup_thumbnail_run E l9 w0) as (w11 & -> & _)
    end.
    cbv beta iota. by exists l9, w11, true.
  - bind_step. unfold logger at 1. cbv beta iota. unfold mret at 1, Py_ret at 1.
    cbv beta iota.
    match goal with
    | |- context [cleanup_thumbnail E l9 ?w0] =>
        destruct (cleanup_thumbnail_run E l9 w0) as (w11 & -> & _)
    end.
    cbv beta iota. by exists l9, w11, false.
Qed.

(** X26: the layout of a cover sheet.  On every cover sheet a successful
    call writes (the temporary file not being at its path), whatever the
    order holds, every text starts within the left and right margins, and it
    is one of the two footer texts, 30 points above the bottom edge, or it
    lies between the header line, 40 points below the top edge, and 380
    points below the top edge: the order data, the price and the warning
    never run into the footer. *)
Theorem cover_sheet_layout (E : env) (w w' : world) (order : Order) (out : path) :
  run (create_coversheet order out) E w = (w', Return true) →
  tmp_name E ≠ out →
  ∃ ops, cover_sheet_at (fs w') out ops ∧ Forall set_on_page ops.
Proof.
  unfold run. intros Hrun Htmp.
  destruct (create_coversheet_layout E w order out) as (l' & w0 & b & Hrun' & Hall).
  rewrite Hrun' in Hrun. injection Hrun as -> ->.
  destruct (create_coversheet_run E w order out)
    as (w1 & r1 & _ & l0 & w0 & b & Hrun & H).
  rewrite Hrun' in Hrun. injection Hrun as <- <- <-.
  destruct r1 as [[]|e1]; [|by destruct H].
  destruct H as [(? & _)|(_ & w2 & w3 & _ & Htp & _ & _ & _ & _ & _ & Hsheet & _ & Hfs' & _)];
    [done|].
  exists (c l'). split; [|exact Hall].
  unfold cover_sheet_at. rewrite Hfs' by (destruct Htp as [->|[-> _]]; congruence).
  by apply Hsheet.
Qed.

Lemma cover_sheet_layout_witness :
  ∃ ops,
    cover_sheet_at
      (fs (run (create_coversheet misnamed_order ["out"; "cover.pdf"]) fair_env
             sample_world).1) ["out"; "cover.pdf"] ops
    ∧ Forall set_on_page ops.
Proof.
  apply (cover_sheet_layout fair_env sample_world _ misnamed_order ["out"; "cover.pdf"]).
  - vm_compute. reflexivity.
  - discriminate.
Defined.
